(** * lingzhi-server: the per-connection session engine

    A shallow embedding of the Go packages [model], [config], [asr], [vad],
    [llm], [tts] and [websocket], and the properties of the audio
    segmenter, the recognition dispatcher and the dialogue pipeline.

    Conventions of the embedding.
    - [[]byte] is [list byte], [[][]byte] is [list (list byte)], [len] is
      [Zlength]; a Go [int]/[int64] is a [Z] (the values that occur, sizes
      and millisecond clocks, are far from the 64-bit bounds).
    - A [float64] that holds a millisecond timestamp is the [Z] it
      represents exactly; the two fields that hold real durations
      ([TTSDuration], [CloseConnectionTimeout]) are rationals [Q].
    - A pointer to the connection state is explicit state passing.
    - The outside world is an explicit argument of each operation: the
      clock readings, the Opus decoder's verdict and the replies of the
      HTTP collaborators.  What the code does to the outside world
      (collaborator requests, log lines, sleeps) is returned as a list of
      [Event]s, oldest first.
    - A buffered channel is the list of the values it holds, oldest first.
    - The mutexes [asrMutex] and [vadMutex] guard process-wide singletons;
      one connection calls them sequentially, so they do not appear. *)

From Stdlib Require Import ZArith List Bool String Lia QArith.
From Stdlib Require Import Strings.Byte.
Import ListNotations.

Local Open Scope string_scope.
Local Open Scope list_scope.
Local Open Scope Z_scope.

(** Go's [len] on a slice. *)
Abbreviation len := Zlength (only parsing).

(* ------------------------------------------------------------------ *)
(** ** package model (golang/model/connection.go) *)

Module model.

Record Dialogue : Type := {
  Role : string;
  Content : string
}.

(** [Description] and [States] are [interface{}] values stored verbatim;
    they are kept as the raw JSON text, [None] for [nil]. *)
Record ConnectionState : Type := {
  UserId : string;
  SessionId : string;
  RoleId : string;
  DeviceId : string;
  ClientIP : string;

  ClientAbort : bool;
  ClientListenMode : string;

  ClientAudioBuffer : list byte;
  ClientHaveVoice : bool;
  ClientHaveVoiceLastTime : Z;
  ClientNoVoiceLastTime : Z;
  ClientVoiceStop : bool;

  ASRAudio : list (list byte);
  ASRServerReceive : bool;

  LLMFlag : bool;
  IoTReceived : bool;
  IoTHandled : bool;
  Description : option string;
  States : option string;

  StartSpeakTime : Z;
  TTSDuration : Q
}.

(** Assignments [conn.F = v], one per field the code writes. *)
Definition set_ClientAbort (v : bool) (c : ConnectionState)
    : ConnectionState :=
  Build_ConnectionState
    (UserId c) (SessionId c) (RoleId c) (DeviceId c) (ClientIP c) v
    (ClientListenMode c) (ClientAudioBuffer c) (ClientHaveVoice c)
    (ClientHaveVoiceLastTime c) (ClientNoVoiceLastTime c)
    (ClientVoiceStop c) (ASRAudio c) (ASRServerReceive c) (LLMFlag c)
    (IoTReceived c) (IoTHandled c) (Description c) (States c)
    (StartSpeakTime c) (TTSDuration c).

Definition set_ClientListenMode (v : string) (c : ConnectionState)
    : ConnectionState :=
  Build_ConnectionState
    (UserId c) (SessionId c) (RoleId c) (DeviceId c) (ClientIP c)
    (ClientAbort c) v (ClientAudioBuffer c) (ClientHaveVoice c)
    (ClientHaveVoiceLastTime c) (ClientNoVoiceLastTime c)
    (ClientVoiceStop c) (ASRAudio c) (ASRServerReceive c) (LLMFlag c)
    (IoTReceived c) (IoTHandled c) (Description c) (States c)
    (StartSpeakTime c) (TTSDuration c).

Definition set_ClientAudioBuffer (v : list byte) (c : ConnectionState)
    : ConnectionState :=
  Build_ConnectionState
    (UserId c) (SessionId c) (RoleId c) (DeviceId c) (ClientIP c)
    (ClientAbort c) (ClientListenMode c) v (ClientHaveVoice c)
    (ClientHaveVoiceLastTime c) (ClientNoVoiceLastTime c)
    (ClientVoiceStop c) (ASRAudio c) (ASRServerReceive c) (LLMFlag c)
    (IoTReceived c) (IoTHandled c) (Description c) (States c)
    (StartSpeakTime c) (TTSDuration c).

Definition set_ClientHaveVoice (v : bool) (c : ConnectionState)
    : ConnectionState :=
  Build_ConnectionState
    (UserId c) (SessionId c) (RoleId c) (DeviceId c) (ClientIP c)
    (ClientAbort c) (ClientListenMode c) (ClientAudioBuffer c) v
    (ClientHaveVoiceLastTime c) (ClientNoVoiceLastTime c)
    (ClientVoiceStop c) (ASRAudio c) (ASRServerReceive c) (LLMFlag c)
    (IoTReceived c) (IoTHandled c) (Description c) (States c)
    (StartSpeakTime c) (TTSDuration c).

Definition set_ClientHaveVoiceLastTime (v : Z) (c : ConnectionState)
    : ConnectionState :=
  Build_ConnectionState
    (UserId c) (SessionId c) (RoleId c) (DeviceId c) (ClientIP c)
    (ClientAbort c) (ClientListenMode c) (ClientAudioBuffer c)
    (ClientHaveVoice c) v (ClientNoVoiceLastTime c) (ClientVoiceStop c)
    (ASRAudio c) (ASRServerReceive c) (LLMFlag c) (IoTReceived c)
    (IoTHandled c) (Description c) (States c) (StartSpeakTime c)
    (TTSDuration c).

Definition set_ClientNoVoiceLastTime (v : Z) (c : ConnectionState)
    : ConnectionState :=
  Build_ConnectionState
    (UserId c) (SessionId c) (RoleId c) (DeviceId c) (ClientIP c)
    (ClientAbort c) (ClientListenMode c) (ClientAudioBuffer c)
    (ClientHaveVoice c) (ClientHaveVoiceLastTime c) v (ClientVoiceStop c)
    (ASRAudio c) (ASRServerReceive c) (LLMFlag c) (IoTReceived c)
    (IoTHandled c) (Description c) (States c) (StartSpeakTime c)
    (TTSDuration c).

Definition set_ClientVoiceStop (v : bool) (c : ConnectionState)
    : ConnectionState :=
  Build_ConnectionState
    (UserId c) (SessionId c) (RoleId c) (DeviceId c) (ClientIP c)
    (ClientAbort c) (ClientListenMode c) (ClientAudioBuffer c)
    (ClientHaveVoice c) (ClientHaveVoiceLastTime c)
    (ClientNoVoiceLastTime c) v (ASRAudio c) (ASRServerReceive c)
    (LLMFlag c) (IoTReceived c) (IoTHandled c) (Description c) (States c)
    (StartSpeakTime c) (TTSDuration c).

Definition set_ASRAudio (v : list (list byte)) (c : ConnectionState)
    : ConnectionState :=
  Build_ConnectionState
    (UserId c) (SessionId c) (RoleId c) (DeviceId c) (ClientIP c)
    (ClientAbort c) (ClientListenMode c) (ClientAudioBuffer c)
    (ClientHaveVoice c) (ClientHaveVoiceLastTime c)
    (ClientNoVoiceLastTime c) (ClientVoiceStop c) v (ASRServerReceive c)
    (LLMFlag c) (IoTReceived c) (IoTHandled c) (Description c) (States c)
    (StartSpeakTime c) (TTSDuration c).

Definition set_ASRServerReceive (v : bool) (c : ConnectionState)
    : ConnectionState :=
  Build_ConnectionState
    (UserId c) (SessionId c) (RoleId c) (DeviceId c) (ClientIP c)
    (ClientAbort c) (ClientListenMode c) (ClientAudioBuffer c)
    (ClientHaveVoice c) (ClientHaveVoiceLastTime c)
    (ClientNoVoiceLastTime c) (ClientVoiceStop c) (ASRAudio c) v (LLMFlag c)
    (IoTReceived c) (IoTHandled c) (Description c) (States c)
    (StartSpeakTime c) (TTSDuration c).

Definition set_LLMFlag (v : bool) (c : ConnectionState)
    : ConnectionState :=
  Build_ConnectionState
    (UserId c) (SessionId c) (RoleId c) (DeviceId c) (ClientIP c)
    (ClientAbort c) (ClientListenMode c) (ClientAudioBuffer c)
    (ClientHaveVoice c) (ClientHaveVoiceLastTime c)
    (ClientNoVoiceLastTime c) (ClientVoiceStop c) (ASRAudio c)
    (ASRServerReceive c) v (IoTReceived c) (IoTHandled c) (Description c)
    (States c) (StartSpeakTime c) (TTSDuration c).

Definition set_Description (v : option string) (c : ConnectionState)
    : ConnectionState :=
  Build_ConnectionState
    (UserId c) (SessionId c) (RoleId c) (DeviceId c) (ClientIP c)
    (ClientAbort c) (ClientListenMode c) (ClientAudioBuffer c)
    (ClientHaveVoice c) (ClientHaveVoiceLastTime c)
    (ClientNoVoiceLastTime c) (ClientVoiceStop c) (ASRAudio c)
    (ASRServerReceive c) (LLMFlag c) (IoTReceived c) (IoTHandled c) v
    (States c) (StartSpeakTime c) (TTSDuration c).

Definition set_States (v : option string) (c : ConnectionState)
    : ConnectionState :=
  Build_ConnectionState
    (UserId c) (SessionId c) (RoleId c) (DeviceId c) (ClientIP c)
    (ClientAbort c) (ClientListenMode c) (ClientAudioBuffer c)
    (ClientHaveVoice c) (ClientHaveVoiceLastTime c)
    (ClientNoVoiceLastTime c) (ClientVoiceStop c) (ASRAudio c)
    (ASRServerReceive c) (LLMFlag c) (IoTReceived c) (IoTHandled c)
    (Description c) v (StartSpeakTime c) (TTSDuration c).

Definition set_StartSpeakTime (v : Z) (c : ConnectionState)
    : ConnectionState :=
  Build_ConnectionState
    (UserId c) (SessionId c) (RoleId c) (DeviceId c) (ClientIP c)
    (ClientAbort c) (ClientListenMode c) (ClientAudioBuffer c)
    (ClientHaveVoice c) (ClientHaveVoiceLastTime c)
    (ClientNoVoiceLastTime c) (ClientVoiceStop c) (ASRAudio c)
    (ASRServerReceive c) (LLMFlag c) (IoTReceived c) (IoTHandled c)
    (Description c) (States c) v (TTSDuration c).

Definition set_TTSDuration (v : Q) (c : ConnectionState)
    : ConnectionState :=
  Build_ConnectionState
    (UserId c) (SessionId c) (RoleId c) (DeviceId c) (ClientIP c)
    (ClientAbort c) (ClientListenMode c) (ClientAudioBuffer c)
    (ClientHaveVoice c) (ClientHaveVoiceLastTime c)
    (ClientNoVoiceLastTime c) (ClientVoiceStop c) (ASRAudio c)
    (ASRServerReceive c) (LLMFlag c) (IoTReceived c) (IoTHandled c)
    (Description c) (States c) (StartSpeakTime c) v.

Module CommandAudioParams.
Record t : Type := {
  Format : string;
  SampleRate : Z;
  Channels : Z;
  FrameDuration : Z
}.
Definition zero : t := Build_t "" 0 0 0.
End CommandAudioParams.

Module ConnectionCommand.
Record t : Type := {
  Type_ : string;
  Version : Z;
  Session : string;
  Transport : string;
  AudioParams : CommandAudioParams.t;
  State : string;
  Mode : string;
  Text : string;
  Reason : string;
  Description : option string;
  States : option string;
  Emotion : string
}.
End ConnectionCommand.

End model.
Import model.

(* ------------------------------------------------------------------ *)
(** ** Errors, log lines and the trace of outside effects *)

(** One constructor per [fmt.Errorf] site (and per library error) of the
    modelled functions. *)
Inductive error : Type :=
| ErrNoAudio                          (* asr: no audio data to recognise *)
| ErrAudioTooLarge (length max : Z)   (* asr: audio exceeds the maximum *)
| ErrASRSend                          (* asr: client.Do failed (timeout...) *)
| ErrASRRead                          (* asr: reading the body failed *)
| ErrASRStatusCode (code : Z)         (* asr: HTTP status is not 200 *)
| ErrASRParse                         (* asr: body is not an ASRResponse *)
| ErrASRStatus (status : string)      (* asr: status is not "success" *)
| ErrLLMSend
| ErrLLMStatusCode (code : Z)
| ErrLLMRead
| ErrTTSSend
| ErrTTSRead
| ErrTTSStatusCode (code : Z)
| ErrTTSParse
| ErrTTSStatus (status : string)
| ErrTTSBase64
| ErrJSON                             (* json.Unmarshal of a control frame *)
| ErrUnknownType (t : string)         (* websocket: unknown "type" *)
| ErrVADSend
| ErrVADRead
| ErrVADParse
| ErrClientClose                      (* websocket: close message received *)
| ErrUnknownMessageType (t : Z).

Inductive result (A : Type) : Type :=
| Ok (a : A)
| Err (e : error).
Arguments Ok {A} a.
Arguments Err {A} e.

(** The spec's two classes of recognition error. *)
Definition isTooLarge (e : error) : bool :=
  match e with ErrAudioTooLarge _ _ => true | _ => false end.

Definition isUpstream (e : error) : bool :=
  match e with
  | ErrASRSend | ErrASRRead | ErrASRStatusCode _ | ErrASRParse
  | ErrASRStatus _ => true
  | _ => false
  end.

Module log.
Inductive Level : Type := LDebug | LInfo | LWarn | LError.




(** Where a logger writes: [io.Discard], the log file, [os.Stdout], or
    the [io.MultiWriter] of the file and [os.Stdout]. *)
Inductive Writer : Type :=
| Discard
| ToFile (path : string)
| Stdout
| MultiWriter (path : string).



End log.
Import log.

(** Effects on the outside world.  A log line carries its level and a tag
    naming the call site. *)
Inductive Event : Type :=
| Log (lvl : Level) (site : string)
| CallVAD (window : list byte)
| CallASR (chunks : list (list byte))
| CallLLM (dialogue : list Dialogue)
| CallTTS (text : string)
| Sleep (ms : Z).

Definition isCallASR (e : Event) : bool :=
  match e with CallASR _ => true | _ => false end.

Definition isCallTTS (e : Event) : bool :=
  match e with CallTTS _ => true | _ => false end.

(* ------------------------------------------------------------------ *)
(** ** package config (golang/config/config.go), the fields the session
    engine reads *)

Module config.

Record LLMConfig : Type := {
  URL : string;
  Timeout : Z;
  SystemPrompt : string
}.

Record WebSocketConfig : Type := {
  SampleRate : Z;
  CloseConnectionTimeout : Q
}.

Record Config : Type := {
  WebSocket : WebSocketConfig;
  LLM : LLMConfig
}.






End config.

(* ------------------------------------------------------------------ *)
(** ** package asr (utils/asr) *)

Module asr.

Record ASRConfig : Type := {
  SampleRate : Z;
  ChannelCount : Z;
  Language : string;
  ASRServerURL : string;
  Timeout : Z;
  MaxAudioSize : Z
}.

Definition DefaultASRConfig : ASRConfig := {|
  SampleRate := 16000;
  ChannelCount := 1;
  Language := "zh-CN";
  ASRServerURL := "http://localhost:8001/asr";
  Timeout := 10;
  MaxAudioSize := 1024 * 1024 * 2
|}.

(** The HTTP client is the outside world; only the configuration stays. *)
Record ASRProcessor : Type := {
  config : ASRConfig
}.

Definition NewASRProcessor (config : ASRConfig) : ASRProcessor :=
  {| config := config |}.

(** The singleton built once from the default configuration. *)
Definition getASRProcessor : ASRProcessor :=
  NewASRProcessor DefaultASRConfig.

Record ASRResponse : Type := {
  Status : string;
  Text : string
}.

(** What the recognition collaborator does with one request. *)
Inductive ASRReply : Type :=
| SendFailed                                    (* client.Do returns an error *)
| ReadFailed                                    (* io.ReadAll returns an error *)
| Http (code : Z) (body : option ASRResponse).  (* None: body is not JSON *)

(** [callASRService].  Marshalling the request and building the HTTP
    request cannot fail for these values; the request is on the wire from
    [client.Do] on. *)
Definition callASRService (a : ASRProcessor) (reply : ASRReply)
    (conn : ConnectionState) : result string * list Event :=
  let sent := [CallASR (ASRAudio conn)] in
  match reply with
  | SendFailed => (Err ErrASRSend, sent)
  | ReadFailed => (Err ErrASRRead, sent)
  | Http code body =>
      if negb (code =? 200) then (Err (ErrASRStatusCode code), sent)
      else match body with
           | None => (Err ErrASRParse, sent)
           | Some asrResponse =>
               if negb (String.eqb (Status asrResponse) "success")
               then (Err (ErrASRStatus (Status asrResponse)), sent)
               else (Ok (Text asrResponse), sent)
           end
  end.

(** The byte count of the queue, the loop at lines 108-111. *)
Definition totalLength (chunks : list (list byte)) : Z :=
  fold_left (fun length chunk => length + len chunk) chunks 0.

(** [ProcessASR]: the result, the connection state afterwards and the
    effects. *)
Definition ProcessASR (reply : ASRReply) (conn : ConnectionState)
    : result string * ConnectionState * list Event :=
  let processor := getASRProcessor in
  if len (ASRAudio conn) =? 0 then (Err ErrNoAudio, conn, [])
  else
    let length := totalLength (ASRAudio conn) in
    if length >? MaxAudioSize (config processor)
    then (Err (ErrAudioTooLarge length (MaxAudioSize (config processor))),
          conn, [])
    else
      match callASRService processor reply conn with
      | (Err err, ev) => (Err err, conn, ev ++ [Log LError "asr.ProcessASR"])
      | (Ok text, ev) => (Ok text, set_ASRAudio [] conn, ev)
      end.

(** [AddAudioData]. *)
Definition AddAudioData (conn : ConnectionState) (audioData : list byte)
    : ConnectionState :=
  set_ASRAudio (ASRAudio conn ++ [audioData]) conn.

End asr.

(* ------------------------------------------------------------------ *)
(** ** package vad (utils/vad) *)

Module vad.

Record VADConfig : Type := {
  EnergyThreshold : Q;
  SilenceThresholdMs : Z;
  SampleRate : Z;
  FrameSize : Z;
  VADServerURL : string
}.

Definition DefaultVADConfig : VADConfig := {|
  EnergyThreshold := 1 # 100;
  SilenceThresholdMs := 500;
  SampleRate := 16000;
  FrameSize := 512;
  VADServerURL := "http://localhost:8001/vad"
|}.

Record VADProcessor : Type := {
  config : VADConfig
}.

Definition NewVADProcessor (config : VADConfig) : VADProcessor :=
  {| config := config |}.

Definition getVADProcessor : VADProcessor :=
  NewVADProcessor DefaultVADConfig.

Record VADResponse : Type := {
  Status : string;
  Result : bool
}.

(** What the voice-activity collaborator does with one request.  The HTTP
    status code is not looked at by the code. *)
Inductive VADReply : Type :=
| SendFailed
| ReadFailed
| Body (resp : option VADResponse).   (* None: body is not JSON *)

(** The outside world during one iteration of the window loop: the
    collaborator's reply and the reading of [time.Now().UnixMilli()] (the
    two readings of the loop body sit in exclusive branches). *)
Record Window : Type := {
  reply : VADReply;
  now : Z
}.

(** [callVADService]: the window is padded with zeros or cut to the frame
    size, sent, and the [result] field of the answer returned. *)
Definition callVADService (v : VADProcessor) (reply : VADReply)
    (audioData : list byte) : bool * option error * list Event :=
  let frameSize := FrameSize (config v) * 2 in
  let audioData :=
    if len audioData >? frameSize
    then firstn (Z.to_nat frameSize) audioData
    else if len audioData <? frameSize
         then audioData ++ repeat x00 (Z.to_nat (frameSize - len audioData))
         else audioData in
  let sent := [CallVAD audioData] in
  match reply with
  | SendFailed => (false, Some ErrVADSend, sent)
  | ReadFailed => (false, Some ErrVADRead, sent)
  | Body None => (false, Some ErrVADParse, sent)
  | Body (Some vadResp) => (Result vadResp, None, sent)
  end.

(** The body of the loop of [processVAD] (lines 171-196), run on a buffer
    that holds at least one window.  It returns the loop variable
    [clientHaveVoice], the state and the effects. *)
Definition processVAD_body (v : VADProcessor) (w : Window)
    (conn : ConnectionState) : bool * ConnectionState * list Event :=
  let frameSize := FrameSize (config v) * 2 in
  let chunk := firstn (Z.to_nat frameSize) (ClientAudioBuffer conn) in
  let conn :=
    set_ClientAudioBuffer
      (skipn (Z.to_nat frameSize) (ClientAudioBuffer conn)) conn in
  let '(vadResult, err, ev1) := callVADService v (reply w) chunk in
  let '(vadResult, ev2) :=
    match err with
    | Some _ => (false, [Log LError "vad.callVADService"])
    | None => (vadResult, [])
    end in
  let clientHaveVoice := vadResult in
  let '(conn, ev3) :=
    if ClientHaveVoice conn && negb clientHaveVoice then
      let stopDuration := now w - ClientHaveVoiceLastTime conn in
      if stopDuration >=? SilenceThresholdMs (config v)
      then (set_ClientVoiceStop true conn, [Log LDebug "vad.voiceEnd"])
      else (conn, [])
    else (conn, []) in
  let conn :=
    if clientHaveVoice
    then set_ClientHaveVoiceLastTime (now w) (set_ClientHaveVoice true conn)
    else conn in
  (clientHaveVoice, conn, ev1 ++ ev2 ++ ev3).

(** The loop [for len(conn.ClientAudioBuffer) >= frameSize].  [windows k]
    is the outside world of the k-th iteration from here.  The recursion
    is on [fuel]; [processVAD] passes the buffer length, which is enough
    whenever the frame size is positive (each turn removes a window). *)
Fixpoint processVAD_loop (fuel : nat) (v : VADProcessor)
    (windows : nat -> Window) (conn : ConnectionState)
    (clientHaveVoice : bool) : bool * ConnectionState * list Event :=
  match fuel with
  | O => (clientHaveVoice, conn, [])
  | S fuel =>
      if len (ClientAudioBuffer conn) >=? FrameSize (config v) * 2 then
        let '(clientHaveVoice, conn, ev) :=
          processVAD_body v (windows O) conn in
        let '(r, conn, ev') :=
          processVAD_loop fuel v (fun k => windows (S k)) conn
            clientHaveVoice in
        (r, conn, ev ++ ev')
      else (clientHaveVoice, conn, [])
  end.

(** [processVAD].  [opus] is the result of [decodeOpus] on the frame:
    the PCM bytes, or [None] when decoding fails and the raw frame is
    used instead. *)
Definition processVAD (v : VADProcessor) (opus : option (list byte))
    (windows : nat -> Window) (conn : ConnectionState)
    (audioData : list byte)
    : bool * option error * ConnectionState * list Event :=
  let '(pcmData, ev0) :=
    match opus with
    | Some pcmData => (pcmData, [])
    | None => (audioData, [Log LError "vad.decodeOpus"])
    end in
  let conn :=
    set_ClientAudioBuffer (ClientAudioBuffer conn ++ pcmData) conn in
  let '(clientHaveVoice, conn, ev) :=
    processVAD_loop (List.length (ClientAudioBuffer conn)) v windows conn false in
  (clientHaveVoice, None, conn, ev0 ++ ev).

(** [IsVAD]. *)
Definition IsVAD (opus : option (list byte)) (windows : nat -> Window)
    (conn : ConnectionState) (audioData : list byte)
    : bool * ConnectionState * list Event :=
  let processor := getVADProcessor in
  let '(haveVoice, err, conn, ev) :=
    processVAD processor opus windows conn audioData in
  match err with
  | Some _ => (false, conn, ev ++ [Log LError "vad.IsVAD"])
  | None => (haveVoice, conn, ev)
  end.

(** Go's conversions [int16(x)] (wrap-around to 16 bits, signed) and
    [byte(x)] (the low 8 bits), and the value of a byte. *)
Definition int16 (x : Z) : Z := (x + 32768) mod 65536 - 32768.

Definition byteOf (x : Z) : byte :=
  match Byte.of_N (Z.to_N (x mod 256)) with
  | Some b => b
  | None => x00
  end.

Definition byteVal (b : byte) : Z := Z.of_N (Byte.to_N b).

(** The loop of [decodeOpus] (lines 137-141) that writes the decoded
    samples, [int16] values, as little-endian bytes. *)
Definition pcmBytes (pcmBuffer : list Z) : list byte :=
  flat_map
    (fun sample =>
       [byteOf (Z.land sample 255);
        byteOf (Z.land (Z.shiftr sample 8) 255)])
    pcmBuffer.

(** [bytesToInt16]: a last byte without a pair is left out. *)
Fixpoint bytesToInt16 (bytes : list byte) : list Z :=
  match bytes with
  | lo :: hi :: bytes =>
      Z.lor (int16 (byteVal lo)) (int16 (Z.shiftl (int16 (byteVal hi)) 8))
      :: bytesToInt16 bytes
  | _ => []
  end.

End vad.

(* ------------------------------------------------------------------ *)
(** ** Buffered channels

    [make(chan T, n)] is a capacity and the queued values, oldest first.
    A send inside [select] with a [default] case succeeds only below the
    capacity.  A blocking send waits for room; the value is recorded at
    the end of the queue at once, so the queue of a channel with blocking
    senders lists the buffered values followed by those of the senders
    still waiting, in the order they will be received. *)

Record Chan (T : Type) : Type := {
  cap : Z;
  queue : list T
}.
Arguments cap {T} c.
Arguments queue {T} c.

Definition make {T : Type} (n : Z) : Chan T := {| cap := n; queue := [] |}.

Definition push {T : Type} (x : T) (c : Chan T) : Chan T :=
  {| cap := cap c; queue := queue c ++ [x] |}.

Definition withQueue {T : Type} (q : list T) (c : Chan T) : Chan T :=
  {| cap := cap c; queue := q |}.

(** [select { case c <- x: ...; default: ... }]: [None] is the default
    case. *)
Definition trySend {T : Type} (x : T) (c : Chan T) : option (Chan T) :=
  if len (queue c) <? cap c then Some (push x c) else None.

(* ------------------------------------------------------------------ *)
(** ** package llm (the second file of utils/vad/vad.go) *)

Module llm.

Record LLMResponse : Type := {
  Status : string;
  Chunk : string;
  Message : string
}.

(** One line of the streamed body, after [strings.TrimSpace] and
    [json.Unmarshal]. *)
Inductive Line : Type :=
| Blank
| Malformed
| Parsed (llmResponse : LLMResponse).

(** How [reader.ReadString] fails after the last full line. *)
Inductive StreamEnd : Type :=
| EOF
| ReadError.

Inductive LLMReply : Type :=
| SendFailed
| Http (code : Z) (lines : list Line) (ending : StreamEnd).

(** The objects [ProcessLLM] reaches through its channel and pointer
    arguments.  Its caller passes [&connectionState.LLMFlag] as [llmFlag]
    and [&wsc.dialogueStore] as [dialogues]; [llmFlag] is therefore the
    field [LLMFlag] of [connectionState]. *)
Record Shared : Type := {
  ttsChan : Chan string;
  connectionState : ConnectionState;
  dialogues : list Dialogue
}.

Definition onState (f : ConnectionState -> ConnectionState) (sh : Shared)
    : Shared :=
  {| ttsChan := ttsChan sh;
     connectionState := f (connectionState sh);
     dialogues := dialogues sh |}.

(** The [for] loop over the streamed lines (lines 384-446) with what
    follows it.  [lines] are the lines not read yet. *)
Fixpoint streamLoop (lines : list Line) (ending : StreamEnd)
    (fullResponse : string) (sh : Shared)
    : option error * Shared * list Event :=
  if ClientAbort (connectionState sh)
  then (None, sh, [Log LDebug "llm.aborted"])
  else
    match lines with
    | [] =>
        match ending with
        | EOF => (None, onState (set_LLMFlag true) sh, [])
        | ReadError => (Some ErrLLMRead, sh, [Log LError "llm.read"])
        end
    | line :: lines =>
        let continue fullResponse sh ev :=
          let '(r, sh, ev') := streamLoop lines ending fullResponse sh in
          (r, sh, ev ++ ev') in
        match line with
        | Blank => continue fullResponse sh []
        | Malformed => continue fullResponse sh [Log LError "llm.parse"]
        | Parsed llmResponse =>
            if String.eqb (Status llmResponse) "streaming" then
              if negb (String.eqb (Chunk llmResponse) "") then
                let fullResponse := (fullResponse ++ Chunk llmResponse)%string in
                match trySend (Chunk llmResponse) (ttsChan sh) with
                | Some c =>
                    continue fullResponse
                      {| ttsChan := c;
                         connectionState := connectionState sh;
                         dialogues := dialogues sh |}
                      [Log LDebug "llm.chunk"]
                | None =>
                    continue fullResponse sh
                      [Log LDebug "llm.chunk"; Log LWarn "llm.channelFull"]
                end
              else continue fullResponse sh []
            else if String.eqb (Status llmResponse) "warning" then
              continue fullResponse sh [Log LWarn "llm.warning"]
            else if String.eqb (Status llmResponse) "complete" then
              (None,
               {| ttsChan := ttsChan sh;
                  connectionState := connectionState sh;
                  dialogues :=
                    dialogues sh ++
                    [{| Role := "assistant";
                        Content := Message llmResponse |}] |},
               [Log LDebug "llm.complete"])
            else continue fullResponse sh [Log LWarn "llm.unknownStatus"]
        end
    end.

(** [ProcessLLM].  The deferred [*llmFlag = false] runs on every return
    after the flag was raised. *)
Definition ProcessLLM (dialogueStore : list Dialogue) (cfg : config.Config)
    (reply : LLMReply) (sh : Shared) : option error * Shared * list Event :=
  let sent := [Log LDebug "llm.request"; CallLLM dialogueStore] in
  match reply with
  | SendFailed => (Some ErrLLMSend, sh, sent ++ [Log LError "llm.send"])
  | Http code lines ending =>
      if negb (code =? 200)
      then (Some (ErrLLMStatusCode code), sh,
            sent ++ [Log LError "llm.statusCode"])
      else
        let sh := onState (set_LLMFlag true) sh in
        let '(r, sh, ev) := streamLoop lines ending "" sh in
        (r, onState (set_LLMFlag false) sh, sent ++ ev)
  end.

End llm.

(* ------------------------------------------------------------------ *)
(** ** package tts (utils/tts) *)

Module tts.

(** [AudioData] holds, for each base64 string of the answer, what
    [base64.StdEncoding.DecodeString] makes of it ([None]: not base64). *)
Record TTSResponse : Type := {
  Status : string;
  AudioData : list (option (list byte));
  Duration : Q;
  Format : string;
  FrameDuration : Z
}.

Inductive TTSReply : Type :=
| SendFailed
| ReadFailed
| Http (code : Z) (body : option TTSResponse).

(** The decoding loop of [callTTSService]: it stops at the first string
    that is not base64. *)
Fixpoint decodeFrames (audioData : list (option (list byte)))
    : option (list (list byte)) :=
  match audioData with
  | [] => Some []
  | None :: _ => None
  | Some frameData :: rest =>
      match decodeFrames rest with
      | Some frames => Some (frameData :: frames)
      | None => None
      end
  end.

Definition callTTSService (text : string) (sessionId : string)
    (reply : TTSReply) : result (list (list byte) * Q) * list Event :=
  let sent := [CallTTS text] in
  match reply with
  | SendFailed => (Err ErrTTSSend, sent)
  | ReadFailed => (Err ErrTTSRead, sent)
  | Http code body =>
      if negb (code =? 200) then (Err (ErrTTSStatusCode code), sent)
      else match body with
           | None => (Err ErrTTSParse, sent)
           | Some ttsResponse =>
               if negb (String.eqb (Status ttsResponse) "success")
               then (Err (ErrTTSStatus (Status ttsResponse)), sent)
               else match decodeFrames (AudioData ttsResponse) with
                    | None => (Err ErrTTSBase64, sent)
                    | Some audioFrames =>
                        (Ok (audioFrames, Duration ttsResponse), sent)
                    end
           end
  end.

Definition ProcessTTS (text : string) (sessionId : string)
    (reply : TTSReply) : result (list (list byte) * Q) * list Event :=
  match callTTSService text sessionId reply with
  | (Err err, ev) => (Err err, ev ++ [Log LError "tts.ProcessTTS"])
  | (Ok r, ev) => (Ok r, ev)
  end.

End tts.

(* ------------------------------------------------------------------ *)
(** ** package websocket (golang/websocket/websocket.go) *)

Module websocket.

(** gorilla/websocket message types. *)
Definition TextMessage : Z := 1.
Definition BinaryMessage : Z := 2.
Definition CloseMessage : Z := 8.
Definition PingMessage : Z := 9.
Definition PongMessage : Z := 10.

(** The bytes of an outbound frame: the JSON encoding of a command (kept
    as the command it encodes; [json.Marshal] does not fail on it), raw
    audio, or nothing. *)
Inductive Payload : Type :=
| JSON (c : ConnectionCommand.t)
| Bytes (b : list byte)
| NoData.

Record ResponseMessage : Type := {
  MessageType : Z;
  Data : Payload
}.

(** [ctxDone] tells whether [cancelFunc] was called; [written] lists the
    frames [handleResponses] wrote to the connection; [trace] collects
    the outside effects of the session. *)
Record WebSocketConnection : Type := {
  config : config.Config;
  responseChan : Chan ResponseMessage;
  llmChan : Chan string;
  ttsChan : Chan string;
  dialogueStore : list Dialogue;
  ctxDone : bool;
  written : list ResponseMessage;
  connectionState : ConnectionState;
  trace : list Event
}.

Definition set_responseChan (v : Chan ResponseMessage) (c : WebSocketConnection)
    : WebSocketConnection :=
  Build_WebSocketConnection
    (config c) v (llmChan c) (ttsChan c) (dialogueStore c) (ctxDone c)
    (written c) (connectionState c) (trace c).

Definition set_llmChan (v : Chan string) (c : WebSocketConnection)
    : WebSocketConnection :=
  Build_WebSocketConnection
    (config c) (responseChan c) v (ttsChan c) (dialogueStore c) (ctxDone c)
    (written c) (connectionState c) (trace c).

Definition set_ttsChan (v : Chan string) (c : WebSocketConnection)
    : WebSocketConnection :=
  Build_WebSocketConnection
    (config c) (responseChan c) (llmChan c) v (dialogueStore c) (ctxDone c)
    (written c) (connectionState c) (trace c).

Definition set_dialogueStore (v : list Dialogue) (c : WebSocketConnection)
    : WebSocketConnection :=
  Build_WebSocketConnection
    (config c) (responseChan c) (llmChan c) (ttsChan c) v (ctxDone c)
    (written c) (connectionState c) (trace c).

Definition set_ctxDone (v : bool) (c : WebSocketConnection)
    : WebSocketConnection :=
  Build_WebSocketConnection
    (config c) (responseChan c) (llmChan c) (ttsChan c) (dialogueStore c) v
    (written c) (connectionState c) (trace c).

Definition set_written (v : list ResponseMessage) (c : WebSocketConnection)
    : WebSocketConnection :=
  Build_WebSocketConnection
    (config c) (responseChan c) (llmChan c) (ttsChan c) (dialogueStore c)
    (ctxDone c) v (connectionState c) (trace c).

Definition set_connectionState (v : ConnectionState) (c : WebSocketConnection)
    : WebSocketConnection :=
  Build_WebSocketConnection
    (config c) (responseChan c) (llmChan c) (ttsChan c) (dialogueStore c)
    (ctxDone c) (written c) v (trace c).

Definition set_trace (v : list Event) (c : WebSocketConnection)
    : WebSocketConnection :=
  Build_WebSocketConnection
    (config c) (responseChan c) (llmChan c) (ttsChan c) (dialogueStore c)
    (ctxDone c) (written c) (connectionState c) v.

Definition onConn (f : ConnectionState -> ConnectionState)
    (wsc : WebSocketConnection) : WebSocketConnection :=
  set_connectionState (f (connectionState wsc)) wsc.

Definition emit (ev : list Event) (wsc : WebSocketConnection)
    : WebSocketConnection :=
  set_trace (trace wsc ++ ev) wsc.

(** [NewWebSocketConnection], without the three goroutines it starts;
    their loops are [handleResponses_turn], [handleChat_turn] and
    [handleTTS_turn] below.  [deviceId], [remoteAddr] and [sessionId] are
    the "device-id" header, [r.RemoteAddr] and the fresh UUID. *)
Definition NewWebSocketConnection (deviceId remoteAddr sessionId : string)
    (cfg : config.Config) : WebSocketConnection := {|
  config := cfg;
  responseChan := make 10;
  llmChan := make 10;
  ttsChan := make 10;
  dialogueStore := [];
  ctxDone := false;
  written := [];
  connectionState := {|
    UserId := ""; SessionId := sessionId; RoleId := "";
    DeviceId := deviceId; ClientIP := remoteAddr;
    ClientAbort := false; ClientListenMode := "auto";
    ClientAudioBuffer := []; ClientHaveVoice := false;
    ClientHaveVoiceLastTime := 0; ClientNoVoiceLastTime := 0;
    ClientVoiceStop := false;
    ASRAudio := []; ASRServerReceive := true;
    LLMFlag := false; IoTReceived := false; IoTHandled := false;
    model.Description := None; model.States := None;
    StartSpeakTime := 0; TTSDuration := 0%Q |};
  trace := [Log LDebug "ws.new"]
|}.

(** A [model.ConnectionCommand] literal; the fields not listed are zero. *)
Definition command (type transport state text session : string)
    (sampleRate : Z) : ConnectionCommand.t := {|
  ConnectionCommand.Type_ := type;
  ConnectionCommand.Version := 0;
  ConnectionCommand.Session := session;
  ConnectionCommand.Transport := transport;
  ConnectionCommand.AudioParams :=
    {| CommandAudioParams.Format := "";
       CommandAudioParams.SampleRate := sampleRate;
       CommandAudioParams.Channels := 0;
       CommandAudioParams.FrameDuration := 0 |};
  ConnectionCommand.State := state;
  ConnectionCommand.Mode := "";
  ConnectionCommand.Text := text;
  ConnectionCommand.Reason := "";
  ConnectionCommand.Description := None;
  ConnectionCommand.States := None;
  ConnectionCommand.Emotion := ""
|}.

(** [sendResponse]: a blocking send unless the context is done.  (With
    the context done and room in the channel Go may take either case;
    the writer has stopped by then.) *)
Definition sendResponse (messageType : Z) (data : Payload)
    (wsc : WebSocketConnection) : WebSocketConnection :=
  if ctxDone wsc then wsc
  else set_responseChan
         (push {| MessageType := messageType; Data := data |}
               (responseChan wsc)) wsc.

(** [send2LLM]. *)
Definition send2LLM (text : string) (wsc : WebSocketConnection)
    : WebSocketConnection :=
  if ctxDone wsc then wsc
  else set_llmChan (push text (llmChan wsc)) wsc.

Definition startSpeak (wsc : WebSocketConnection) : WebSocketConnection :=
  sendResponse TextMessage (JSON (command "tts" "" "start" "" "" 0)) wsc.

Definition endSpeak (sleepuTime : Z) (wsc : WebSocketConnection)
    : WebSocketConnection :=
  let wsc := emit [Sleep sleepuTime] wsc in
  sendResponse TextMessage (JSON (command "tts" "" "stop" "" "" 0)) wsc.

Definition startSentenceSpeak (text : string) (wsc : WebSocketConnection)
    : WebSocketConnection :=
  sendResponse TextMessage
    (JSON (command "tts" "" "sentence_start" text "" 0)) wsc.

(** [TTS]. *)
Definition TTS (reply : tts.TTSReply) (text : string)
    (wsc : WebSocketConnection)
    : result (list (list byte)) * WebSocketConnection :=
  match tts.ProcessTTS text (SessionId (connectionState wsc)) reply with
  | (Err err, ev) => (Err err, emit (ev ++ [Log LError "ws.TTS"]) wsc)
  | (Ok (audioFrames, duration), ev) =>
      let wsc := emit ev wsc in
      (Ok audioFrames,
       onConn (fun c =>
                 set_TTSDuration (TTSDuration c + duration * 1000)%Q c) wsc)
  end.

(** One turn of the [for { select ... }] loop of a goroutine: it leaves
    the loop, waits (nothing to receive), or goes round. *)
Inductive Turn : Type :=
| Exited (wsc : WebSocketConnection)
| Waiting
| Next (wsc : WebSocketConnection).

(** Go's [int64(f)] on a float: truncation towards zero. *)
Definition truncQ (q : Q) : Z := Z.quot (Qnum q) (Z.pos (Qden q)).

(** The clock readings and the synthesis reply of one turn of
    [handleTTS]. *)
Record TTSWorld : Type := {
  nowStart : Z;
  ttsReply : tts.TTSReply;
  nowEnd : Z
}.

(** One turn of [handleTTS].  The channel is never closed. *)
Definition handleTTS_turn (w : TTSWorld) (wsc : WebSocketConnection)
    : Turn :=
  if ctxDone wsc then Exited (emit [Log LDebug "ws.handleTTS.exit"] wsc)
  else
    match queue (ttsChan wsc) with
    | [] => Waiting
    | text :: rest =>
        let wsc := set_ttsChan (withQueue rest (ttsChan wsc)) wsc in
        let wsc := emit [Log LDebug "ws.handleTTS.received"] wsc in
        let wsc :=
          if StartSpeakTime (connectionState wsc) =? 0
          then onConn (set_StartSpeakTime (nowStart w)) wsc
          else wsc in
        if ClientAbort (connectionState wsc)
        then Next (emit [Log LDebug "ws.handleTTS.aborted"] wsc)
        else
          match TTS (ttsReply w) text wsc with
          | (Err _, wsc) => Next (emit [Log LError "ws.handleTTS.error"] wsc)
          | (Ok audioFrames, wsc) =>
              let wsc :=
                fold_left
                  (fun wsc frame =>
                     sendResponse BinaryMessage (Bytes frame) wsc)
                  audioFrames wsc in
              if negb (LLMFlag (connectionState wsc))
                 && (len (queue (ttsChan wsc)) =? 0)
              then
                let c := connectionState wsc in
                let wsc :=
                  endSpeak
                    (truncQ (TTSDuration c
                             - inject_Z (nowEnd w - StartSpeakTime c))%Q)
                    wsc in
                let wsc := onConn (set_TTSDuration 0%Q) wsc in
                Next (onConn (set_StartSpeakTime 0) wsc)
              else Next wsc
          end
    end.


(** One turn of [handleChat]. *)
Definition handleChat_turn (reply : llm.LLMReply)
    (wsc : WebSocketConnection) : Turn :=
  if ctxDone wsc then Exited (emit [Log LDebug "ws.handleChat.exit"] wsc)
  else
    match queue (llmChan wsc) with
    | [] => Waiting
    | text :: rest =>
        let wsc := set_llmChan (withQueue rest (llmChan wsc)) wsc in
        let wsc :=
          set_dialogueStore
            (dialogueStore wsc ++ [{| Role := "user"; Content := text |}])
            wsc in
        let wsc := startSpeak wsc in
        let '(err, sh, ev) :=
          llm.ProcessLLM (dialogueStore wsc) (config wsc) reply
            {| llm.ttsChan := ttsChan wsc;
               llm.connectionState := connectionState wsc;
               llm.dialogues := dialogueStore wsc |} in
        let wsc := set_ttsChan (llm.ttsChan sh) wsc in
        let wsc := set_connectionState (llm.connectionState sh) wsc in
        let wsc := set_dialogueStore (llm.dialogues sh) wsc in
        let wsc := emit ev wsc in
        match err with
        | Some _ => Next (emit [Log LError "ws.handleChat.error"] wsc)
        | None => Next wsc
        end
    end.

(** One turn of [handleResponses]; [writeOk] tells whether
    [conn.WriteMessage] succeeds. *)
Definition handleResponses_turn (writeOk : bool)
    (wsc : WebSocketConnection) : Turn :=
  if ctxDone wsc
  then Exited (emit [Log LDebug "ws.handleResponses.exit";
                     Log LDebug "ws.handleResponses.exit"] wsc)
  else
    match queue (responseChan wsc) with
    | [] => Waiting
    | response :: rest =>
        let wsc :=
          set_responseChan (withQueue rest (responseChan wsc)) wsc in
        if writeOk
        then Next (set_written (written wsc ++ [response]) wsc)
        else
          let wsc := emit [Log LError "ws.handleResponses.write"] wsc in
          let wsc := set_ctxDone true wsc in
          Exited (emit [Log LDebug "ws.handleResponses.exit"] wsc)
    end.

(** The outside world during one call of [handleAudioMessage]: the Opus
    decoder's result on the frame, the voice-activity collaborator and
    the millisecond clock for each analysis window, the reading of
    [time.Now().Unix()] (the two readings sit in exclusive branches) and
    the recognition collaborator's reply. *)
Record AudioWorld : Type := {
  opus : option (list byte);
  windows : nat -> vad.Window;
  nowUnix : Z;
  asrReply : asr.ASRReply
}.

(** Lines 390-394: the voice state is reset after a dispatch. *)
Definition resetVAD (conn : ConnectionState) : ConnectionState :=
  let conn := set_ASRAudio [] conn in
  let conn := set_ClientAudioBuffer [] conn in
  let conn := set_ClientHaveVoice false conn in
  let conn := set_ClientHaveVoiceLastTime 0 conn in
  set_ClientVoiceStop false conn.

(** Lines 337-342 of [handleAudioMessage]: in "auto" mode the voice
    activity of the frame is detected, otherwise the flag set by the
    device's listen commands is taken. *)
Definition detectVoice (w : AudioWorld) (data : list byte)
    (conn : ConnectionState) : bool * ConnectionState * list Event :=
  if String.eqb (ClientListenMode conn) "auto"
  then vad.IsVAD (opus w) (windows w) conn data
  else (ClientHaveVoice conn, conn, []).

(** [handleAudioMessage]: the returned error ([None] for [nil]) and the
    session afterwards. *)
Definition handleAudioMessage (w : AudioWorld) (data : list byte)
    (wsc : WebSocketConnection) : option error * WebSocketConnection :=
  if negb (ASRServerReceive (connectionState wsc))
  then (None, emit [Log LDebug "ws.audio.paused"] wsc)
  else
    let '(HavaVoice, conn, ev) := detectVoice w data (connectionState wsc) in
    let wsc := emit ev (set_connectionState conn wsc) in
    if negb HavaVoice && negb (ClientHaveVoice conn) then
      let conn :=
        if ClientNoVoiceLastTime conn =? 0
        then set_ClientNoVoiceLastTime (nowUnix w * 1000) conn
        else
          let NoVoiceDuration :=
            nowUnix w * 1000 - ClientNoVoiceLastTime conn in
          if Qle_bool
               (1000 * config.CloseConnectionTimeout
                         (config.WebSocket (config wsc)))%Q
               (inject_Z NoVoiceDuration)
          then set_ASRServerReceive false (set_ClientAbort false conn)
          else conn in
      let conn := set_ASRAudio [] conn in
      (None, set_connectionState conn wsc)
    else
      let conn := set_ClientNoVoiceLastTime 0 conn in
      let conn := set_ASRAudio (ASRAudio conn ++ [data]) conn in
      if ClientVoiceStop conn then
        let wsc := emit [Log LDebug "ws.audio.voiceStopped"] wsc in
        let conn := set_ClientAbort false conn in
        let conn := set_ASRServerReceive false conn in
        if len (ASRAudio conn) <? 3 then
          let conn := set_ASRServerReceive true conn in
          (None,
           emit [Log LDebug "ws.audio.reset"]
             (set_connectionState (resetVAD conn) wsc))
        else
          let wsc := emit [Log LDebug "ws.audio.sendToASR"] wsc in
          match asr.ProcessASR (asrReply w) conn with
          | (Err err, conn, ev) =>
              (Some err,
               emit (ev ++ [Log LError "ws.audio.asrError"])
                 (set_connectionState conn wsc))
          | (Ok text, conn, ev) =>
              let wsc :=
                emit (ev ++ [Log LDebug "ws.audio.asrResult"])
                  (set_connectionState conn wsc) in
              let wsc := send2LLM text wsc in
              let conn := set_ASRServerReceive true conn in
              (None,
               emit [Log LDebug "ws.audio.reset"]
                 (set_connectionState (resetVAD conn) wsc))
          end
      else (None, set_connectionState conn wsc).

(** [handleTextMessage].  [parsed] is what [json.Unmarshal] makes of the
    frame ([None]: it fails). *)
Definition handleTextMessage (parsed : option ConnectionCommand.t)
    (wsc : WebSocketConnection) : option error * WebSocketConnection :=
  match parsed with
  | None => (Some ErrJSON, wsc)
  | Some msg_json =>
      let type := ConnectionCommand.Type_ msg_json in
      if String.eqb type "hello" then
        (None,
         sendResponse TextMessage
           (JSON (command "hello" "websocket" "" "" ""
                    (config.SampleRate (config.WebSocket (config wsc)))))
           wsc)
      else if String.eqb type "iot" then
        let wsc :=
          onConn (set_States (ConnectionCommand.States msg_json)) wsc in
        let wsc :=
          onConn (set_Description (ConnectionCommand.Description msg_json))
            wsc in
        (None, emit [Log LDebug "ws.iot.states";
                     Log LDebug "ws.iot.description"] wsc)
      else if String.eqb type "abort" then
        let wsc := emit [Log LInfo "ws.abort"] wsc in
        let wsc := onConn (set_ClientAbort true) wsc in
        (None,
         sendResponse TextMessage
           (JSON (command "tts" "" "stop" ""
                    (SessionId (connectionState wsc)) 0))
           wsc)
      else if String.eqb type "listen" then
        let wsc :=
          if negb (String.eqb (ConnectionCommand.Mode msg_json) "")
          then onConn (set_ClientListenMode (ConnectionCommand.Mode msg_json))
                 wsc
          else wsc in
        let state := ConnectionCommand.State msg_json in
        if String.eqb state "start" then
          let wsc := onConn (set_ClientHaveVoice true) wsc in
          (None, onConn (set_ClientVoiceStop false) wsc)
        else if String.eqb state "stop" then
          let wsc := onConn (set_ClientHaveVoice true) wsc in
          (None, onConn (set_ClientVoiceStop true) wsc)
        else if String.eqb state "detect" then
          let wsc := onConn (set_ClientHaveVoice false) wsc in
          (None, onConn (set_ASRAudio []) wsc)
        else (None, wsc)
      else (Some (ErrUnknownType type), wsc)
  end.

(** The outside world of one inbound message. *)
Record World : Type := {
  unmarshal : option ConnectionCommand.t;
  audio : AudioWorld
}.

(** [processMessage]. *)
Definition processMessage (w : World) (messageType : Z) (data : list byte)
    (wsc : WebSocketConnection) : option error * WebSocketConnection :=
  if messageType =? TextMessage then
    handleTextMessage (unmarshal w) (emit [Log LDebug "ws.text"] wsc)
  else if messageType =? BinaryMessage then
    handleAudioMessage (audio w) data wsc
  else if messageType =? PingMessage then
    (None, sendResponse PongMessage NoData (emit [Log LDebug "ws.ping"] wsc))
  else if messageType =? PongMessage then
    (None, emit [Log LDebug "ws.pong"] wsc)
  else if messageType =? CloseMessage then
    (Some ErrClientClose, emit [Log LDebug "ws.close"] wsc)
  else (Some (ErrUnknownMessageType messageType), wsc).

(** The read loop of [HandleConnection] on a list of inbound messages:
    an error of [processMessage] is logged and the loop goes on, except
    after a close message; a cancelled context ends the loop. *)
Fixpoint readLoop (msgs : list (World * Z * list byte))
    (wsc : WebSocketConnection) : WebSocketConnection :=
  match msgs with
  | [] => wsc
  | (w, messageType, message) :: msgs =>
      if ctxDone wsc then wsc
      else
        match processMessage w messageType message wsc with
        | (Some _, wsc) =>
            let wsc := emit [Log LError "ws.processMessage"] wsc in
            if messageType =? CloseMessage then wsc else readLoop msgs wsc
        | (None, wsc) => readLoop msgs wsc
        end
  end.

(** The loop of [handleResponses] over the outcomes of its successive
    writes; it stops when a turn leaves the loop or has to wait. *)
Fixpoint handleResponses (writes : list bool) (wsc : WebSocketConnection)
    : WebSocketConnection :=
  match writes with
  | [] => wsc
  | writeOk :: writes =>
      match handleResponses_turn writeOk wsc with
      | Exited wsc => wsc
      | Waiting => wsc
      | Next wsc => handleResponses writes wsc
      end
  end.



End websocket.

Import websocket.

(* ------------------------------------------------------------------ *)
(** ** package server (golang/server/python_api.go) *)

Module server.

Inductive InitError : Type :=
| ErrUnavailable (pythonAPI : string).

(** The probe loop of [InitializePythonAPI] from probe [i], with [remaining]
    probes to go: [health i] tells whether probe [i] of [/health] is
    answered with status 200.  It returns [ready], the number of probes
    sent and the pauses made. *)
Fixpoint probe (health : nat -> bool) (i remaining : nat)
    : bool * nat * list Event :=
  match remaining with
  | O => (false, O, [])
  | S remaining =>
      if health i then (true, 1%nat, [])
      else
        let '(ready, sent, ev) := probe health (S i) remaining in
        (ready, S sent, Sleep 1000 :: ev)
  end.

(** [InitializePythonAPI]; [pythonAPI] is the base URL made of the
    configured host and port. *)
Definition InitializePythonAPI (pythonAPI : string) (health : nat -> bool)
    : option InitError * nat * list Event :=
  let '(ready, sent, ev) := probe health 0 30 in
  let ev := Log LInfo "server.waiting" :: ev in
  if negb ready then (Some (ErrUnavailable pythonAPI), sent, ev)
  else (None, sent,
        ev ++ [Log LInfo "server.ready"; Log LInfo "server.initialized"]).

End server.

(* ------------------------------------------------------------------ *)
(** ** Observations on the model *)

(** What the window loop takes as the classification of a window: the
    collaborator's answer, and "no voice" when the call fails. *)
Definition heard (w : vad.Window) : bool :=
  match vad.reply w with
  | vad.Body (Some vadResp) => vad.Result vadResp
  | _ => false
  end.

(** The call to the voice-activity collaborator fails. *)
Definition callFails (w : vad.Window) : bool :=
  match vad.reply w with
  | vad.Body (Some _) => false
  | _ => true
  end.

(** The size in bytes of an analysis window of the singleton processor. *)
Definition frameSize : Z :=
  vad.FrameSize (vad.config vad.getVADProcessor) * 2.

(** The bytes a frame adds to the audio accumulator. *)
Definition pcmOf (w : AudioWorld) (data : list byte) : list byte :=
  match opus w with
  | Some pcmData => pcmData
  | None => data
  end.

(** The number of analysis windows [processVAD] takes from the
    accumulator when the frame arrives in state [conn]. *)
Definition windowsIn (w : AudioWorld) (data : list byte)
    (conn : ConnectionState) : nat :=
  Z.to_nat (len (ClientAudioBuffer conn ++ pcmOf w data) / frameSize).

(** The segmenter sets voice-stop during this frame: the frame is
    analysed and [ClientVoiceStop], false when the frame arrives, is true
    when the voice detection of the frame returns. *)
Definition setsVoiceStop (w : AudioWorld) (data : list byte)
    (wsc : WebSocketConnection) : bool :=
  ASRServerReceive (connectionState wsc)
  && negb (ClientVoiceStop (connectionState wsc))
  && ClientVoiceStop (snd (fst (detectVoice w data (connectionState wsc)))).

(** The session after a sequence of audio frames (the read loop logs a
    returned error and goes on). *)
Fixpoint audioRun (frames : list (AudioWorld * list byte))
    (wsc : WebSocketConnection) : WebSocketConnection :=
  match frames with
  | [] => wsc
  | (w, data) :: frames =>
      audioRun frames (snd (handleAudioMessage w data wsc))
  end.

(** How many times the segmenter sets voice-stop during a sequence of
    audio frames. *)
Fixpoint voiceStopSets (frames : list (AudioWorld * list byte))
    (wsc : WebSocketConnection) : nat :=
  match frames with
  | [] => 0%nat
  | (w, data) :: frames =>
      ((if setsVoiceStop w data wsc then 1 else 0)
       + voiceStopSets frames (snd (handleAudioMessage w data wsc)))%nat
  end.

(** Every window of the frame is classified as silence. *)
Definition silentFrame (w : AudioWorld) : Prop :=
  forall k : nat, heard (windows w k) = false.

(** The fields of the connection state that the voice detection does not
    write. *)
Definition sameOutsideVAD (c c' : ConnectionState) : Prop :=
  UserId c' = UserId c /\ SessionId c' = SessionId c /\
  RoleId c' = RoleId c /\ DeviceId c' = DeviceId c /\
  ClientIP c' = ClientIP c /\ ClientAbort c' = ClientAbort c /\
  ClientListenMode c' = ClientListenMode c /\
  ClientNoVoiceLastTime c' = ClientNoVoiceLastTime c /\
  ASRAudio c' = ASRAudio c /\ ASRServerReceive c' = ASRServerReceive c /\
  LLMFlag c' = LLMFlag c /\ IoTReceived c' = IoTReceived c /\
  IoTHandled c' = IoTHandled c /\
  model.Description c' = model.Description c /\
  model.States c' = model.States c /\
  StartSpeakTime c' = StartSpeakTime c /\ TTSDuration c' = TTSDuration c.

(** The objects of the session that the generation stage works on, as
    [handleChat] hands them to [ProcessLLM]. *)
Definition sharedOf (wsc : WebSocketConnection) : llm.Shared :=
  {| llm.ttsChan := ttsChan wsc;
     llm.connectionState := connectionState wsc;
     llm.dialogues := dialogueStore wsc |}.

(** In a voiced run of "auto" mode whose last voiced window was
    classified at millisecond [last]: audio is accepted, has-voice is set
    and voice-stop is not. *)
Definition speakingSince (last : Z) (wsc : WebSocketConnection) : Prop :=
  ASRServerReceive (connectionState wsc) = true /\
  ClientListenMode (connectionState wsc) = "auto" /\
  ClientHaveVoice (connectionState wsc) = true /\
  ClientVoiceStop (connectionState wsc) = false /\
  ClientHaveVoiceLastTime (connectionState wsc) = last.

(** No voiced run is under way: audio is not accepted, or the session is
    in "auto" mode with both voice flags down. *)
Definition atRest (wsc : WebSocketConnection) : Prop :=
  ASRServerReceive (connectionState wsc) = false \/
  (ClientListenMode (connectionState wsc) = "auto" /\
   ClientHaveVoice (connectionState wsc) = false /\
   ClientVoiceStop (connectionState wsc) = false).

(** The command types [handleTextMessage] knows. *)
Definition knownType (type : string) : bool :=
  existsb (String.eqb type) ["hello"; "iot"; "abort"; "listen"].

(** The windows sent to the voice-activity collaborator, oldest first. *)
Definition vadWindows (ev : list Event) : list (list byte) :=
  flat_map (fun e => match e with CallVAD window => [window] | _ => [] end)
    ev.

Definition isCallLLM (e : Event) : bool :=
  match e with CallLLM _ => true | _ => false end.

(** The fragments a streamed body offers to the fragment channel: the
    non-empty chunks of its "streaming" lines before its first
    "complete" line. *)
Fixpoint fragments (lines : list llm.Line) : list string :=
  match lines with
  | [] => []
  | llm.Parsed llmResponse :: lines =>
      if String.eqb (llm.Status llmResponse) "streaming" then
        if negb (String.eqb (llm.Chunk llmResponse) "")
        then llm.Chunk llmResponse :: fragments lines
        else fragments lines
      else if String.eqb (llm.Status llmResponse) "warning" then
        fragments lines
      else if String.eqb (llm.Status llmResponse) "complete" then []
      else fragments lines
  | _ :: lines => fragments lines
  end.

(** The message of the first "complete" line of a streamed body. *)
Fixpoint completion (lines : list llm.Line) : option string :=
  match lines with
  | [] => None
  | llm.Parsed llmResponse :: lines =>
      if String.eqb (llm.Status llmResponse) "streaming" then
        completion lines
      else if String.eqb (llm.Status llmResponse) "warning" then
        completion lines
      else if String.eqb (llm.Status llmResponse) "complete"
      then Some (llm.Message llmResponse)
      else completion lines
  | _ :: lines => completion lines
  end.


(** Whether a logger writes anywhere. *)
Definition writes (w : log.Writer) : bool :=
  match w with log.Discard => false | _ => true end.

(* ------------------------------------------------------------------ *)
(** ** Concrete sessions used to exercise the model *)

Module Scenario.

Definition cfg : config.Config := {|
  config.WebSocket :=
    {| config.SampleRate := 16000; config.CloseConnectionTimeout := 120%Q |};
  config.LLM :=
    {| config.URL := "http://localhost:8001";
       config.Timeout := 60;
       config.SystemPrompt := "" |}
|}.

(** A session as [NewWebSocketConnection] leaves it. *)
Definition fresh : WebSocketConnection :=
  NewWebSocketConnection "device-1" "192.0.2.7:40000" "session-1" cfg.

Definition answer (voice : bool) : vad.VADReply :=
  vad.Body (Some {| vad.Status := "success"; vad.Result := voice |}).

(** The session starts at this reading of [time.Now().UnixMilli()]. *)
Definition epoch : Z := 1700000000000.

(** An analysis window classified [t] milliseconds into the session. *)
Definition voiced (t : Z) : vad.Window :=
  {| vad.reply := answer true; vad.now := epoch + t |}.

Definition silent (t : Z) : vad.Window :=
  {| vad.reply := answer false; vad.now := epoch + t |}.

(** A frame that decodes to [n] bytes of PCM, every window of which is
    [win]; recognition answers [r]. *)
Definition world (n : nat) (win : vad.Window) (r : asr.ASRReply)
    : AudioWorld :=
  {| opus := Some (repeat x00 n);
     windows := fun _ => win;
     nowUnix := 1700000000;
     asrReply := r |}.

Definition recognised (text : string) : asr.ASRReply :=
  asr.Http 200 (Some {| asr.Status := "success"; asr.Text := text |}).

Definition frame1 : list byte := [x01].
Definition frame2 : list byte := [x02].
Definition frame3 : list byte := [x03].
Definition frame4 : list byte := [x04].

(** Two frames of speech have been heard (60 ms each: 1920 bytes of PCM,
    so one window for the first frame and two for the second). *)
Definition speaking : WebSocketConnection :=
  let s := snd (handleAudioMessage
                  (world 1920 (voiced 1000) asr.SendFailed) frame1 fresh) in
  snd (handleAudioMessage
         (world 1920 (voiced 1060) asr.SendFailed) frame2 s).

(** A third frame is silent, 540 ms after the last voiced window, and
    the recognition service answers with HTTP status 500. *)
Definition failedDispatch : option error * WebSocketConnection :=
  handleAudioMessage
    (world 1920 (silent 1600) (asr.Http 500 None)) frame3 speaking.

(** A listen command of the device. *)
Definition listen (mode state : string) : ConnectionCommand.t := {|
  ConnectionCommand.Type_ := "listen";
  ConnectionCommand.Version := 0;
  ConnectionCommand.Session := "";
  ConnectionCommand.Transport := "";
  ConnectionCommand.AudioParams := CommandAudioParams.zero;
  ConnectionCommand.State := state;
  ConnectionCommand.Mode := mode;
  ConnectionCommand.Text := "";
  ConnectionCommand.Reason := "";
  ConnectionCommand.Description := None;
  ConnectionCommand.States := None;
  ConnectionCommand.Emotion := ""
|}.

Definition abort : ConnectionCommand.t := {|
  ConnectionCommand.Type_ := "abort";
  ConnectionCommand.Version := 0;
  ConnectionCommand.Session := "";
  ConnectionCommand.Transport := "";
  ConnectionCommand.AudioParams := CommandAudioParams.zero;
  ConnectionCommand.State := "";
  ConnectionCommand.Mode := "";
  ConnectionCommand.Text := "";
  ConnectionCommand.Reason := "";
  ConnectionCommand.Description := None;
  ConnectionCommand.States := None;
  ConnectionCommand.Emotion := ""
|}.

Definition double (l : list byte) : list byte := l ++ l.

(** A binary frame of 2^21 bytes (2 MiB). *)
Definition big : list byte := Nat.iter 21 double [x00].

(** Manual mode: the device announces the start of speech, sends the
    frame [first] and [frame2], announces the end of speech and sends
    [frame3], which triggers the dispatch. *)
Definition manualDispatch (first : list byte) (r : asr.ASRReply)
    : option error * WebSocketConnection :=
  let w := world 0 (silent 0) r in
  let s := snd (handleTextMessage (Some (listen "manual" "start")) fresh) in
  let s := snd (handleAudioMessage w first s) in
  let s := snd (handleAudioMessage w frame2 s) in
  let s := snd (handleTextMessage (Some (listen "" "stop")) s) in
  handleAudioMessage w frame3 s.

(** A frame of 60 ms decodes to 960 samples, 1920 bytes.  After one such
    frame 896 bytes stay in the accumulator; the next one completes two
    windows. *)
Definition afterLongFrame : ConnectionState :=
  snd (fst (vad.IsVAD (Some (repeat x00 1920)) (fun _ => silent 1000)
              (connectionState fresh) frame1)).

(** The call for the first window fails, the second window is voiced. *)
Definition failThenVoice (k : nat) : vad.Window :=
  match k with
  | O => {| vad.reply := vad.SendFailed; vad.now := epoch + 1060 |}
  | S _ => voiced 1070
  end.

(** Manual mode, the device announces the end of speech at once. *)
Definition stopped : WebSocketConnection :=
  snd (handleTextMessage (Some (listen "manual" "stop")) fresh).

(** After the two voiced frames of [speaking]: a silent frame 140 ms
    after the last voice, a silent frame 540 ms after it, and a later
    silent frame. *)
Definition silence : list (AudioWorld * list byte) :=
  [(world 1920 (silent 1200) (recognised "hi"), frame3)].

Definition silenceReached : AudioWorld * list byte :=
  (world 1920 (silent 1600) (recognised "hi"), frame4).

Definition silenceAfter : list (AudioWorld * list byte) :=
  [(world 1920 (silent 1700) (recognised "hi"), frame1)].

(** A streamed fragment. *)
Definition fragment (text : string) : llm.LLMResponse :=
  {| llm.Status := "streaming"; llm.Chunk := text; llm.Message := "" |}.

Definition complete (text : string) : llm.LLMResponse :=
  {| llm.Status := "complete"; llm.Chunk := ""; llm.Message := text |}.

(** Mid-reply: the user turn is recorded, two fragments wait for
    synthesis and the generation stage is reading its stream. *)
Definition replying : WebSocketConnection :=
  set_ttsChan (push "world" (push "hello" (ttsChan fresh)))
    (set_dialogueStore [{| Role := "user"; Content := "hi" |}] fresh).

(** The same with ten fragments waiting: the fragment queue is full. *)
Definition congested : llm.Shared :=
  {| llm.ttsChan :=
       withQueue (repeat "again" 10) (ttsChan fresh);
     llm.connectionState := connectionState fresh;
     llm.dialogues := [{| Role := "user"; Content := "hi" |}] |}.

Definition synthesis : TTSWorld :=
  {| nowStart := 5000;
     ttsReply :=
       tts.Http 200
         (Some {| tts.Status := "success";
                  tts.AudioData := [Some [x0a]; Some [x0b]];
                  tts.Duration := 1 # 2;
                  tts.Format := "opus";
                  tts.FrameDuration := 60 |});
     nowEnd := 5100 |}.



End Scenario.

(* ------------------------------------------------------------------ *)
(** ** Proof tools *)

(** Reduce projections of updated records and nothing else. *)
Ltac fields :=
  cbn [UserId SessionId RoleId DeviceId ClientIP ClientAbort
       ClientListenMode ClientAudioBuffer ClientHaveVoice
       ClientHaveVoiceLastTime ClientNoVoiceLastTime ClientVoiceStop
       ASRAudio ASRServerReceive LLMFlag IoTReceived IoTHandled
       model.Description model.States StartSpeakTime TTSDuration
       set_ClientAbort set_ClientListenMode set_ClientAudioBuffer
       set_ClientHaveVoice set_ClientHaveVoiceLastTime
       set_ClientNoVoiceLastTime set_ClientVoiceStop set_ASRAudio
       set_ASRServerReceive set_LLMFlag set_Description set_States
       set_StartSpeakTime set_TTSDuration
       websocket.config responseChan llmChan ttsChan dialogueStore ctxDone
       written connectionState trace
       set_responseChan set_llmChan set_ttsChan set_dialogueStore
       set_ctxDone set_written set_connectionState set_trace
       onConn emit resetVAD cap queue push withQueue
       llm.ttsChan llm.connectionState llm.dialogues llm.onState
       fst snd] in *.

(** Turn every [len] of the context into the length it is. *)
Ltac zlen :=
  repeat match goal with
         | H : context [Zlength ?l] |- _ => rewrite (Zlength_correct l) in H
         | |- context [Zlength ?l] => rewrite (Zlength_correct l)
         end.

(* ------------------------------------------------------------------ *)
(** ** Audio acceptance *)

Lemma handleAudioMessage_paused :
  forall (w : AudioWorld) (data : list byte) (wsc : WebSocketConnection),
    ASRServerReceive (connectionState wsc) = false ->
    handleAudioMessage w data wsc
    = (None, emit [Log LDebug "ws.audio.paused"] wsc).
Proof.
  intros w data wsc Hoff.
  unfold handleAudioMessage.
  now rewrite Hoff.
Qed.

(** C6.  While [ASRServerReceive] is false [handleAudioMessage] drops the
    frame: it returns nil and the connection state (audio accumulator,
    utterance queue, voice flags and all other fields), the dialogue
    history and the three channels are what they were; the only effect
    is the debug log line. *)
Theorem C6_frame_dropped_while_not_accepting :
  forall (w : AudioWorld) (data : list byte) (wsc : WebSocketConnection),
    ASRServerReceive (connectionState wsc) = false ->
    let '(err, wsc') := handleAudioMessage w data wsc in
    err = None /\
    connectionState wsc' = connectionState wsc /\
    dialogueStore wsc' = dialogueStore wsc /\
    llmChan wsc' = llmChan wsc /\
    ttsChan wsc' = ttsChan wsc /\
    responseChan wsc' = responseChan wsc /\
    trace wsc' = trace wsc ++ [Log LDebug "ws.audio.paused"].
Proof.
  intros w data wsc Hoff.
  rewrite (handleAudioMessage_paused w data wsc Hoff).
  repeat split.
Qed.

Lemma C6_witness :
  ASRServerReceive (connectionState (snd Scenario.failedDispatch)) = false /\
  let '(err, wsc') :=
    handleAudioMessage (Scenario.world 1920 (Scenario.voiced 1700)
                          (Scenario.recognised "hi"))
      Scenario.frame4 (snd Scenario.failedDispatch) in
  err = None /\
  connectionState wsc' = connectionState (snd Scenario.failedDispatch) /\
  dialogueStore wsc' = dialogueStore (snd Scenario.failedDispatch) /\
  llmChan wsc' = llmChan (snd Scenario.failedDispatch) /\
  ttsChan wsc' = ttsChan (snd Scenario.failedDispatch) /\
  responseChan wsc' = responseChan (snd Scenario.failedDispatch) /\
  trace wsc' =
    trace (snd Scenario.failedDispatch) ++ [Log LDebug "ws.audio.paused"].
Proof.
  split.
  - vm_compute. reflexivity.
  - apply (C6_frame_dropped_while_not_accepting
             (Scenario.world 1920 (Scenario.voiced 1700)
                (Scenario.recognised "hi"))
             Scenario.frame4 (snd Scenario.failedDispatch)).
    vm_compute. reflexivity.
Defined.

(* ------------------------------------------------------------------ *)
(** ** The recognition dispatcher *)

(** C10.  [ProcessASR] on an empty utterance queue returns an error,
    sends nothing to the recognition collaborator (no effect at all) and
    leaves the connection state as it was. *)
Theorem C10_ProcessASR_empty_queue :
  forall (reply : asr.ASRReply) (conn : ConnectionState),
    ASRAudio conn = [] ->
    asr.ProcessASR reply conn = (Err ErrNoAudio, conn, []).
Proof.
  intros reply conn Hempty.
  unfold asr.ProcessASR.
  rewrite Hempty.
  reflexivity.
Qed.

Lemma C10_witness :
  ASRAudio (connectionState Scenario.fresh) = [] /\
  asr.ProcessASR (Scenario.recognised "hello")
    (connectionState Scenario.fresh)
  = (Err ErrNoAudio, connectionState Scenario.fresh, []).
Proof.
  split; [reflexivity | apply C10_ProcessASR_empty_queue; reflexivity].
Defined.

(** [ProcessASR] never changes the state when it fails, and then the
    queue is what it was. *)
Lemma ProcessASR_error_keeps_state :
  forall reply conn e conn' ev,
    asr.ProcessASR reply conn = (Err e, conn', ev) -> conn' = conn.
Proof.
  intros reply conn e conn' ev.
  unfold asr.ProcessASR.
  destruct (len (ASRAudio conn) =? 0); [congruence |].
  destruct (asr.totalLength (ASRAudio conn)
            >? asr.MaxAudioSize (asr.config asr.getASRProcessor));
    [congruence |].
  destruct (asr.callASRService _ _ _) as [[text | err] evs]; congruence.
Qed.

(** C1.  Evaluation at the failing input: three frames of an utterance,
    then the recognition service answers with status 500.  The dispatch
    returns an upstream error and routes no text; but the
    utterance queue still holds the three frames and [ASRServerReceive]
    is false, so every later frame is dropped. *)
Theorem C1_failed_recognition_blocks_audio :
  fst Scenario.failedDispatch = Some (ErrASRStatusCode 500) /\
  isUpstream (ErrASRStatusCode 500) = true /\
  queue (llmChan (snd Scenario.failedDispatch)) = [] /\
  ASRAudio (connectionState (snd Scenario.failedDispatch))
  = [Scenario.frame1; Scenario.frame2; Scenario.frame3] /\
  ASRServerReceive (connectionState (snd Scenario.failedDispatch)) = false /\
  forall w data,
    handleAudioMessage w data (snd Scenario.failedDispatch)
    = (None, emit [Log LDebug "ws.audio.paused"]
               (snd Scenario.failedDispatch)).
Proof.
  split; [vm_compute; reflexivity |].
  split; [reflexivity |].
  split; [vm_compute; reflexivity |].
  split; [vm_compute; reflexivity |].
  split; [vm_compute; reflexivity |].
  intros w data.
  apply handleAudioMessage_paused.
  vm_compute; reflexivity.
Qed.

(** C5.  Evaluation at the same failing input: the silent window raised
    [ClientVoiceStop] while [ClientHaveVoice] was true and the utterance
    was handed to recognition, but after the failed dispatch both flags
    are still true: they were not reset. *)
Theorem C5_flags_not_reset_after_failed_dispatch :
  ClientHaveVoice (connectionState Scenario.speaking) = true /\
  ClientVoiceStop (connectionState Scenario.speaking) = false /\
  fst Scenario.failedDispatch <> None /\
  filter isCallASR (trace (snd Scenario.failedDispatch))
  = [CallASR [Scenario.frame1; Scenario.frame2; Scenario.frame3]] /\
  ClientVoiceStop (connectionState (snd Scenario.failedDispatch)) = true /\
  ClientHaveVoice (connectionState (snd Scenario.failedDispatch)) = true.
Proof.
  split; [vm_compute; reflexivity |].
  split; [vm_compute; reflexivity |].
  split; [vm_compute; discriminate |].
  split; [vm_compute; reflexivity |].
  split; vm_compute; reflexivity.
Qed.

(** The state of the connection when [handleAudioMessage] reaches the
    call of [ProcessASR] (after lines 362-369). *)
Lemma handleAudioMessage_dispatch :
  forall (w : AudioWorld) (data : list byte) (wsc : WebSocketConnection)
         (hv : bool) (conn : ConnectionState) (ev : list Event),
    ASRServerReceive (connectionState wsc) = true ->
    detectVoice w data (connectionState wsc) = (hv, conn, ev) ->
    hv || ClientHaveVoice conn = true ->
    ClientVoiceStop conn = true ->
    3 <= len (ASRAudio conn ++ [data]) ->
    let queued :=
      set_ASRServerReceive false
        (set_ClientAbort false
           (set_ASRAudio (ASRAudio conn ++ [data])
              (set_ClientNoVoiceLastTime 0 conn))) in
    let wsc1 :=
      emit [Log LDebug "ws.audio.sendToASR"]
        (emit [Log LDebug "ws.audio.voiceStopped"]
           (emit ev (set_connectionState conn wsc))) in
    handleAudioMessage w data wsc =
    match asr.ProcessASR (asrReply w) queued with
    | (Err err, conn, ev) =>
        (Some err,
         emit (ev ++ [Log LError "ws.audio.asrError"])
           (set_connectionState conn wsc1))
    | (Ok text, conn, ev) =>
        (None,
         emit [Log LDebug "ws.audio.reset"]
           (set_connectionState
              (resetVAD (set_ASRServerReceive true conn))
              (send2LLM text
                 (emit (ev ++ [Log LDebug "ws.audio.asrResult"])
                    (set_connectionState conn wsc1)))))
    end.
Proof.
  intros w data wsc hv conn ev Hon Hdet Hvoice Hstop Hlen queued wsc1.
  unfold handleAudioMessage.
  rewrite Hon, Hdet. cbn [negb].
  replace (negb hv && negb (ClientHaveVoice conn)) with false
    by (destruct hv, (ClientHaveVoice conn); cbn in *; congruence).
  fields. rewrite Hstop.
  replace (len (ASRAudio conn ++ [data]) <? 3) with false
    by (symmetry; apply Z.ltb_ge; exact Hlen).
  reflexivity.
Qed.

Lemma ProcessASR_too_large :
  forall reply conn,
    ASRAudio conn <> [] ->
    asr.totalLength (ASRAudio conn) > 2097152 ->
    asr.ProcessASR reply conn
    = (Err (ErrAudioTooLarge (asr.totalLength (ASRAudio conn)) 2097152),
       conn, []).
Proof.
  intros reply conn Hne Hbig.
  unfold asr.ProcessASR.
  destruct (len (ASRAudio conn) =? 0) eqn:E.
  - apply Z.eqb_eq in E. apply Zlength_nil_inv in E. contradiction.
  - change (asr.MaxAudioSize (asr.config asr.getASRProcessor)) with 2097152.
    destruct (asr.totalLength (ASRAudio conn) >? 2097152) eqn:G.
    + reflexivity.
    + rewrite Z.gtb_ltb in G. apply Z.ltb_ge in G. lia.
Qed.

Lemma Zlength_app_add :
  forall (A : Type) (l l' : list A), len (l ++ l') = len l + len l'.
Proof.
  intros A l l'.
  rewrite !Zlength_correct, length_app. lia.
Qed.

Lemma Zlength_iter_double :
  forall (n : nat) (l : list byte),
    len (Nat.iter n Scenario.double l) = 2 ^ Z.of_nat n * len l.
Proof.
  induction n as [| n IH]; intro l.
  - change (Nat.iter 0 Scenario.double l) with l.
    change (2 ^ Z.of_nat 0) with 1. lia.
  - rewrite Nat.iter_succ. unfold Scenario.double at 1.
    rewrite Zlength_app_add, IH, Nat2Z.inj_succ.
    rewrite Z.pow_succ_r by apply Nat2Z.is_nonneg.
    ring.
Qed.

Lemma Zlength_big : len Scenario.big = 2097152.
Proof.
  unfold Scenario.big.
  rewrite Zlength_iter_double.
  reflexivity.
Qed.

(** The dispatch of an utterance of more than 2 MiB, outside "auto"
    mode: the early return of line 381. *)
Lemma manual_dispatch_too_large :
  forall (w : AudioWorld) (data : list byte) (wsc : WebSocketConnection),
    ASRServerReceive (connectionState wsc) = true ->
    String.eqb (ClientListenMode (connectionState wsc)) "auto" = false ->
    ClientHaveVoice (connectionState wsc) = true ->
    ClientVoiceStop (connectionState wsc) = true ->
    3 <= len (ASRAudio (connectionState wsc) ++ [data]) ->
    asr.totalLength (ASRAudio (connectionState wsc) ++ [data]) > 2097152 ->
    let r := handleAudioMessage w data wsc in
    fst r
    = Some (ErrAudioTooLarge
              (asr.totalLength (ASRAudio (connectionState wsc) ++ [data]))
              2097152) /\
    trace (snd r)
    = (((trace wsc ++ []) ++ [Log LDebug "ws.audio.voiceStopped"])
       ++ [Log LDebug "ws.audio.sendToASR"])
      ++ [] ++ [Log LError "ws.audio.asrError"] /\
    ASRAudio (connectionState (snd r))
    = ASRAudio (connectionState wsc) ++ [data] /\
    ASRServerReceive (connectionState (snd r)) = false.
Proof.
  intros w data wsc Hon Hmode Hvoice Hstop Hlen Hbig r.
  assert (Hdet : detectVoice w data (connectionState wsc)
                 = (true, connectionState wsc, [])).
  { unfold detectVoice. now rewrite Hmode, Hvoice. }
  subst r.
  rewrite (handleAudioMessage_dispatch w data wsc true (connectionState wsc)
             [] Hon Hdet eq_refl Hstop Hlen).
  rewrite ProcessASR_too_large.
  - fields. repeat split.
  - fields. destruct (ASRAudio (connectionState wsc)); discriminate.
  - fields. exact Hbig.
Qed.

Lemma manualDispatch_too_large :
  forall (first : list byte) (r : asr.ASRReply),
    len first = 2097152 ->
    fst (Scenario.manualDispatch first r)
    = Some (ErrAudioTooLarge 2097154 2097152) /\
    filter isCallASR (trace (snd (Scenario.manualDispatch first r))) = [] /\
    ASRAudio (connectionState (snd (Scenario.manualDispatch first r)))
    = [first; Scenario.frame2; Scenario.frame3] /\
    ASRServerReceive (connectionState (snd (Scenario.manualDispatch first r)))
    = false.
Proof.
  intros first r Hfirst.
  unfold Scenario.manualDispatch.
  match goal with
  | |- context [handleAudioMessage ?w Scenario.frame3 ?s] =>
      assert (Hon : ASRServerReceive (connectionState s) = true)
        by (vm_compute; reflexivity);
      assert (Hmode : String.eqb (ClientListenMode (connectionState s))
                        "auto" = false)
        by (vm_compute; reflexivity);
      assert (Hvoice : ClientHaveVoice (connectionState s) = true)
        by (vm_compute; reflexivity);
      assert (Hstop : ClientVoiceStop (connectionState s) = true)
        by (vm_compute; reflexivity);
      assert (Hq : ASRAudio (connectionState s) = [first; Scenario.frame2])
        by (vm_compute; reflexivity);
      assert (Htr : trace s = [Log LDebug "ws.new"])
        by (vm_compute; reflexivity);
      generalize dependent s; generalize w
  end.
  intros w s Hon Hmode Hvoice Hstop Hq Htr.
  assert (Htotal : asr.totalLength
                     (ASRAudio (connectionState s) ++ [Scenario.frame3])
                   = 2097154).
  { rewrite Hq. unfold asr.totalLength. cbn [app fold_left].
    rewrite Hfirst. reflexivity. }
  destruct (manual_dispatch_too_large w Scenario.frame3 s Hon Hmode Hvoice
              Hstop)
    as (Herr & Htrace & Hqueue & Hoff).
  - rewrite Hq. vm_compute. discriminate.
  - rewrite Htotal. reflexivity.
  - rewrite Htotal in Herr. rewrite Hq in Hqueue. rewrite Htr in Htrace.
    split; [exact Herr |].
    split; [rewrite Htrace; reflexivity |].
    split; [exact Hqueue | exact Hoff].
Qed.

(** C2.  Evaluation at the failing input: in manual mode the device
    sends a frame of 2 MiB and a second frame, then the end of speech and
    a third frame, 2097154 bytes in all.  The dispatch returns the
    too-large error and sends nothing to the recognition collaborator;
    but the utterance queue still holds the three frames and
    [ASRServerReceive] is false. *)
Theorem C2_oversized_utterance_blocks_audio :
  fst (Scenario.manualDispatch Scenario.big asr.SendFailed)
  = Some (ErrAudioTooLarge 2097154 2097152) /\
  isTooLarge (ErrAudioTooLarge 2097154 2097152) = true /\
  filter isCallASR
    (trace (snd (Scenario.manualDispatch Scenario.big asr.SendFailed))) = [] /\
  ASRAudio
    (connectionState
       (snd (Scenario.manualDispatch Scenario.big asr.SendFailed)))
  = [Scenario.big; Scenario.frame2; Scenario.frame3] /\
  ASRServerReceive
    (connectionState
       (snd (Scenario.manualDispatch Scenario.big asr.SendFailed)))
  = false.
Proof.
  destruct (manualDispatch_too_large Scenario.big asr.SendFailed Zlength_big)
    as (Herr & Hcalls & Hqueue & Hoff).
  split; [exact Herr |].
  split; [reflexivity |].
  split; [exact Hcalls |].
  split; [exact Hqueue | exact Hoff].
Qed.

(* ------------------------------------------------------------------ *)
(** ** The audio segmenter: the window loop *)

Lemma sameOutsideVAD_refl : forall c, sameOutsideVAD c c.
Proof. intro c. unfold sameOutsideVAD. repeat split. Qed.

Lemma sameOutsideVAD_trans :
  forall c1 c2 c3,
    sameOutsideVAD c1 c2 -> sameOutsideVAD c2 c3 -> sameOutsideVAD c1 c3.
Proof.
  unfold sameOutsideVAD. intros c1 c2 c3 H12 H23.
  repeat match goal with H : _ /\ _ |- _ => destruct H end.
  repeat split; congruence.
Qed.

(** What one turn of the loop does to the state. *)
Lemma processVAD_body_spec :
  forall (v : vad.VADProcessor) (w : vad.Window) (conn : ConnectionState),
    let '(chv, conn', ev) := vad.processVAD_body v w conn in
    chv = heard w /\
    ClientAudioBuffer conn'
    = skipn (Z.to_nat (vad.FrameSize (vad.config v) * 2))
        (ClientAudioBuffer conn) /\
    ClientHaveVoice conn' = ClientHaveVoice conn || heard w /\
    ClientHaveVoiceLastTime conn'
    = (if heard w then vad.now w else ClientHaveVoiceLastTime conn) /\
    ClientVoiceStop conn'
    = ClientVoiceStop conn
      || (ClientHaveVoice conn && negb (heard w)
          && (vad.now w - ClientHaveVoiceLastTime conn
              >=? vad.SilenceThresholdMs (vad.config v))) /\
    sameOutsideVAD conn conn' /\
    Forall (fun e => isCallASR e = false) ev.
Proof.
  intros v w conn.
  unfold vad.processVAD_body, vad.callVADService, heard.
  destruct (vad.reply w) as [| | [vadResp |]];
    try destruct (vad.Result vadResp); fields;
    destruct (ClientHaveVoice conn) eqn:Ehv;
    destruct (ClientVoiceStop conn) eqn:Estop;
    destruct (vad.now w - ClientHaveVoiceLastTime conn
              >=? vad.SilenceThresholdMs (vad.config v)) eqn:Egap;
    fields; unfold sameOutsideVAD; repeat split; fields;
    rewrite ?Ehv, ?Estop; try reflexivity; repeat constructor.
Qed.

Lemma Zlength_skipn :
  forall (A : Type) (n : Z) (l : list A),
    0 <= n <= len l -> len (skipn (Z.to_nat n) l) = len l - n.
Proof.
  intros A n l Hn.
  rewrite !Zlength_correct in *.
  rewrite length_skipn. lia.
Qed.


(** The loop only writes the fields of the voice detection, calls no
    recognition, never lowers a voice flag, and raises voice-stop only
    with has-voice. *)
Lemma processVAD_loop_spec :
  forall (fuel : nat) (v : vad.VADProcessor) (ws : nat -> vad.Window)
         (conn : ConnectionState) (chv : bool),
    let '(r, conn', ev) := vad.processVAD_loop fuel v ws conn chv in
    sameOutsideVAD conn conn' /\
    Forall (fun e => isCallASR e = false) ev /\
    (ClientVoiceStop conn = true -> ClientVoiceStop conn' = true) /\
    (ClientHaveVoice conn = true -> ClientHaveVoice conn' = true) /\
    (ClientVoiceStop conn' = true ->
     ClientVoiceStop conn = true \/ ClientHaveVoice conn' = true) /\
    (r = true -> chv = true \/ ClientHaveVoice conn' = true).
Proof.
  induction fuel as [| fuel IH]; intros v ws conn chv.
  - cbn [vad.processVAD_loop].
    repeat split; auto using sameOutsideVAD_refl.
  - cbn [vad.processVAD_loop].
    destruct (len (ClientAudioBuffer conn) >=? vad.FrameSize (vad.config v) * 2).
    + pose proof (processVAD_body_spec v (ws O) conn) as Hbody.
      destruct (vad.processVAD_body v (ws O) conn) as [[c conn1] ev1].
      destruct Hbody as (Hc & Hbuf & Hhv & Hlast & Hstop & Hsame & Hev).
      specialize (IH v (fun k => ws (S k)) conn1 c).
      destruct (vad.processVAD_loop fuel v (fun k => ws (S k)) conn1 c)
        as [[r conn2] ev2].
      destruct IH as (Isame & Iev & Istop & Ihv & Iraise & Ir).
      split; [eapply sameOutsideVAD_trans; eassumption |].
      split; [apply Forall_app; split; assumption |].
      split.
      { intro H. apply Istop. rewrite Hstop, H. reflexivity. }
      split.
      { intro H. apply Ihv. rewrite Hhv, H. reflexivity. }
      split.
      { intro H. destruct (Iraise H) as [H1 | H1]; [| now right].
        rewrite Hstop in H1.
        destruct (ClientVoiceStop conn); [now left | right].
        cbn [orb] in H1.
        apply Ihv. rewrite Hhv.
        destruct (ClientHaveVoice conn); [reflexivity | discriminate]. }
      { intro H. right. destruct (Ir H) as [H1 | H1]; [| exact H1].
        apply Ihv. rewrite Hhv, <- Hc, H1. apply orb_true_r. }
    + repeat split; auto using sameOutsideVAD_refl.
Qed.

(** A buffer shorter than a window: the loop does nothing. *)
Lemma processVAD_loop_short :
  forall (fuel : nat) (v : vad.VADProcessor) (ws : nat -> vad.Window)
         (conn : ConnectionState) (chv : bool),
    len (ClientAudioBuffer conn) < vad.FrameSize (vad.config v) * 2 ->
    vad.processVAD_loop fuel v ws conn chv = (chv, conn, []).
Proof.
  intros fuel v ws conn chv Hshort.
  destruct fuel as [| fuel]; cbn [vad.processVAD_loop]; [reflexivity |].
  replace (len (ClientAudioBuffer conn) >=? vad.FrameSize (vad.config v) * 2)
    with false; [reflexivity |].
  symmetry. rewrite Z.geb_leb. apply Z.leb_gt. exact Hshort.
Qed.

(** Silent windows leave has-voice and the time of the last voice as
    they are; they leave voice-stop as it is when there is no voice, or
    when none of them comes as late as the silence threshold. *)
Lemma processVAD_loop_silent :
  forall (fuel : nat) (v : vad.VADProcessor) (ws : nat -> vad.Window)
         (conn : ConnectionState) (chv : bool),
    (forall k, heard (ws k) = false) ->
    let '(r, conn', ev) := vad.processVAD_loop fuel v ws conn chv in
    ClientHaveVoice conn' = ClientHaveVoice conn /\
    ClientHaveVoiceLastTime conn' = ClientHaveVoiceLastTime conn /\
    (r = true -> chv = true) /\
    (ClientHaveVoice conn = false ->
     ClientVoiceStop conn' = ClientVoiceStop conn) /\
    ((forall k, vad.now (ws k) - ClientHaveVoiceLastTime conn
                < vad.SilenceThresholdMs (vad.config v)) ->
     ClientVoiceStop conn' = ClientVoiceStop conn).
Proof.
  induction fuel as [| fuel IH]; intros v ws conn chv Hsilent.
  - cbn [vad.processVAD_loop]. repeat split; auto.
  - cbn [vad.processVAD_loop].
    destruct (len (ClientAudioBuffer conn) >=? vad.FrameSize (vad.config v) * 2).
    + pose proof (processVAD_body_spec v (ws O) conn) as Hbody.
      destruct (vad.processVAD_body v (ws O) conn) as [[c conn1] ev1].
      destruct Hbody as (Hc & Hbuf & Hhv & Hlast & Hstop & Hsame & Hev).
      rewrite (Hsilent O) in *.
      rewrite orb_false_r in Hhv. cbn [negb] in Hstop.
      rewrite andb_true_r in Hstop.
      specialize (IH v (fun k => ws (S k)) conn1 c (fun k => Hsilent (S k))).
      destruct (vad.processVAD_loop fuel v (fun k => ws (S k)) conn1 c)
        as [[r conn2] ev2].
      destruct IH as (Ihv & Ilast & Ir & Inovoice & Iquiet).
      split; [congruence |].
      split; [congruence |].
      split; [intro H; apply Ir in H; congruence |].
      split.
      { intro H. rewrite Inovoice by congruence.
        rewrite Hstop, H. cbn [andb]. apply orb_false_r. }
      { intro H. rewrite Iquiet.
        - rewrite Hstop.
          replace (vad.now (ws O) - ClientHaveVoiceLastTime conn
                   >=? vad.SilenceThresholdMs (vad.config v)) with false.
          + rewrite andb_false_r. apply orb_false_r.
          + symmetry. rewrite Z.geb_leb. apply Z.leb_gt. apply H.
        - intro k. rewrite Hlast. apply (H (S k)). }
    + repeat split; auto.
Qed.

(** A silent window that comes a silence threshold after the last voice
    raises voice-stop, when there is voice and the window is analysed. *)
Lemma processVAD_loop_raises :
  forall (k fuel : nat) (v : vad.VADProcessor) (ws : nat -> vad.Window)
         (conn : ConnectionState) (chv : bool),
    0 < vad.FrameSize (vad.config v) * 2 ->
    (List.length (ClientAudioBuffer conn) <= fuel)%nat ->
    (forall j, heard (ws j) = false) ->
    ClientHaveVoice conn = true ->
    (k < Z.to_nat (len (ClientAudioBuffer conn)
                   / (vad.FrameSize (vad.config v) * 2)))%nat ->
    vad.SilenceThresholdMs (vad.config v)
    <= vad.now (ws k) - ClientHaveVoiceLastTime conn ->
    ClientVoiceStop
      (snd (fst (vad.processVAD_loop fuel v ws conn chv))) = true.
Proof.
  induction k as [| k IH]; intros fuel v ws conn chv Hfs Hfuel Hsilent Hvoice
                                  Hk Hgap.
  all: set (fs := vad.FrameSize (vad.config v) * 2) in *.
  all: assert (Hwin : fs <= len (ClientAudioBuffer conn)).
  1, 3: destruct (Z.lt_ge_cases (len (ClientAudioBuffer conn)) fs) as [Hlt | Hge];
    [ rewrite Z.div_small in Hk
        by (split; [rewrite Zlength_correct; lia | exact Hlt]);
      cbn in Hk; lia
    | exact Hge ].
  all: destruct fuel as [| fuel];
    [ rewrite Zlength_correct in Hwin; lia |].
  all: cbn [vad.processVAD_loop]; fold fs.
  all: replace (len (ClientAudioBuffer conn) >=? fs) with true
    by (symmetry; rewrite Z.geb_leb; apply Z.leb_le; exact Hwin).
  all: pose proof (processVAD_body_spec v (ws O) conn) as Hbody.
  all: destruct (vad.processVAD_body v (ws O) conn) as [[c conn1] ev1].
  all: destruct Hbody as (Hc & Hbuf & Hhv & Hlast & Hstop & Hsame & Hev).
  all: rewrite (Hsilent O) in *.
  - pose proof (processVAD_loop_spec fuel v (fun j => ws (S j)) conn1 c)
      as Hloop.
    destruct (vad.processVAD_loop fuel v (fun j => ws (S j)) conn1 c)
      as [[r conn2] ev2].
    destruct Hloop as (_ & _ & Hmono & _).
    cbn [fst snd]. apply Hmono.
    rewrite Hstop, Hvoice. cbn [negb andb].
    replace (vad.now (ws O) - ClientHaveVoiceLastTime conn
             >=? vad.SilenceThresholdMs (vad.config v)) with true.
    + apply orb_true_r.
    + symmetry. rewrite Z.geb_leb. apply Z.leb_le. exact Hgap.
  - fold fs in Hbuf.
    assert (Hlen1 : len (ClientAudioBuffer conn1)
                    = len (ClientAudioBuffer conn) - fs).
    { rewrite Hbuf. apply Zlength_skipn. lia. }
    specialize (IH fuel v (fun j => ws (S j)) conn1 c Hfs).
    fold fs in IH.
    destruct (vad.processVAD_loop fuel v (fun j => ws (S j)) conn1 c)
      as [[r conn2] ev2].
    cbn [fst snd] in *. apply IH.
    + zlen. lia.
    + intro j. apply Hsilent.
    + rewrite Hhv, Hvoice. reflexivity.
    + rewrite Hlen1.
      replace (len (ClientAudioBuffer conn) - fs)
        with (len (ClientAudioBuffer conn) + (-1) * fs) by ring.
      rewrite Z.div_add by lia. 
      assert (0 <= len (ClientAudioBuffer conn) / fs)
        by (apply Z.div_pos; [rewrite Zlength_correct |]; lia).
      lia.
    + rewrite Hlast. exact Hgap.
Qed.

(** With enough fuel the loop returns the classification of the last
    window it takes. *)
Lemma processVAD_loop_last :
  forall (fuel : nat) (v : vad.VADProcessor) (ws : nat -> vad.Window)
         (conn : ConnectionState) (chv : bool),
    0 < vad.FrameSize (vad.config v) * 2 ->
    (List.length (ClientAudioBuffer conn) <= fuel)%nat ->
    vad.FrameSize (vad.config v) * 2 <= len (ClientAudioBuffer conn) ->
    fst (fst (vad.processVAD_loop fuel v ws conn chv))
    = heard (ws (Z.to_nat (len (ClientAudioBuffer conn)
                           / (vad.FrameSize (vad.config v) * 2)) - 1)%nat).
Proof.
  induction fuel as [| fuel IH]; intros v ws conn chv Hfs Hfuel Hwin.
  all: set (fs := vad.FrameSize (vad.config v) * 2) in *.
  - rewrite Zlength_correct in Hwin. lia.
  - cbn [vad.processVAD_loop]; fold fs.
    replace (len (ClientAudioBuffer conn) >=? fs) with true
      by (symmetry; rewrite Z.geb_leb; apply Z.leb_le; exact Hwin).
    pose proof (processVAD_body_spec v (ws O) conn) as Hbody.
    destruct (vad.processVAD_body v (ws O) conn) as [[c conn1] ev1].
    destruct Hbody as (Hc & Hbuf & Hhv & Hlast & Hstop & Hsame & Hev).
    fold fs in Hbuf.
    assert (Hlen1 : len (ClientAudioBuffer conn1)
                    = len (ClientAudioBuffer conn) - fs).
    { rewrite Hbuf. apply Zlength_skipn. lia. }
    assert (Hdiv : len (ClientAudioBuffer conn) / fs
                   = len (ClientAudioBuffer conn1) / fs + 1).
    { rewrite Hlen1.
      replace (len (ClientAudioBuffer conn))
        with ((len (ClientAudioBuffer conn) - fs) + 1 * fs) at 1 by ring.
      apply Z.div_add. lia. }
    assert (Hpos : 0 <= len (ClientAudioBuffer conn1) / fs).
    { apply Z.div_pos; [rewrite Zlength_correct |]; lia. }
    destruct (Z.lt_ge_cases (len (ClientAudioBuffer conn1)) fs) as [Hlt | Hge].
    + rewrite processVAD_loop_short by exact Hlt.
      cbn [fst snd]. rewrite Hdiv.
      rewrite Z.div_small
        by (split; [rewrite Zlength_correct; lia | exact Hlt]).
      exact Hc.
    + specialize (IH v (fun j => ws (S j)) conn1 c Hfs).
      fold fs in IH.
      destruct (vad.processVAD_loop fuel v (fun j => ws (S j)) conn1 c)
        as [[r conn2] ev2].
      cbn [fst snd] in *. rewrite IH.
      * f_equal. f_equal. rewrite Hdiv.
        assert (1 <= len (ClientAudioBuffer conn1) / fs).
        { apply Z.div_le_lower_bound; lia. }
        lia.
      * zlen. lia.
      * exact Hge.
Qed.

(* ------------------------------------------------------------------ *)
(** ** The audio segmenter: one frame *)

Lemma IsVAD_unfold :
  forall (opus : option (list byte)) (ws : nat -> vad.Window)
         (conn : ConnectionState) (data : list byte),
    let pcm := match opus with Some pcmData => pcmData | None => data end in
    let conn0 :=
      set_ClientAudioBuffer (ClientAudioBuffer conn ++ pcm) conn in
    vad.IsVAD opus ws conn data =
    let '(r, conn', ev) :=
      vad.processVAD_loop (List.length (ClientAudioBuffer conn0))
        vad.getVADProcessor ws conn0 false in
    (r, conn',
     match opus with
     | Some _ => []
     | None => [Log LError "vad.decodeOpus"]
     end ++ ev).
Proof.
  intros opus ws conn data pcm conn0.
  unfold vad.IsVAD, vad.processVAD.
  subst pcm conn0.
  destruct opus as [pcmData |];
    match goal with
    | |- context [vad.processVAD_loop ?f ?v ?w ?c ?b] =>
        destruct (vad.processVAD_loop f v w c b) as [[r conn'] ev]
    end; reflexivity.
Qed.

Lemma sameOutsideVAD_buffer :
  forall conn buf, sameOutsideVAD conn (set_ClientAudioBuffer buf conn).
Proof. intros conn buf. unfold sameOutsideVAD. fields. repeat split. Qed.

Lemma Forall_not_isCallASR_filter :
  forall ev, Forall (fun e => isCallASR e = false) ev ->
             filter isCallASR ev = [].
Proof.
  induction 1 as [| e ev He _ IH]; [reflexivity |].
  cbn [filter]. now rewrite He.
Qed.

(** What the voice detection of a frame does in any mode. *)
Lemma detectVoice_spec :
  forall (w : AudioWorld) (data : list byte) (conn : ConnectionState),
    let '(hv, conn', ev) := detectVoice w data conn in
    sameOutsideVAD conn conn' /\
    filter isCallASR ev = [] /\
    (ClientVoiceStop conn = true -> ClientVoiceStop conn' = true) /\
    (ClientHaveVoice conn = true -> ClientHaveVoice conn' = true) /\
    (ClientVoiceStop conn' = true ->
     ClientVoiceStop conn = true \/ ClientHaveVoice conn' = true) /\
    (hv = true -> ClientHaveVoice conn' = true).
Proof.
  intros w data conn.
  unfold detectVoice.
  destruct (String.eqb (ClientListenMode conn) "auto").
  - rewrite IsVAD_unfold. cbv zeta.
    match goal with
    | |- context [vad.processVAD_loop ?f ?v ?ws ?c ?b] =>
        pose proof (processVAD_loop_spec f v ws c b) as Hloop;
        destruct (vad.processVAD_loop f v ws c b) as [[r conn'] ev]
    end.
    destruct Hloop as (Hsame & Hev & Hstop & Hhv & Hraise & Hr).
    fields.
    split.
    { eapply sameOutsideVAD_trans; [apply sameOutsideVAD_buffer | exact Hsame]. }
    split.
    { rewrite filter_app, (Forall_not_isCallASR_filter ev Hev), app_nil_r.
      now destruct (opus w). }
    repeat split; auto.
    intro H. destruct (Hr H) as [H' | H']; [discriminate | exact H'].
  - repeat split; auto using sameOutsideVAD_refl.
Qed.

(** The three ways [handleAudioMessage] goes on after the voice
    detection when no utterance is dispatched. *)
Lemma handleAudioMessage_discard :
  forall (w : AudioWorld) (data : list byte) (wsc : WebSocketConnection)
         (conn : ConnectionState) (ev : list Event),
    ASRServerReceive (connectionState wsc) = true ->
    detectVoice w data (connectionState wsc) = (false, conn, ev) ->
    ClientHaveVoice conn = false ->
    exists conn',
      handleAudioMessage w data wsc
      = (None, set_connectionState conn' (emit ev (set_connectionState conn wsc)))
      /\ ASRAudio conn' = []
      /\ ClientHaveVoice conn' = false
      /\ ClientVoiceStop conn' = ClientVoiceStop conn
      /\ ClientListenMode conn' = ClientListenMode conn
      /\ ClientAudioBuffer conn' = ClientAudioBuffer conn.
Proof.
  intros w data wsc conn ev Hon Hdet Hvoice.
  unfold handleAudioMessage.
  rewrite Hon, Hdet, Hvoice. cbn [negb andb].
  eexists. split; [reflexivity |].
  destruct (ClientNoVoiceLastTime conn =? 0);
    [| destruct (Qle_bool _ _)]; fields; repeat split; assumption.
Qed.

Lemma handleAudioMessage_keep :
  forall (w : AudioWorld) (data : list byte) (wsc : WebSocketConnection)
         (hv : bool) (conn : ConnectionState) (ev : list Event),
    ASRServerReceive (connectionState wsc) = true ->
    detectVoice w data (connectionState wsc) = (hv, conn, ev) ->
    hv || ClientHaveVoice conn = true ->
    ClientVoiceStop conn = false ->
    handleAudioMessage w data wsc
    = (None,
       set_connectionState
         (set_ASRAudio (ASRAudio conn ++ [data])
            (set_ClientNoVoiceLastTime 0 conn))
         (emit ev (set_connectionState conn wsc))).
Proof.
  intros w data wsc hv conn ev Hon Hdet Hvoice Hstop.
  unfold handleAudioMessage.
  rewrite Hon, Hdet. cbn [negb].
  replace (negb hv && negb (ClientHaveVoice conn)) with false
    by (destruct hv, (ClientHaveVoice conn); cbn in *; congruence).
  fields. rewrite Hstop. reflexivity.
Qed.

Lemma handleAudioMessage_short :
  forall (w : AudioWorld) (data : list byte) (wsc : WebSocketConnection)
         (hv : bool) (conn : ConnectionState) (ev : list Event),
    ASRServerReceive (connectionState wsc) = true ->
    detectVoice w data (connectionState wsc) = (hv, conn, ev) ->
    hv || ClientHaveVoice conn = true ->
    ClientVoiceStop conn = true ->
    len (ASRAudio conn ++ [data]) < 3 ->
    handleAudioMessage w data wsc
    = (None,
       emit [Log LDebug "ws.audio.reset"]
         (set_connectionState
            (resetVAD
               (set_ASRServerReceive true
                  (set_ASRServerReceive false
                     (set_ClientAbort false
                        (set_ASRAudio (ASRAudio conn ++ [data])
                           (set_ClientNoVoiceLastTime 0 conn))))))
            (emit [Log LDebug "ws.audio.voiceStopped"]
               (emit ev (set_connectionState conn wsc))))).
Proof.
  intros w data wsc hv conn ev Hon Hdet Hvoice Hstop Hlen.
  unfold handleAudioMessage.
  rewrite Hon, Hdet. cbn [negb].
  replace (negb hv && negb (ClientHaveVoice conn)) with false
    by (destruct hv, (ClientHaveVoice conn); cbn in *; congruence).
  fields. rewrite Hstop.
  replace (len (ASRAudio conn ++ [data]) <? 3) with true
    by (symmetry; apply Z.ltb_lt; exact Hlen).
  reflexivity.
Qed.

(** C4.  An utterance that is complete (voice-stop is set when the frame
    has been analysed) and has fewer than 3 chunks, the current frame
    included, is discarded: [handleAudioMessage] returns nil, sends
    nothing to the recognition collaborator, routes no text, leaves the
    utterance queue empty and [ASRServerReceive] true, with both voice
    flags reset. *)
Theorem C4_short_utterance_discarded :
  forall (w : AudioWorld) (data : list byte) (wsc : WebSocketConnection)
         (hv : bool) (conn : ConnectionState) (ev : list Event),
    ASRServerReceive (connectionState wsc) = true ->
    detectVoice w data (connectionState wsc) = (hv, conn, ev) ->
    hv || ClientHaveVoice conn = true ->
    ClientVoiceStop conn = true ->
    len (ASRAudio conn ++ [data]) < 3 ->
    let r := handleAudioMessage w data wsc in
    fst r = None /\
    filter isCallASR (trace (snd r)) = filter isCallASR (trace wsc) /\
    llmChan (snd r) = llmChan wsc /\
    ASRAudio (connectionState (snd r)) = [] /\
    ASRServerReceive (connectionState (snd r)) = true /\
    ClientHaveVoice (connectionState (snd r)) = false /\
    ClientVoiceStop (connectionState (snd r)) = false.
Proof.
  intros w data wsc hv conn ev Hon Hdet Hvoice Hstop Hlen r.
  subst r.
  rewrite (handleAudioMessage_short w data wsc hv conn ev Hon Hdet Hvoice
             Hstop Hlen).
  pose proof (detectVoice_spec w data (connectionState wsc)) as Hspec.
  rewrite Hdet in Hspec. destruct Hspec as (_ & Hcalls & _).
  fields.
  split; [reflexivity |].
  split.
  { rewrite !filter_app, Hcalls. cbn [filter isCallASR].
    now rewrite !app_nil_r. }
  repeat split.
Qed.

Lemma C4_witness :
  let w := Scenario.world 0 (Scenario.silent 0) (Scenario.recognised "hi") in
  let r := handleAudioMessage w Scenario.frame1 Scenario.stopped in
  fst r = None /\
  filter isCallASR (trace (snd r))
  = filter isCallASR (trace Scenario.stopped) /\
  llmChan (snd r) = llmChan Scenario.stopped /\
  ASRAudio (connectionState (snd r)) = [] /\
  ASRServerReceive (connectionState (snd r)) = true /\
  ClientHaveVoice (connectionState (snd r)) = false /\
  ClientVoiceStop (connectionState (snd r)) = false.
Proof.
  intros w.
  apply (C4_short_utterance_discarded w Scenario.frame1 Scenario.stopped
           true (connectionState Scenario.stopped) []).
  - reflexivity.
  - reflexivity.
  - reflexivity.
  - reflexivity.
  - vm_compute. reflexivity.
Defined.

Lemma heard_callFails :
  forall w, callFails w = true -> heard w = false.
Proof.
  intro w. unfold callFails, heard.
  destruct (vad.reply w) as [| | [vadResp |]]; congruence.
Qed.

(** C9, as the code has it.  [IsVAD] returns false for a frame that
    leaves less than one analysis window (1024 bytes) in the accumulator,
    and whenever the collaborator call for the last window it takes
    fails.  Consequently a frame that arrives in "auto" mode while
    has-voice is false and completes no window is discarded:
    [handleAudioMessage] returns nil and the utterance queue is empty
    afterwards. *)
Theorem C9_IsVAD_false_without_window_or_on_last_failure :
  (forall opus ws conn data,
      len (ClientAudioBuffer conn
           ++ match opus with Some pcmData => pcmData | None => data end)
      < 1024 ->
      fst (fst (vad.IsVAD opus ws conn data)) = false) /\
  (forall opus ws conn data,
      let n :=
        Z.to_nat
          (len (ClientAudioBuffer conn
                ++ match opus with Some pcmData => pcmData | None => data end)
           / 1024) in
      (1 <= n)%nat ->
      callFails (ws (n - 1)%nat) = true ->
      fst (fst (vad.IsVAD opus ws conn data)) = false) /\
  (forall w data wsc,
      ASRServerReceive (connectionState wsc) = true ->
      ClientListenMode (connectionState wsc) = "auto" ->
      ClientHaveVoice (connectionState wsc) = false ->
      len (ClientAudioBuffer (connectionState wsc) ++ pcmOf w data) < 1024 ->
      fst (handleAudioMessage w data wsc) = None /\
      ASRAudio (connectionState (snd (handleAudioMessage w data wsc))) = []).
Proof.
  assert (Hnone :
    forall opus ws conn data,
      len (ClientAudioBuffer conn
           ++ match opus with Some pcmData => pcmData | None => data end)
      < 1024 ->
      vad.IsVAD opus ws conn data
      = (false,
         set_ClientAudioBuffer
           (ClientAudioBuffer conn
            ++ match opus with Some pcmData => pcmData | None => data end)
           conn,
         match opus with
         | Some _ => []
         | None => [Log LError "vad.decodeOpus"]
         end ++ [])).
  { intros opus ws conn data Hshort.
    rewrite IsVAD_unfold. cbv zeta.
    rewrite processVAD_loop_short; [reflexivity |].
    fields. exact Hshort. }
  split; [| split].
  - intros opus ws conn data Hshort.
    now rewrite Hnone.
  - intros opus ws conn data n Hn Hfail.
    rewrite IsVAD_unfold. cbv zeta.
    match goal with
    | |- context [vad.processVAD_loop ?f ?v ?w ?c ?b] =>
        pose proof (processVAD_loop_last f v w c b) as Hlast;
        destruct (vad.processVAD_loop f v w c b) as [[r conn'] ev]
    end.
    cbn [fst snd] in *. fields.
    change (vad.FrameSize (vad.config vad.getVADProcessor) * 2) with 1024
      in Hlast.
    fold n in Hlast.
    rewrite Hlast.
    + apply heard_callFails. exact Hfail.
    + reflexivity.
    + apply Nat.le_refl.
    + subst n.
      destruct (Z.lt_ge_cases
                  (len (ClientAudioBuffer conn
                        ++ match opus with
                           | Some pcmData => pcmData
                           | None => data
                           end)) 1024) as [Hlt | Hge]; [| exact Hge].
      rewrite Z.div_small in Hn; [cbn in Hn; lia |].
      split; [zlen; lia | exact Hlt].
  - intros w data wsc Hon Hauto Hvoice Hshort.
    assert (Hdet :
      detectVoice w data (connectionState wsc)
      = (false,
         set_ClientAudioBuffer
           (ClientAudioBuffer (connectionState wsc) ++ pcmOf w data)
           (connectionState wsc),
         match opus w with
         | Some _ => []
         | None => [Log LError "vad.decodeOpus"]
         end ++ [])).
    { unfold detectVoice. rewrite Hauto. cbn [String.eqb Ascii.eqb Bool.eqb].
      apply Hnone. exact Hshort. }
    destruct (handleAudioMessage_discard w data wsc _ _ Hon Hdet)
      as (conn' & Heq & Hqueue & _).
    { fields. exact Hvoice. }
    rewrite Heq. fields. split; [reflexivity | exact Hqueue].
Qed.

Lemma C9_witness :
  fst (fst (vad.IsVAD (Some (repeat x00 640)) (fun _ => Scenario.voiced 1000)
              (connectionState Scenario.fresh) Scenario.frame1)) = false /\
  fst (fst (vad.IsVAD (Some (repeat x00 1920)) Scenario.failThenVoice
              (connectionState Scenario.fresh) Scenario.frame1)) = false /\
  ASRAudio
    (connectionState
       (snd (handleAudioMessage
               (Scenario.world 640 (Scenario.voiced 1000) asr.SendFailed)
               Scenario.frame1 Scenario.fresh))) = [].
Proof.
  destruct C9_IsVAD_false_without_window_or_on_last_failure
    as (Hshort & Hfail & Hdrop).
  split; [| split].
  - apply Hshort. vm_compute. reflexivity.
  - apply Hfail.
    + vm_compute. lia.
    + vm_compute. reflexivity.
  - apply Hdrop.
    + reflexivity.
    + reflexivity.
    + reflexivity.
    + vm_compute. reflexivity.
Defined.

(** C9 as stated fails: 896 bytes are left in the accumulator by a first
    60 ms frame; the next frame completes two windows; the collaborator
    call fails for the first and answers "voice" for the second, and
    [IsVAD] returns true. *)
Lemma C9_counterexample :
  len (ClientAudioBuffer Scenario.afterLongFrame) = 896 /\
  windowsIn (Scenario.world 1920 (Scenario.silent 0) asr.SendFailed)
    Scenario.frame2 Scenario.afterLongFrame = 2%nat /\
  callFails (Scenario.failThenVoice 0) = true /\
  fst (fst (vad.IsVAD (Some (repeat x00 1920)) Scenario.failThenVoice
              Scenario.afterLongFrame Scenario.frame2)) = true.
Proof.
  split; [vm_compute; reflexivity |].
  split; [vm_compute; reflexivity |].
  split; [reflexivity |].
  vm_compute; reflexivity.
Qed.

(* ------------------------------------------------------------------ *)
(** ** The audio segmenter: voice-stop over a run of frames *)

(** The voice detection of a silent frame in "auto" mode. *)
Lemma detectVoice_silent :
  forall (w : AudioWorld) (data : list byte) (conn : ConnectionState),
    ClientListenMode conn = "auto" ->
    silentFrame w ->
    let '(hv, conn', ev) := detectVoice w data conn in
    hv = false /\
    sameOutsideVAD conn conn' /\
    ClientHaveVoice conn' = ClientHaveVoice conn /\
    ClientHaveVoiceLastTime conn' = ClientHaveVoiceLastTime conn /\
    (ClientHaveVoice conn = false ->
     ClientVoiceStop conn' = ClientVoiceStop conn) /\
    ((forall k, vad.now (windows w k) - ClientHaveVoiceLastTime conn < 500) ->
     ClientVoiceStop conn' = ClientVoiceStop conn) /\
    (forall k,
        ClientHaveVoice conn = true ->
        (k < windowsIn w data conn)%nat ->
        500 <= vad.now (windows w k) - ClientHaveVoiceLastTime conn ->
        ClientVoiceStop conn' = true).
Proof.
  intros w data conn Hauto Hsilent.
  unfold detectVoice. rewrite Hauto. cbn [String.eqb Ascii.eqb Bool.eqb].
  rewrite IsVAD_unfold. cbv zeta.
  match goal with
  | |- context [vad.processVAD_loop ?f ?v ?ws ?c ?b] =>
      pose proof (processVAD_loop_spec f v ws c b) as Hspec;
      pose proof (processVAD_loop_silent f v ws c b Hsilent) as Hquiet;
      pose proof (fun k => processVAD_loop_raises k f v ws c b) as Hraise;
      destruct (vad.processVAD_loop f v ws c b) as [[r conn'] ev]
  end.
  destruct Hspec as (Hsame & _).
  destruct Hquiet as (Hhv & Hlast & Hr & Hnovoice & Hstill).
  cbn [fst snd] in Hraise. fields.
  change (vad.SilenceThresholdMs (vad.config vad.getVADProcessor)) with 500
    in *.
  change (vad.FrameSize (vad.config vad.getVADProcessor) * 2) with 1024 in *.
  split; [destruct r; [symmetry; now apply Hr | reflexivity] |].
  split.
  { eapply sameOutsideVAD_trans; [apply sameOutsideVAD_buffer | exact Hsame]. }
  repeat split; auto.
  intros k Hvoice Hk Hgap.
  apply (Hraise k); auto.
  reflexivity.
Qed.

Lemma ProcessASR_ok_state :
  forall reply conn text conn' ev,
    asr.ProcessASR reply conn = (Ok text, conn', ev) ->
    conn' = set_ASRAudio [] conn.
Proof.
  intros reply conn text conn' ev.
  unfold asr.ProcessASR.
  destruct (len (ASRAudio conn) =? 0); [congruence |].
  destruct (asr.totalLength (ASRAudio conn)
            >? asr.MaxAudioSize (asr.config asr.getASRProcessor));
    [congruence |].
  destruct (asr.callASRService _ _ _) as [[t | err] evs]; congruence.
Qed.

(** A silent frame that comes before the silence threshold leaves the
    voiced run as it is. *)
Lemma quiet_frame :
  forall (last : Z) (w : AudioWorld) (data : list byte)
         (wsc : WebSocketConnection),
    speakingSince last wsc ->
    silentFrame w ->
    (forall k, vad.now (windows w k) - last < 500) ->
    setsVoiceStop w data wsc = false /\
    speakingSince last (snd (handleAudioMessage w data wsc)).
Proof.
  intros last w data wsc (Hon & Hauto & Hvoice & Hstop & Hlast) Hsilent Hgap.
  pose proof (detectVoice_silent w data (connectionState wsc) Hauto Hsilent)
    as Hdet.
  unfold setsVoiceStop.
  destruct (detectVoice w data (connectionState wsc)) as [[hv conn] ev] eqn:E.
  destruct Hdet as (Hhv & Hsame & Hvoice' & Hlast' & _ & Hstill & _).
  rewrite Hlast in Hstill. specialize (Hstill Hgap).
  cbn [fst snd]. rewrite Hstill, Hstop.
  split; [apply andb_false_r |].
  rewrite (handleAudioMessage_keep w data wsc hv conn ev Hon E)
    by (rewrite ?Hvoice', ?Hvoice, ?Hstill, ?Hstop;
        auto using orb_true_r).
  unfold sameOutsideVAD in Hsame.
  repeat match goal with H : _ /\ _ |- _ => destruct H end.
  unfold speakingSince. fields.
  repeat split; congruence.
Qed.

(** The silent frame in which the threshold is reached sets voice-stop,
    and the dispatch that follows ends the voiced run. *)
Lemma threshold_frame :
  forall (last : Z) (w : AudioWorld) (data : list byte)
         (wsc : WebSocketConnection) (k : nat),
    speakingSince last wsc ->
    silentFrame w ->
    (k < windowsIn w data (connectionState wsc))%nat ->
    500 <= vad.now (windows w k) - last ->
    setsVoiceStop w data wsc = true /\
    atRest (snd (handleAudioMessage w data wsc)).
Proof.
  intros last w data wsc k (Hon & Hauto & Hvoice & Hstop & Hlast) Hsilent
         Hk Hgap.
  pose proof (detectVoice_silent w data (connectionState wsc) Hauto Hsilent)
    as Hdet.
  unfold setsVoiceStop.
  destruct (detectVoice w data (connectionState wsc)) as [[hv conn] ev] eqn:E.
  destruct Hdet as (Hhv & Hsame & Hvoice' & Hlast' & _ & _ & Hraise).
  rewrite Hlast in Hraise. specialize (Hraise k Hvoice Hk Hgap).
  cbn [fst snd]. rewrite Hon, Hstop, Hraise.
  split; [reflexivity |].
  assert (Hheard : hv || ClientHaveVoice conn = true)
    by (rewrite Hvoice', Hvoice; apply orb_true_r).
  assert (Hmode : ClientListenMode conn = "auto").
  { unfold sameOutsideVAD in Hsame.
    repeat match goal with H : _ /\ _ |- _ => destruct H end. congruence. }
  destruct (Z.lt_ge_cases (len (ASRAudio conn ++ [data])) 3) as [Hlt | Hge].
  - rewrite (handleAudioMessage_short w data wsc hv conn ev Hon E Hheard
               Hraise Hlt).
    right. fields. repeat split. exact Hmode.
  - rewrite (handleAudioMessage_dispatch w data wsc hv conn ev Hon E Hheard
               Hraise Hge).
    cbv zeta.
    match goal with
    | |- context [asr.ProcessASR ?r ?c] =>
        pose proof (ProcessASR_error_keeps_state r c) as Herr;
        pose proof (ProcessASR_ok_state r c) as Hok;
        destruct (asr.ProcessASR r c) as [[[text | err] conn'] ev']
    end.
    + rewrite (Hok text conn' ev' eq_refl).
      right. fields. repeat split. exact Hmode.
    + rewrite (Herr err conn' ev' eq_refl).
      left. fields. reflexivity.
Qed.

(** Once the voiced run is over, silent frames never set voice-stop. *)
Lemma rest_frame :
  forall (w : AudioWorld) (data : list byte) (wsc : WebSocketConnection),
    atRest wsc ->
    silentFrame w ->
    setsVoiceStop w data wsc = false /\
    atRest (snd (handleAudioMessage w data wsc)).
Proof.
  intros w data wsc Hrest Hsilent.
  unfold setsVoiceStop.
  destruct (ASRServerReceive (connectionState wsc)) eqn:Hon.
  - destruct Hrest as [Hoff | (Hauto & Hvoice & Hstop)]; [congruence |].
    pose proof (detectVoice_silent w data (connectionState wsc) Hauto Hsilent)
      as Hdet.
    destruct (detectVoice w data (connectionState wsc)) as [[hv conn] ev] eqn:E.
    destruct Hdet as (Hhv & Hsame & Hvoice' & _ & Hnovoice & _).
    specialize (Hnovoice Hvoice).
    cbn [fst snd]. rewrite Hnovoice, Hstop.
    split; [reflexivity |].
    subst hv.
    destruct (handleAudioMessage_discard w data wsc conn ev Hon E)
      as (conn' & Heq & _ & Hv & Hs & Hm & _); [congruence |].
    rewrite Heq. right. fields.
    unfold sameOutsideVAD in Hsame.
    repeat match goal with H : _ /\ _ |- _ => destruct H end.
    repeat split; congruence.
  - split; [reflexivity |].
    rewrite (handleAudioMessage_paused w data wsc Hon).
    left. fields. exact Hon.
Qed.

Lemma rest_run :
  forall (frames : list (AudioWorld * list byte)) (wsc : WebSocketConnection),
    atRest wsc ->
    Forall (fun f => silentFrame (fst f)) frames ->
    voiceStopSets frames wsc = 0%nat.
Proof.
  induction frames as [| [w data] frames IH]; intros wsc Hrest Hsilent.
  - reflexivity.
  - inversion Hsilent as [| f fs Hw Hrest' ]; subst.
    cbn [voiceStopSets].
    destruct (rest_frame w data wsc Hrest Hw) as (Hset & Hnext).
    rewrite Hset, (IH _ Hnext Hrest'). reflexivity.
Qed.

Lemma voice_stop_run :
  forall (last : Z) (before after : list (AudioWorld * list byte))
         (w : AudioWorld) (data : list byte) (k : nat)
         (wsc : WebSocketConnection),
    speakingSince last wsc ->
    Forall (fun f =>
              silentFrame (fst f) /\
              forall j, vad.now (windows (fst f) j) - last < 500) before ->
    silentFrame w ->
    (k < windowsIn w data (connectionState (audioRun before wsc)))%nat ->
    500 <= vad.now (windows w k) - last ->
    Forall (fun f => silentFrame (fst f)) after ->
    voiceStopSets before wsc = 0%nat /\
    setsVoiceStop w data (audioRun before wsc) = true /\
    voiceStopSets (before ++ (w, data) :: after) wsc = 1%nat.
Proof.
  intros last before after w data k.
  induction before as [| [w0 data0] before IH];
    intros wsc Hspeaking Hbefore Hw Hk Hgap Hafter.
  - cbn [audioRun app voiceStopSets] in *.
    destruct (threshold_frame last w data wsc k Hspeaking Hw Hk Hgap)
      as (Hset & Hrest).
    rewrite Hset, (rest_run after _ Hrest Hafter).
    repeat split.
  - inversion Hbefore as [| f fs (Hw0 & Hgap0) Hbefore']; subst.
    cbn [fst] in Hw0, Hgap0.
    cbn [audioRun app voiceStopSets] in *.
    destruct (quiet_frame last w0 data0 wsc Hspeaking Hw0 Hgap0)
      as (Hset0 & Hnext).
    rewrite Hset0.
    apply (IH _ Hnext Hbefore' Hw Hk Hgap Hafter).
Qed.

(** C3.  In a voiced run of "auto" mode, let silent frames arrive: first
    frames whose windows all come less than the silence threshold
    (500 ms) after the last voiced window, then a frame one of whose
    analysed windows reaches the threshold, then any further silent
    frames.  Over the whole sequence the segmenter sets
    [ClientVoiceStop] exactly once: in the frame that reaches the
    threshold, and never again while no window is voiced. *)
Theorem C3_voice_stop_set_exactly_once :
  forall (wsc : WebSocketConnection)
         (before after : list (AudioWorld * list byte))
         (w : AudioWorld) (data : list byte) (k : nat),
    let last := ClientHaveVoiceLastTime (connectionState wsc) in
    ASRServerReceive (connectionState wsc) = true ->
    ClientListenMode (connectionState wsc) = "auto" ->
    ClientHaveVoice (connectionState wsc) = true ->
    ClientVoiceStop (connectionState wsc) = false ->
    Forall (fun f =>
              silentFrame (fst f) /\
              forall j, vad.now (windows (fst f) j) - last < 500) before ->
    silentFrame w ->
    (k < windowsIn w data (connectionState (audioRun before wsc)))%nat ->
    500 <= vad.now (windows w k) - last ->
    Forall (fun f => silentFrame (fst f)) after ->
    voiceStopSets before wsc = 0%nat /\
    setsVoiceStop w data (audioRun before wsc) = true /\
    voiceStopSets (before ++ (w, data) :: after) wsc = 1%nat.
Proof.
  intros wsc before after w data k last Hon Hauto Hvoice Hstop Hbefore Hw Hk
         Hgap Hafter.
  apply (voice_stop_run last before after w data k wsc); try assumption.
  repeat split; assumption.
Qed.

Lemma C3_witness :
  voiceStopSets Scenario.silence Scenario.speaking = 0%nat /\
  setsVoiceStop (fst Scenario.silenceReached) (snd Scenario.silenceReached)
    (audioRun Scenario.silence Scenario.speaking) = true /\
  voiceStopSets
    (Scenario.silence ++ Scenario.silenceReached :: Scenario.silenceAfter)
    Scenario.speaking = 1%nat.
Proof.
  apply (C3_voice_stop_set_exactly_once Scenario.speaking Scenario.silence
           Scenario.silenceAfter (fst Scenario.silenceReached)
           (snd Scenario.silenceReached) 0%nat).
  - vm_compute. reflexivity.
  - vm_compute. reflexivity.
  - vm_compute. reflexivity.
  - vm_compute. reflexivity.
  - constructor; [| constructor].
    split; intro j; vm_compute; reflexivity.
  - intro j. reflexivity.
  - vm_compute. lia.
  - vm_compute. discriminate.
  - constructor; [| constructor].
    intro j. reflexivity.
Defined.

(** During the voiced run itself voice-stop is never set: voiced windows
    leave it as it is, and a frame of voiced windows leaves a voiced run
    under way. *)
Lemma processVAD_loop_voiced :
  forall (fuel : nat) (v : vad.VADProcessor) (ws : nat -> vad.Window)
         (conn : ConnectionState) (chv : bool),
    (forall k, heard (ws k) = true) ->
    ClientVoiceStop (snd (fst (vad.processVAD_loop fuel v ws conn chv)))
    = ClientVoiceStop conn.
Proof.
  induction fuel as [| fuel IH]; intros v ws conn chv Hvoiced.
  - reflexivity.
  - cbn [vad.processVAD_loop].
    destruct (len (ClientAudioBuffer conn) >=? vad.FrameSize (vad.config v) * 2);
      [| reflexivity].
    pose proof (processVAD_body_spec v (ws O) conn) as Hbody.
    destruct (vad.processVAD_body v (ws O) conn) as [[c conn1] ev1].
    destruct Hbody as (_ & _ & _ & _ & Hstop & _).
    rewrite (Hvoiced O) in Hstop. cbn [negb] in Hstop.
    rewrite andb_false_r, orb_false_r in Hstop.
    specialize (IH v (fun k => ws (S k)) conn1 c (fun k => Hvoiced (S k))).
    destruct (vad.processVAD_loop fuel v (fun k => ws (S k)) conn1 c)
      as [[r conn2] ev2].
    cbn [fst snd] in *. congruence.
Qed.

Lemma voiced_frame :
  forall (last : Z) (w : AudioWorld) (data : list byte)
         (wsc : WebSocketConnection),
    speakingSince last wsc ->
    (forall k, heard (windows w k) = true) ->
    setsVoiceStop w data wsc = false /\
    exists last',
      speakingSince last' (snd (handleAudioMessage w data wsc)).
Proof.
  intros last w data wsc (Hon & Hauto & Hvoice & Hstop & Hlast) Hvoiced.
  pose proof (detectVoice_spec w data (connectionState wsc)) as Hspec.
  assert (Hkeep :
    ClientVoiceStop (snd (fst (detectVoice w data (connectionState wsc))))
    = false).
  { unfold detectVoice. rewrite Hauto. cbn [String.eqb Ascii.eqb Bool.eqb].
    rewrite IsVAD_unfold. cbv zeta.
    match goal with
    | |- context [vad.processVAD_loop ?f ?v ?ws ?c ?b] =>
        pose proof (processVAD_loop_voiced f v ws c b Hvoiced) as Hloop;
        destruct (vad.processVAD_loop f v ws c b) as [[r conn'] ev]
    end.
    cbn [fst snd] in *. rewrite Hloop. fields. exact Hstop. }
  unfold setsVoiceStop. rewrite Hkeep.
  split; [apply andb_false_r |].
  destruct (detectVoice w data (connectionState wsc)) as [[hv conn] ev] eqn:E.
  cbn [fst snd] in Hkeep.
  destruct Hspec as (Hsame & _ & _ & Hmono & _).
  rewrite (handleAudioMessage_keep w data wsc hv conn ev Hon E)
    by (rewrite ?(Hmono Hvoice); auto using orb_true_r).
  exists (ClientHaveVoiceLastTime conn).
  unfold sameOutsideVAD in Hsame.
  repeat match goal with H : _ /\ _ |- _ => destruct H end.
  unfold speakingSince. fields.
  repeat split; try congruence. auto.
Qed.

(* ------------------------------------------------------------------ *)
(** ** The dialogue pipeline *)










(** C8.  The fragment queue of a session has capacity 10.  A streamed
    fragment that finds the queue full is dropped: the queue is left as
    it is, a warning is logged, and the loop goes on with the next line
    of the stream.  Below the capacity the fragment is put at the end of
    the queue.  In neither case does the generation stage wait. *)
Theorem C8_fragment_push_never_blocks :
  (forall deviceId remoteAddr sessionId cfg,
      cap (ttsChan (NewWebSocketConnection deviceId remoteAddr sessionId cfg))
      = 10) /\
  (forall lines ending fullResponse sh llmResponse,
      ClientAbort (llm.connectionState sh) = false ->
      llm.Status llmResponse = "streaming" ->
      llm.Chunk llmResponse <> "" ->
      cap (llm.ttsChan sh) <= len (queue (llm.ttsChan sh)) ->
      llm.streamLoop (llm.Parsed llmResponse :: lines) ending fullResponse sh
      = let '(r, sh', ev) :=
          llm.streamLoop lines ending
            (fullResponse ++ llm.Chunk llmResponse)%string sh in
        (r, sh', [Log LDebug "llm.chunk"; Log LWarn "llm.channelFull"] ++ ev))
  /\
  (forall lines ending fullResponse sh llmResponse,
      ClientAbort (llm.connectionState sh) = false ->
      llm.Status llmResponse = "streaming" ->
      llm.Chunk llmResponse <> "" ->
      len (queue (llm.ttsChan sh)) < cap (llm.ttsChan sh) ->
      llm.streamLoop (llm.Parsed llmResponse :: lines) ending fullResponse sh
      = let '(r, sh', ev) :=
          llm.streamLoop lines ending
            (fullResponse ++ llm.Chunk llmResponse)%string
            {| llm.ttsChan := push (llm.Chunk llmResponse) (llm.ttsChan sh);
               llm.connectionState := llm.connectionState sh;
               llm.dialogues := llm.dialogues sh |} in
        (r, sh', [Log LDebug "llm.chunk"] ++ ev)).
Proof.
  split; [reflexivity |].
  split.
  - intros lines ending fullResponse sh llmResponse Habort Hstatus Hchunk Hfull.
    cbn [llm.streamLoop]. rewrite Habort, Hstatus.
    apply String.eqb_neq in Hchunk. rewrite Hchunk.
    cbn [String.eqb Ascii.eqb Bool.eqb negb].
    unfold trySend.
    replace (len (queue (llm.ttsChan sh)) <? cap (llm.ttsChan sh)) with false
      by (symmetry; apply Z.ltb_ge; exact Hfull).
    reflexivity.
  - intros lines ending fullResponse sh llmResponse Habort Hstatus Hchunk Hroom.
    cbn [llm.streamLoop]. rewrite Habort, Hstatus.
    apply String.eqb_neq in Hchunk. rewrite Hchunk.
    cbn [String.eqb Ascii.eqb Bool.eqb negb].
    unfold trySend.
    replace (len (queue (llm.ttsChan sh)) <? cap (llm.ttsChan sh)) with true
      by (symmetry; apply Z.ltb_lt; exact Hroom).
    reflexivity.
Qed.

Lemma C8_witness :
  cap (ttsChan Scenario.fresh) = 10 /\
  llm.streamLoop
    [llm.Parsed (Scenario.fragment "one"); llm.Parsed (Scenario.complete "one")]
    llm.EOF "" Scenario.congested
  = (None,
     {| llm.ttsChan := llm.ttsChan Scenario.congested;
        llm.connectionState := llm.connectionState Scenario.congested;
        llm.dialogues :=
          llm.dialogues Scenario.congested
          ++ [{| Role := "assistant"; Content := "one" |}] |},
     [Log LDebug "llm.chunk"; Log LWarn "llm.channelFull";
      Log LDebug "llm.complete"]).
Proof.
  destruct C8_fragment_push_never_blocks as (Hcap & Hfull & _).
  split; [apply Hcap |].
  rewrite Hfull.
  - reflexivity.
  - reflexivity.
  - reflexivity.
  - discriminate.
  - vm_compute. discriminate.
Defined.

(* ------------------------------------------------------------------ *)
(** ** The voice flags and audio acceptance over every inbound message *)

Lemma handleTextMessage_keeps_acceptance :
  forall parsed wsc,
    ASRServerReceive (connectionState (snd (handleTextMessage parsed wsc)))
    = ASRServerReceive (connectionState wsc).
Proof.
  intros [msg_json |] wsc; [| reflexivity].
  unfold handleTextMessage, sendResponse.
  repeat match goal with
         | |- context [if ?b then _ else _] => destruct b
         end; reflexivity.
Qed.

(** Nothing in the read loop raises [ASRServerReceive] again once it is
    false: a session left that way drops all later audio. *)
Lemma readLoop_never_accepts_again :
  forall msgs wsc,
    ASRServerReceive (connectionState wsc) = false ->
    ASRServerReceive (connectionState (readLoop msgs wsc)) = false.
Proof.
  induction msgs as [| [[w messageType] message] msgs IH]; intros wsc Hoff.
  - exact Hoff.
  - cbn [readLoop].
    destruct (ctxDone wsc); [exact Hoff |].
    assert (Hstep :
      ASRServerReceive
        (connectionState (snd (processMessage w messageType message wsc)))
      = false).
    { unfold processMessage, sendResponse.
      destruct (messageType =? TextMessage).
      - rewrite handleTextMessage_keeps_acceptance. exact Hoff.
      - destruct (messageType =? BinaryMessage).
        + rewrite (handleAudioMessage_paused _ _ _ Hoff). exact Hoff.
        + repeat match goal with
                 | |- context [if ?b then _ else _] => destruct b
                 end; exact Hoff. }
    destruct (processMessage w messageType message wsc) as [[e |] wsc'];
      cbn [snd] in Hstep.
    + destruct (messageType =? CloseMessage); [exact Hstep |].
      apply IH. exact Hstep.
    + apply IH. exact Hstep.
Qed.

(** A control frame raises voice-stop only together with has-voice. *)
Lemma handleTextMessage_stop_with_voice :
  forall parsed wsc,
    ClientVoiceStop (connectionState wsc) = false ->
    ClientVoiceStop (connectionState (snd (handleTextMessage parsed wsc)))
    = true ->
    ClientHaveVoice (connectionState (snd (handleTextMessage parsed wsc)))
    = true.
Proof.
  intros [msg_json |] wsc Hstop; [| cbn [handleTextMessage snd]; congruence].
  unfold handleTextMessage, sendResponse.
  repeat match goal with
         | |- context [if ?b then _ else _] => destruct b
         end; fields; congruence.
Qed.

(** An audio frame raises voice-stop only in a state where has-voice is
    set; when the frame is dispatched and [handleAudioMessage] returns
    nil, both flags are down. *)
Lemma handleAudioMessage_flags :
  forall w data wsc,
    ClientVoiceStop (connectionState wsc) = false ->
    (ClientVoiceStop (connectionState (snd (handleAudioMessage w data wsc)))
     = true ->
     ClientHaveVoice (connectionState (snd (handleAudioMessage w data wsc)))
     = true) /\
    (fst (handleAudioMessage w data wsc) = None ->
     ClientVoiceStop (connectionState (snd (handleAudioMessage w data wsc)))
     = false).
Proof.
  intros w data wsc Hstop.
  destruct (ASRServerReceive (connectionState wsc)) eqn:Hon.
  2: { rewrite (handleAudioMessage_paused w data wsc Hon). fields.
       split; congruence. }
  pose proof (detectVoice_spec w data (connectionState wsc)) as Hspec.
  destruct (detectVoice w data (connectionState wsc)) as [[hv conn] ev] eqn:E.
  destruct Hspec as (_ & _ & _ & _ & Hraise & Hheard).
  destruct (ClientVoiceStop conn) eqn:Hstop'.
  - assert (Hvoice : ClientHaveVoice conn = true)
      by (destruct (Hraise eq_refl); congruence).
    assert (Hor : hv || ClientHaveVoice conn = true)
      by (rewrite Hvoice; apply orb_true_r).
    destruct (Z.lt_ge_cases (len (ASRAudio conn ++ [data])) 3) as [Hlt | Hge].
    + rewrite (handleAudioMessage_short w data wsc hv conn ev Hon E Hor
                 Hstop' Hlt).
      fields. split; [discriminate | reflexivity].
    + rewrite (handleAudioMessage_dispatch w data wsc hv conn ev Hon E Hor
                 Hstop' Hge).
      cbv zeta.
      match goal with
      | |- context [asr.ProcessASR ?r ?c] =>
          pose proof (ProcessASR_error_keeps_state r c) as Herr;
          destruct (asr.ProcessASR r c) as [[[text | err] conn'] ev']
      end.
      * fields. split; [discriminate | reflexivity].
      * rewrite (Herr err conn' ev' eq_refl). fields.
        split; [intros _; exact Hvoice | discriminate].
  - destruct hv eqn:Ehv.
    + rewrite (handleAudioMessage_keep w data wsc true conn ev Hon E eq_refl
                 Hstop').
      fields. split; congruence.
    + destruct (ClientHaveVoice conn) eqn:Hvoice.
      * rewrite (handleAudioMessage_keep w data wsc false conn ev Hon E)
          by (rewrite ?Hvoice; auto).
        fields. split; congruence.
      * destruct (handleAudioMessage_discard w data wsc conn ev Hon E Hvoice)
          as (conn' & Heq & _ & _ & Hs & _).
        rewrite Heq. fields. split; congruence.
Qed.

(* ------------------------------------------------------------------ *)
(** ** Sanity of the model *)

(** The buffer length is enough fuel: the window loop stops because less
    than a window is left, never because the fuel ran out. *)
Lemma processVAD_loop_exhausts :
  forall (fuel : nat) (v : vad.VADProcessor) (ws : nat -> vad.Window)
         (conn : ConnectionState) (chv : bool),
    0 < vad.FrameSize (vad.config v) * 2 ->
    (List.length (ClientAudioBuffer conn) <= fuel)%nat ->
    len (ClientAudioBuffer
           (snd (fst (vad.processVAD_loop fuel v ws conn chv))))
    < vad.FrameSize (vad.config v) * 2.
Proof.
  induction fuel as [| fuel IH]; intros v ws conn chv Hfs Hfuel.
  - cbn [vad.processVAD_loop fst snd]. zlen. lia.
  - cbn [vad.processVAD_loop].
    destruct (len (ClientAudioBuffer conn) >=? vad.FrameSize (vad.config v) * 2)
      eqn:Hwin.
    + rewrite Z.geb_leb in Hwin. apply Z.leb_le in Hwin.
      pose proof (processVAD_body_spec v (ws O) conn) as Hbody.
      destruct (vad.processVAD_body v (ws O) conn) as [[c conn1] ev1].
      destruct Hbody as (_ & Hbuf & _).
      assert (Hlen1 : len (ClientAudioBuffer conn1)
                      = len (ClientAudioBuffer conn)
                        - vad.FrameSize (vad.config v) * 2).
      { rewrite Hbuf. apply Zlength_skipn. lia. }
      specialize (IH v (fun k => ws (S k)) conn1 c Hfs).
      destruct (vad.processVAD_loop fuel v (fun k => ws (S k)) conn1 c)
        as [[r conn2] ev2].
      cbn [fst snd] in *. apply IH. zlen. lia.
    + rewrite Z.geb_leb in Hwin. apply Z.leb_gt in Hwin.
      cbn [fst snd]. exact Hwin.
Qed.

Lemma IsVAD_leaves_less_than_a_window :
  forall opus ws conn data,
    len (ClientAudioBuffer (snd (fst (vad.IsVAD opus ws conn data)))) < 1024.
Proof.
  intros opus ws conn data.
  rewrite IsVAD_unfold. cbv zeta.
  match goal with
  | |- context [vad.processVAD_loop ?f ?v ?w ?c ?b] =>
      pose proof (processVAD_loop_exhausts f v w c b) as Hloop;
      destruct (vad.processVAD_loop f v w c b) as [[r conn'] ev]
  end.
  cbn [fst snd] in *. apply Hloop; [reflexivity | apply Nat.le_refl].
Qed.

(** When the recognition service answers, the same third frame is
    dispatched as the specification describes: the text is routed to the
    dialogue pipeline, the queue and the voice flags are cleared and audio
    is accepted again. *)
Example successful_dispatch :
  let r :=
    handleAudioMessage
      (Scenario.world 1920 (Scenario.silent 1600) (Scenario.recognised "hi"))
      Scenario.frame3 Scenario.speaking in
  fst r = None /\
  queue (llmChan (snd r)) = ["hi"] /\
  ASRAudio (connectionState (snd r)) = [] /\
  ASRServerReceive (connectionState (snd r)) = true /\
  ClientHaveVoice (connectionState (snd r)) = false /\
  ClientVoiceStop (connectionState (snd r)) = false.
Proof.
  cbv zeta.
  split; [vm_compute; reflexivity |].
  split; [vm_compute; reflexivity |].
  split; [vm_compute; reflexivity |].
  split; [vm_compute; reflexivity |].
  split; vm_compute; reflexivity.
Qed.

(** Without an abort the synthesis stage sends the frames of a fragment
    in order and, the queue being empty and no generation in flight, the
    "tts stop" frame after the pacing delay. *)
Example synthesis_emits_frames :
  match handleTTS_turn Scenario.synthesis
          (set_ttsChan (push "hello" (ttsChan Scenario.fresh)) Scenario.fresh)
  with
  | Next wsc =>
      queue (responseChan wsc)
      = [{| MessageType := BinaryMessage; Data := Bytes [x0a] |};
         {| MessageType := BinaryMessage; Data := Bytes [x0b] |};
         {| MessageType := TextMessage;
            Data := JSON (command "tts" "" "stop" "" "" 0) |}] /\
      filter isCallTTS (trace wsc) = [CallTTS "hello"] /\
      In (Sleep 400) (trace wsc)
  | _ => False
  end.
Proof.
  vm_compute.
  split; [reflexivity |].
  split; [reflexivity |].
  auto 10.
Qed.

(** The pipeline stages do not write [ASRServerReceive] either. *)
Lemma streamLoop_keeps_acceptance :
  forall lines ending fullResponse sh,
    ASRServerReceive
      (llm.connectionState
         (snd (fst (llm.streamLoop lines ending fullResponse sh))))
    = ASRServerReceive (llm.connectionState sh).
Proof.
  induction lines as [| line lines IH]; intros ending fullResponse sh.
  - cbn [llm.streamLoop].
    destruct (ClientAbort (llm.connectionState sh)); [reflexivity |].
    destruct ending; reflexivity.
  - cbn [llm.streamLoop].
    destruct (ClientAbort (llm.connectionState sh)); [reflexivity |].
    destruct line as [| | llmResponse];
      repeat match goal with
             | |- context [if ?b then _ else _] => destruct b
             | |- context [match trySend ?x ?c with _ => _ end] =>
                 destruct (trySend x c)
             end;
      try reflexivity;
      match goal with
      | |- context [llm.streamLoop lines ending ?f ?s] =>
          specialize (IH ending f s);
          destruct (llm.streamLoop lines ending f s) as [[r sh'] ev];
          exact IH
      end.
Qed.

Lemma sendResponse_state :
  forall messageType data wsc,
    connectionState (sendResponse messageType data wsc) = connectionState wsc.
Proof.
  intros messageType data wsc. unfold sendResponse.
  destruct (ctxDone wsc); reflexivity.
Qed.

Lemma sendFrames_state :
  forall (frames : list (list byte)) (wsc : WebSocketConnection),
    connectionState
      (fold_left
         (fun wsc frame => sendResponse BinaryMessage (Bytes frame) wsc)
         frames wsc)
    = connectionState wsc.
Proof.
  induction frames as [| frame frames IH]; intro wsc; [reflexivity |].
  cbn [fold_left]. rewrite IH. apply sendResponse_state.
Qed.

Lemma TTS_keeps_acceptance :
  forall reply text wsc,
    ASRServerReceive (connectionState (snd (TTS reply text wsc)))
    = ASRServerReceive (connectionState wsc).
Proof.
  intros reply text wsc. unfold TTS.
  destruct (tts.ProcessTTS _ _ _) as [[[frames duration] | err] ev];
    reflexivity.
Qed.

Lemma pipeline_keeps_acceptance :
  forall wsc,
    (forall reply wsc',
        handleChat_turn reply wsc = Next wsc' ->
        ASRServerReceive (connectionState wsc')
        = ASRServerReceive (connectionState wsc)) /\
    (forall w wsc',
        handleTTS_turn w wsc = Next wsc' ->
        ASRServerReceive (connectionState wsc')
        = ASRServerReceive (connectionState wsc)).
Proof.
  intro wsc. split.
  - intros reply wsc'. unfold handleChat_turn.
    destruct (ctxDone wsc); [discriminate |].
    destruct (queue (llmChan wsc)) as [| text rest]; [discriminate |].
    unfold llm.ProcessLLM.
    destruct reply as [| code lines ending].
    + intro H. injection H as <-. unfold startSpeak, sendResponse.
      destruct (ctxDone _); reflexivity.
    + destruct (negb (code =? 200)).
      * intro H. injection H as <-. unfold startSpeak, sendResponse.
        destruct (ctxDone _); reflexivity.
      * match goal with
        | |- context [llm.streamLoop lines ending ?f ?s] =>
            pose proof (streamLoop_keeps_acceptance lines ending f s) as Hloop;
            destruct (llm.streamLoop lines ending f s) as [[[e |] sh'] ev]
        end; cbn [fst snd] in Hloop;
          intro H; injection H as <-; fields; rewrite Hloop;
          unfold startSpeak, sendResponse; destruct (ctxDone _); reflexivity.
  - intros w wsc'. unfold handleTTS_turn.
    destruct (ctxDone wsc); [discriminate |].
    destruct (queue (ttsChan wsc)) as [| text rest]; [discriminate |].
    set (wsc1 := if StartSpeakTime _ =? 0 then _ else _).
    assert (H1 : ASRServerReceive (connectionState wsc1)
                 = ASRServerReceive (connectionState wsc))
      by (subst wsc1; destruct (_ =? 0); reflexivity).
    destruct (ClientAbort (connectionState wsc1)).
    { intro H. injection H as <-. exact H1. }
    pose proof (TTS_keeps_acceptance (ttsReply w) text wsc1) as H2.
    destruct (TTS (ttsReply w) text wsc1) as [[frames | err] wsc2];
      cbn [snd] in H2.
    + set (wsc3 := fold_left _ frames wsc2).
      assert (H3 : connectionState wsc3 = connectionState wsc2)
        by apply sendFrames_state.
      destruct (negb (LLMFlag (connectionState wsc3))
                && (len (queue (ttsChan wsc3)) =? 0));
        intro H; injection H as <-.
      * unfold endSpeak. fields. rewrite sendResponse_state. fields.
        rewrite H3. congruence.
      * rewrite H3. congruence.
    + intro H. injection H as <-. fields. congruence.
Qed.

(* ------------------------------------------------------------------ *)
(** ** More on the recognition dispatcher *)

(** X1.  With a non-empty queue of at most 2 MiB (the limit is
    inclusive) [ProcessASR] sends one request, carrying the queued
    chunks in order.  When it succeeds only the queue changes: it is
    emptied.  When it fails the state is untouched and the error is an
    upstream one. *)
Theorem X1_ProcessASR_sends_queue_once :
  forall (reply : asr.ASRReply) (conn : ConnectionState),
    ASRAudio conn <> [] ->
    asr.totalLength (ASRAudio conn) <= 2097152 ->
    let '(r, conn', ev) := asr.ProcessASR reply conn in
    filter isCallASR ev = [CallASR (ASRAudio conn)] /\
    match r with
    | Ok _ => conn' = set_ASRAudio [] conn
    | Err e => conn' = conn /\ isUpstream e = true
    end.
Proof.
  intros reply conn Hne Hsize.
  unfold asr.ProcessASR.
  destruct (len (ASRAudio conn) =? 0) eqn:E.
  { apply Z.eqb_eq in E. apply Zlength_nil_inv in E. contradiction. }
  change (asr.MaxAudioSize (asr.config asr.getASRProcessor)) with 2097152.
  replace (asr.totalLength (ASRAudio conn) >? 2097152) with false
    by (symmetry; rewrite Z.gtb_ltb; apply Z.ltb_ge; exact Hsize).
  unfold asr.callASRService.
  destruct reply as [| | code [asrResponse |]];
    try destruct (negb (code =? 200));
    try destruct (negb (String.eqb (asr.Status asrResponse) "success"));
    cbn [filter isCallASR app]; repeat split.
Qed.

Lemma X1_witness :
  let conn := set_ASRAudio [Scenario.big] (connectionState Scenario.fresh) in
  let '(r, conn', ev) := asr.ProcessASR (Scenario.recognised "hi") conn in
  filter isCallASR ev = [CallASR (ASRAudio conn)] /\
  match r with
  | Ok _ => conn' = set_ASRAudio [] conn
  | Err e => conn' = conn /\ isUpstream e = true
  end.
Proof.
  intro conn.
  apply (X1_ProcessASR_sends_queue_once (Scenario.recognised "hi") conn).
  - discriminate.
  - subst conn. fields. unfold asr.totalLength. cbn [fold_left].
    rewrite Zlength_big. discriminate.
Defined.

(** X2.  [callASRService] returns a text exactly when the service
    answers with HTTP status 200, a body that parses and the status
    "success"; the text is the one of the body. *)
Theorem X2_callASRService_ok_iff :
  forall (a : asr.ASRProcessor) (reply : asr.ASRReply)
         (conn : ConnectionState) (text : string),
    fst (asr.callASRService a reply conn) = Ok text <->
    exists asrResponse,
      reply = asr.Http 200 (Some asrResponse) /\
      asr.Status asrResponse = "success" /\
      asr.Text asrResponse = text.
Proof.
  intros a reply conn text.
  unfold asr.callASRService.
  split.
  - destruct reply as [| | code [asrResponse |]]; cbn [fst];
      try discriminate;
      destruct (code =? 200) eqn:Ecode; cbn [negb fst]; try discriminate.
    destruct (String.eqb (asr.Status asrResponse) "success") eqn:Estatus;
      cbn [negb fst]; try discriminate.
    intro H. injection H as H.
    apply Z.eqb_eq in Ecode. apply String.eqb_eq in Estatus.
    exists asrResponse. subst code. repeat split; assumption.
  - intros (asrResponse & -> & Hstatus & Htext).
    cbn [Z.eqb Pos.eqb negb]. rewrite Hstatus. cbn. now rewrite Htext.
Qed.

Lemma totalLength_from :
  forall (chunks : list (list byte)) (n : Z),
    fold_left (fun length chunk => length + len chunk) chunks n
    = n + len (List.concat chunks).
Proof.
  induction chunks as [| chunk chunks IH]; intro n.
  - cbn [fold_left List.concat]. rewrite Zlength_nil. lia.
  - cbn [fold_left List.concat]. rewrite IH, Zlength_app_add. lia.
Qed.

(** X3.  The size [ProcessASR] checks is the number of bytes of the
    whole utterance, and [AddAudioData] puts the chunk at the end of
    the queue, raising that size by the length of the chunk. *)
Theorem X3_AddAudioData_grows_total :
  forall (conn : ConnectionState) (audioData : list byte),
    asr.totalLength (ASRAudio conn) = len (List.concat (ASRAudio conn)) /\
    ASRAudio (asr.AddAudioData conn audioData)
    = ASRAudio conn ++ [audioData] /\
    asr.totalLength (ASRAudio (asr.AddAudioData conn audioData))
    = asr.totalLength (ASRAudio conn) + len audioData.
Proof.
  intros conn audioData.
  unfold asr.totalLength, asr.AddAudioData. fields.
  rewrite !totalLength_from, concat_app, Zlength_app_add.
  cbn [List.concat]. rewrite app_nil_r.
  repeat split; lia.
Qed.

(** X4.  A dispatch that succeeds: with at least 3 chunks of at most
    2 MiB in all and a "success" answer, [handleAudioMessage] returns
    nil, sends the queue with the current frame at its end to the
    recognition service in one request, puts the recognised text at the
    end of the LLM channel, and leaves the queue and the accumulator
    empty, the voice flags and client-abort down, the last-voice time at
    zero and [ASRServerReceive] true. *)
Theorem X4_successful_dispatch :
  forall (w : AudioWorld) (data : list byte) (wsc : WebSocketConnection)
         (hv : bool) (conn : ConnectionState) (ev : list Event)
         (asrResponse : asr.ASRResponse),
    ASRServerReceive (connectionState wsc) = true ->
    ctxDone wsc = false ->
    detectVoice w data (connectionState wsc) = (hv, conn, ev) ->
    hv || ClientHaveVoice conn = true ->
    ClientVoiceStop conn = true ->
    3 <= len (ASRAudio conn ++ [data]) ->
    asr.totalLength (ASRAudio conn ++ [data]) <= 2097152 ->
    asrReply w = asr.Http 200 (Some asrResponse) ->
    asr.Status asrResponse = "success" ->
    let r := handleAudioMessage w data wsc in
    fst r = None /\
    filter isCallASR (trace (snd r))
    = filter isCallASR (trace wsc) ++ [CallASR (ASRAudio conn ++ [data])] /\
    queue (llmChan (snd r)) = queue (llmChan wsc) ++ [asr.Text asrResponse] /\
    ASRAudio (connectionState (snd r)) = [] /\
    ClientAudioBuffer (connectionState (snd r)) = [] /\
    ASRServerReceive (connectionState (snd r)) = true /\
    ClientHaveVoice (connectionState (snd r)) = false /\
    ClientVoiceStop (connectionState (snd r)) = false /\
    ClientAbort (connectionState (snd r)) = false /\
    ClientHaveVoiceLastTime (connectionState (snd r)) = 0.
Proof.
  intros w data wsc hv conn ev asrResponse Hon Hctx Hdet Hvoice Hstop Hlen
         Hsize Hreply Hstatus r.
  subst r.
  rewrite (handleAudioMessage_dispatch w data wsc hv conn ev Hon Hdet Hvoice
             Hstop Hlen).
  cbv zeta. rewrite Hreply.
  unfold asr.ProcessASR. fields.
  replace (len (ASRAudio conn ++ [data]) =? 0) with false
    by (symmetry; apply Z.eqb_neq; lia).
  change (asr.MaxAudioSize (asr.config asr.getASRProcessor)) with 2097152.
  replace (asr.totalLength (ASRAudio conn ++ [data]) >? 2097152) with false
    by (symmetry; rewrite Z.gtb_ltb; apply Z.ltb_ge; exact Hsize).
  unfold asr.callASRService.
  cbn [Z.eqb Pos.eqb negb]. rewrite Hstatus.
  cbn [String.eqb Ascii.eqb Bool.eqb negb].
  unfold send2LLM. fields. rewrite Hctx. fields.
  pose proof (detectVoice_spec w data (connectionState wsc)) as Hspec.
  rewrite Hdet in Hspec. destruct Hspec as (_ & Hcalls & _).
  split; [reflexivity |].
  split.
  { rewrite !filter_app, Hcalls. cbn [filter isCallASR app].
    now rewrite !app_nil_r. }
  repeat split.
Qed.

Lemma X4_witness :
  let w :=
    Scenario.world 1920 (Scenario.silent 1600) (Scenario.recognised "hi") in
  let r := handleAudioMessage w Scenario.frame3 Scenario.speaking in
  fst r = None /\
  filter isCallASR (trace (snd r))
  = filter isCallASR (trace Scenario.speaking)
    ++ [CallASR [Scenario.frame1; Scenario.frame2; Scenario.frame3]] /\
  queue (llmChan (snd r)) = queue (llmChan Scenario.speaking) ++ ["hi"] /\
  ASRAudio (connectionState (snd r)) = [] /\
  ClientAudioBuffer (connectionState (snd r)) = [] /\
  ASRServerReceive (connectionState (snd r)) = true /\
  ClientHaveVoice (connectionState (snd r)) = false /\
  ClientVoiceStop (connectionState (snd r)) = false /\
  ClientAbort (connectionState (snd r)) = false /\
  ClientHaveVoiceLastTime (connectionState (snd r)) = 0.
Proof.
  intro w.
  assert (Hqueue :
    ASRAudio
      (snd (fst (detectVoice w Scenario.frame3
                   (connectionState Scenario.speaking))))
    ++ [Scenario.frame3]
    = [Scenario.frame1; Scenario.frame2; Scenario.frame3])
    by (vm_compute; reflexivity).
  rewrite <- Hqueue.
  apply (X4_successful_dispatch w Scenario.frame3 Scenario.speaking
           (fst (fst (detectVoice w Scenario.frame3
                        (connectionState Scenario.speaking))))
           (snd (fst (detectVoice w Scenario.frame3
                        (connectionState Scenario.speaking))))
           (snd (detectVoice w Scenario.frame3
                   (connectionState Scenario.speaking)))
           {| asr.Status := "success"; asr.Text := "hi" |}).
  - vm_compute. reflexivity.
  - vm_compute. reflexivity.
  - vm_compute. reflexivity.
  - vm_compute. reflexivity.
  - vm_compute. reflexivity.
  - vm_compute. discriminate.
  - vm_compute. discriminate.
  - reflexivity.
  - reflexivity.
Defined.

(* ------------------------------------------------------------------ *)
(** ** Control frames and the read loop *)

Lemma knownType_false :
  forall type,
    knownType type = false ->
    String.eqb type "hello" = false /\ String.eqb type "iot" = false /\
    String.eqb type "abort" = false /\ String.eqb type "listen" = false.
Proof.
  intros type H. unfold knownType in H. cbn [existsb] in H.
  repeat (apply orb_false_iff in H; destruct H as (? & H)).
  repeat split; assumption.
Qed.

(** X5.  A control frame that does not parse, or whose type is not one
    of hello, iot, abort and listen, changes nothing in the session
    but the log (the debug line of the frame and the error line), and
    the read loop goes on with the next message. *)
Theorem X5_bad_control_frame_is_skipped :
  forall (w : World) (data : list byte)
         (rest : list (World * Z * list byte)) (wsc : WebSocketConnection),
    ctxDone wsc = false ->
    match unmarshal w with
    | None => True
    | Some msg_json => knownType (ConnectionCommand.Type_ msg_json) = false
    end ->
    readLoop ((w, TextMessage, data) :: rest) wsc
    = readLoop rest
        (emit [Log LError "ws.processMessage"]
           (emit [Log LDebug "ws.text"] wsc)).
Proof.
  intros w data rest wsc Hctx Hbad.
  cbn [readLoop]. rewrite Hctx.
  unfold processMessage.
  change (TextMessage =? TextMessage) with true. cbv iota.
  unfold handleTextMessage.
  destruct (unmarshal w) as [msg_json |].
  - destruct (knownType_false _ Hbad) as (H1 & H2 & H3 & H4).
    rewrite H1, H2, H3, H4. reflexivity.
  - reflexivity.
Qed.

Lemma X5_witness :
  readLoop
    [({| unmarshal := None;
         audio := Scenario.world 0 (Scenario.silent 0) asr.SendFailed |},
      TextMessage, [x7b]);
     ({| unmarshal := Some Scenario.abort;
         audio := Scenario.world 0 (Scenario.silent 0) asr.SendFailed |},
      TextMessage, [x7b; x7d])]
    Scenario.fresh
  = readLoop
      [({| unmarshal := Some Scenario.abort;
           audio := Scenario.world 0 (Scenario.silent 0) asr.SendFailed |},
        TextMessage, [x7b; x7d])]
      (emit [Log LError "ws.processMessage"]
         (emit [Log LDebug "ws.text"] Scenario.fresh)).
Proof.
  apply X5_bad_control_frame_is_skipped.
  - reflexivity.
  - exact I.
Defined.

(** X6.  No control frame, whatever its type and fields, changes the
    dialogue history, the LLM and fragment channels, the cancellation
    state, the frames already written, or these fields of the
    connection state: [ASRServerReceive], the audio accumulator, the
    two voice timers, the generation flag and the synthesis timing.
    The utterance queue is either kept or emptied. *)
Theorem X6_control_frames_leave_audio_state :
  forall (parsed : option ConnectionCommand.t) (wsc : WebSocketConnection),
    let wsc' := snd (handleTextMessage parsed wsc) in
    dialogueStore wsc' = dialogueStore wsc /\
    llmChan wsc' = llmChan wsc /\
    ttsChan wsc' = ttsChan wsc /\
    ctxDone wsc' = ctxDone wsc /\
    written wsc' = written wsc /\
    ASRServerReceive (connectionState wsc')
    = ASRServerReceive (connectionState wsc) /\
    ClientAudioBuffer (connectionState wsc')
    = ClientAudioBuffer (connectionState wsc) /\
    ClientHaveVoiceLastTime (connectionState wsc')
    = ClientHaveVoiceLastTime (connectionState wsc) /\
    ClientNoVoiceLastTime (connectionState wsc')
    = ClientNoVoiceLastTime (connectionState wsc) /\
    LLMFlag (connectionState wsc') = LLMFlag (connectionState wsc) /\
    StartSpeakTime (connectionState wsc')
    = StartSpeakTime (connectionState wsc) /\
    TTSDuration (connectionState wsc') = TTSDuration (connectionState wsc) /\
    (ASRAudio (connectionState wsc') = ASRAudio (connectionState wsc) \/
     ASRAudio (connectionState wsc') = []).
Proof.
  intros [msg_json |] wsc; cbv zeta.
  2: { cbn [handleTextMessage snd]. repeat split. now left. }
  unfold handleTextMessage, sendResponse.
  repeat match goal with
         | |- context [if ?b then _ else _] => destruct b eqn:?
         end; fields; repeat split; fields; try reflexivity;
    solve [congruence | left; reflexivity | right; reflexivity].
Qed.

(** X7.  A listen command with an empty mode keeps the listen mode; with
    a mode it sets exactly that mode.  It puts no frame on the response
    channel and never touches client-abort. *)
Theorem X7_listen_sets_mode_only_when_given :
  forall (msg_json : ConnectionCommand.t) (wsc : WebSocketConnection),
    ConnectionCommand.Type_ msg_json = "listen" ->
    let wsc' := snd (handleTextMessage (Some msg_json) wsc) in
    fst (handleTextMessage (Some msg_json) wsc) = None /\
    ClientListenMode (connectionState wsc')
    = (if String.eqb (ConnectionCommand.Mode msg_json) ""
       then ClientListenMode (connectionState wsc)
       else ConnectionCommand.Mode msg_json) /\
    responseChan wsc' = responseChan wsc /\
    trace wsc' = trace wsc /\
    ClientAbort (connectionState wsc') = ClientAbort (connectionState wsc).
Proof.
  intros msg_json wsc Htype. cbv zeta.
  unfold handleTextMessage. rewrite Htype.
  cbn [String.eqb Ascii.eqb Bool.eqb].
  destruct (String.eqb (ConnectionCommand.Mode msg_json) ""); cbn [negb];
    repeat match goal with
           | |- context [if ?b then _ else _] => destruct b
           end; fields; repeat split.
Qed.

Lemma X7_witness :
  let wsc' :=
    snd (handleTextMessage (Some (Scenario.listen "" "stop"))
           Scenario.stopped) in
  fst (handleTextMessage (Some (Scenario.listen "" "stop")) Scenario.stopped)
  = None /\
  ClientListenMode (connectionState wsc')
  = (if String.eqb (ConnectionCommand.Mode (Scenario.listen "" "stop")) ""
     then ClientListenMode (connectionState Scenario.stopped)
     else ConnectionCommand.Mode (Scenario.listen "" "stop")) /\
  responseChan wsc' = responseChan Scenario.stopped /\
  trace wsc' = trace Scenario.stopped /\
  ClientAbort (connectionState wsc')
  = ClientAbort (connectionState Scenario.stopped).
Proof.
  apply (X7_listen_sets_mode_only_when_given (Scenario.listen "" "stop")
           Scenario.stopped).
  reflexivity.
Defined.

(** X8.  The read loop ends at a close message: nothing that follows it
    is handled. *)
Theorem X8_nothing_is_read_after_close :
  forall (before rest : list (World * Z * list byte)) (w : World)
         (data : list byte) (wsc : WebSocketConnection),
    readLoop (before ++ (w, CloseMessage, data) :: rest) wsc
    = readLoop (before ++ [(w, CloseMessage, data)]) wsc.
Proof.
  induction before as [| [[w0 messageType] message] before IH];
    intros rest w data wsc.
  - cbn [app readLoop].
    destruct (ctxDone wsc); [reflexivity |].
    unfold processMessage.
    change (CloseMessage =? TextMessage) with false.
    change (CloseMessage =? BinaryMessage) with false.
    change (CloseMessage =? PingMessage) with false.
    change (CloseMessage =? PongMessage) with false.
    change (CloseMessage =? CloseMessage) with true.
    reflexivity.
  - cbn [app readLoop].
    destruct (ctxDone wsc); [reflexivity |].
    destruct (processMessage w0 messageType message wsc) as [[e |] wsc'];
      [destruct (messageType =? CloseMessage); [reflexivity |] |];
      apply IH.
Qed.



Lemma X10_witness :
  ASRServerReceive
    (connectionState
       (readLoop
          [({| unmarshal := Some (Scenario.listen "manual" "start");
               audio := Scenario.world 1920 (Scenario.voiced 3000)
                          (Scenario.recognised "hi") |},
            TextMessage, [x7b; x7d]);
           ({| unmarshal := None;
               audio := Scenario.world 1920 (Scenario.voiced 3000)
                          (Scenario.recognised "hi") |},
            BinaryMessage, Scenario.frame4)]
          (snd Scenario.failedDispatch))) = false.
Proof.
  apply readLoop_never_accepts_again.
  vm_compute. reflexivity.
Defined.

(* ------------------------------------------------------------------ *)
(** ** More on the audio segmenter *)

Lemma vadWindows_app :
  forall ev ev', vadWindows (ev ++ ev') = vadWindows ev ++ vadWindows ev'.
Proof. intros ev ev'. unfold vadWindows. apply flat_map_app. Qed.

Lemma firstn_repeat_le :
  forall (A : Type) (x : A) (k n : nat),
    (k <= n)%nat -> firstn k (repeat x n) = repeat x k.
Proof.
  intros A x k. induction k as [| k IH]; intros n Hk.
  - reflexivity.
  - destruct n as [| n]; [lia |].
    cbn [repeat firstn]. f_equal. apply IH. lia.
Qed.

(** X11.  [callVADService] always sends a window of exactly the frame
    size: the audio it is given, cut at the frame size or completed with
    zero bytes. *)
Theorem X11_callVADService_sends_full_window :
  forall (v : vad.VADProcessor) (reply : vad.VADReply)
         (audioData : list byte),
    0 <= vad.FrameSize (vad.config v) ->
    let n := Z.to_nat (vad.FrameSize (vad.config v) * 2) in
    snd (vad.callVADService v reply audioData)
    = [CallVAD (firstn n (audioData ++ repeat x00 n))] /\
    len (firstn n (audioData ++ repeat x00 n))
    = vad.FrameSize (vad.config v) * 2.
Proof.
  intros v reply audioData Hfs n.
  assert (Hn : Z.of_nat n = vad.FrameSize (vad.config v) * 2)
    by (subst n; lia).
  split.
  - unfold vad.callVADService. fold n.
    set (fs := vad.FrameSize (vad.config v) * 2) in *.
    assert (Hpayload :
      (if len audioData >? fs
       then firstn n audioData
       else if len audioData <? fs
            then audioData ++ repeat x00 (Z.to_nat (fs - len audioData))
            else audioData)
      = firstn n (audioData ++ repeat x00 n)).
    { rewrite Zlength_correct.
      destruct (Z.of_nat (List.length audioData) >? fs) eqn:Hgt.
      - rewrite Z.gtb_ltb in Hgt. apply Z.ltb_lt in Hgt.
        rewrite firstn_app.
        replace (n - List.length audioData)%nat with 0%nat by lia.
        cbn [firstn]. now rewrite app_nil_r.
      - rewrite Z.gtb_ltb in Hgt. apply Z.ltb_ge in Hgt.
        destruct (Z.of_nat (List.length audioData) <? fs) eqn:Hlt.
        + apply Z.ltb_lt in Hlt.
          rewrite firstn_app, firstn_all2 by lia.
          f_equal.
          replace (Z.to_nat (fs - Z.of_nat (List.length audioData)))
            with (n - List.length audioData)%nat by lia.
          symmetry. apply firstn_repeat_le. lia.
        + apply Z.ltb_ge in Hlt.
          rewrite firstn_app, firstn_all2 by lia.
          replace (n - List.length audioData)%nat with 0%nat by lia.
          cbn [firstn]. now rewrite app_nil_r. }
    rewrite Hpayload.
    destruct reply as [| | [vadResp |]]; reflexivity.
  - rewrite Zlength_correct, length_firstn, length_app, repeat_length. lia.
Qed.

Lemma X11_witness :
  let n := Z.to_nat (vad.FrameSize (vad.config vad.getVADProcessor) * 2) in
  snd (vad.callVADService vad.getVADProcessor (Scenario.answer true)
         [x01; x02; x03])
  = [CallVAD (firstn n ([x01; x02; x03] ++ repeat x00 n))] /\
  len (firstn n ([x01; x02; x03] ++ repeat x00 n))
  = vad.FrameSize (vad.config vad.getVADProcessor) * 2.
Proof.
  apply (X11_callVADService_sends_full_window vad.getVADProcessor
           (Scenario.answer true) [x01; x02; x03]).
  vm_compute. discriminate.
Defined.

(** The window a turn of the loop sends is the first frame-size bytes
    of the accumulator. *)
Lemma processVAD_body_window :
  forall (v : vad.VADProcessor) (w : vad.Window) (conn : ConnectionState),
    0 < vad.FrameSize (vad.config v) * 2 ->
    vad.FrameSize (vad.config v) * 2 <= len (ClientAudioBuffer conn) ->
    vadWindows (snd (vad.processVAD_body v w conn))
    = [firstn (Z.to_nat (vad.FrameSize (vad.config v) * 2))
         (ClientAudioBuffer conn)].
Proof.
  intros v w conn Hfs Hwin.
  unfold vad.processVAD_body, vad.callVADService.
  set (fs := vad.FrameSize (vad.config v) * 2) in *.
  assert (Hlen : len (firstn (Z.to_nat fs) (ClientAudioBuffer conn)) = fs).
  { rewrite Zlength_correct, length_firstn. zlen. lia. }
  rewrite Hlen.
  replace (fs >? fs) with false by (symmetry; rewrite Z.gtb_ltb; apply Z.ltb_irrefl).
  rewrite Z.ltb_irrefl.
  destruct (vad.reply w) as [| | [vadResp |]]; fields;
    repeat match goal with
           | |- context [if ?b then _ else _] => destruct b
           end; reflexivity.
Qed.

Lemma processVAD_loop_conserves :
  forall (fuel : nat) (v : vad.VADProcessor) (ws : nat -> vad.Window)
         (conn : ConnectionState) (chv : bool),
    0 < vad.FrameSize (vad.config v) * 2 ->
    let '(r, conn', ev) := vad.processVAD_loop fuel v ws conn chv in
    List.concat (vadWindows ev) ++ ClientAudioBuffer conn'
    = ClientAudioBuffer conn /\
    Forall (fun window => len window = vad.FrameSize (vad.config v) * 2)
      (vadWindows ev).
Proof.
  induction fuel as [| fuel IH]; intros v ws conn chv Hfs.
  - cbn [vad.processVAD_loop]. split; [reflexivity | constructor].
  - cbn [vad.processVAD_loop].
    destruct (len (ClientAudioBuffer conn) >=? vad.FrameSize (vad.config v) * 2)
      eqn:Hwin.
    + rewrite Z.geb_leb in Hwin. apply Z.leb_le in Hwin.
      pose proof (processVAD_body_spec v (ws O) conn) as Hbody.
      pose proof (processVAD_body_window v (ws O) conn Hfs Hwin) as Hsent.
      destruct (vad.processVAD_body v (ws O) conn) as [[c conn1] ev1].
      destruct Hbody as (_ & Hbuf & _).
      cbn [snd] in Hsent.
      specialize (IH v (fun k => ws (S k)) conn1 c Hfs).
      destruct (vad.processVAD_loop fuel v (fun k => ws (S k)) conn1 c)
        as [[r conn2] ev2].
      destruct IH as (Hrest & Hsizes).
      rewrite vadWindows_app, Hsent. cbn [app List.concat].
      split.
      * rewrite <- app_assoc, Hrest, Hbuf. apply firstn_skipn.
      * constructor; [| exact Hsizes].
        rewrite Zlength_correct, length_firstn. zlen. lia.
    + split; [reflexivity | constructor].
Qed.

(** X12.  The voice detection loses and reorders no audio: the windows
    [IsVAD] sends to the collaborator, in order, followed by what it
    leaves in the accumulator, are the old accumulator followed by the
    bytes of the frame; every window has 1024 bytes, and less than
    one window is left. *)
Theorem X12_IsVAD_conserves_audio :
  forall (opus : option (list byte)) (ws : nat -> vad.Window)
         (conn : ConnectionState) (data : list byte),
    let '(r, conn', ev) := vad.IsVAD opus ws conn data in
    List.concat (vadWindows ev) ++ ClientAudioBuffer conn'
    = ClientAudioBuffer conn
      ++ match opus with Some pcmData => pcmData | None => data end /\
    Forall (fun window => len window = 1024) (vadWindows ev) /\
    len (ClientAudioBuffer conn') < 1024.
Proof.
  intros opus ws conn data.
  rewrite IsVAD_unfold. cbv zeta.
  match goal with
  | |- context [vad.processVAD_loop ?f ?v ?w ?c ?b] =>
      pose proof (processVAD_loop_conserves f v w c b eq_refl) as Hloop;
      pose proof (processVAD_loop_exhausts f v w c b) as Hleft;
      destruct (vad.processVAD_loop f v w c b) as [[r conn'] ev]
  end.
  destruct Hloop as (Hall & Hsizes).
  cbn [fst snd] in Hleft.
  specialize (Hleft eq_refl (Nat.le_refl _)).
  rewrite vadWindows_app.
  replace (vadWindows
             match opus with
             | Some _ => []
             | None => [Log LError "vad.decodeOpus"]
             end) with (@nil (list byte)) by (now destruct opus).
  cbn [app]. fields.
  split; [exact Hall | split; [exact Hsizes | exact Hleft]].
Qed.

(** X13.  [IsVAD] writes only the accumulator and the voice fields, never
    lowers has-voice or voice-stop, raises voice-stop only with has-voice
    set, and returns true only with has-voice set. *)
Theorem X13_IsVAD_keeps_voice_flags :
  forall (opus : option (list byte)) (ws : nat -> vad.Window)
         (conn : ConnectionState) (data : list byte),
    let '(r, conn', ev) := vad.IsVAD opus ws conn data in
    sameOutsideVAD conn conn' /\
    (ClientHaveVoice conn = true -> ClientHaveVoice conn' = true) /\
    (ClientVoiceStop conn = true -> ClientVoiceStop conn' = true) /\
    (ClientVoiceStop conn' = true ->
     ClientVoiceStop conn = true \/ ClientHaveVoice conn' = true) /\
    (r = true -> ClientHaveVoice conn' = true).
Proof.
  intros opus ws conn data.
  rewrite IsVAD_unfold. cbv zeta.
  match goal with
  | |- context [vad.processVAD_loop ?f ?v ?w ?c ?b] =>
      pose proof (processVAD_loop_spec f v w c b) as Hloop;
      destruct (vad.processVAD_loop f v w c b) as [[r conn'] ev]
  end.
  destruct Hloop as (Hsame & _ & Hstop & Hhv & Hraise & Hr).
  fields.
  split.
  { eapply sameOutsideVAD_trans; [apply sameOutsideVAD_buffer | exact Hsame]. }
  repeat split; auto.
  intro H. destruct (Hr H) as [H' | H']; [discriminate | exact H'].
Qed.

Lemma X13_witness :
  let '(r, conn', ev) :=
    vad.IsVAD (Some (repeat x00 1920)) Scenario.failThenVoice
      Scenario.afterLongFrame Scenario.frame2 in
  sameOutsideVAD Scenario.afterLongFrame conn' /\
  (ClientHaveVoice Scenario.afterLongFrame = true ->
   ClientHaveVoice conn' = true) /\
  (ClientVoiceStop Scenario.afterLongFrame = true ->
   ClientVoiceStop conn' = true) /\
  (ClientVoiceStop conn' = true ->
   ClientVoiceStop Scenario.afterLongFrame = true \/
   ClientHaveVoice conn' = true) /\
  (r = true -> ClientHaveVoice conn' = true).
Proof.
  exact (X13_IsVAD_keeps_voice_flags (Some (repeat x00 1920))
           Scenario.failThenVoice Scenario.afterLongFrame Scenario.frame2).
Defined.

(** X14.  Outside "auto" mode, with has-voice set and voice-stop not
    set, audio frames are queued in the order they arrive, the
    voice-activity collaborator is never called, and the session goes on
    accepting audio. *)
Theorem X14_manual_mode_buffers_in_order :
  forall (frames : list (AudioWorld * list byte)) (wsc : WebSocketConnection),
    ASRServerReceive (connectionState wsc) = true ->
    String.eqb (ClientListenMode (connectionState wsc)) "auto" = false ->
    ClientHaveVoice (connectionState wsc) = true ->
    ClientVoiceStop (connectionState wsc) = false ->
    ASRAudio (connectionState (audioRun frames wsc))
    = ASRAudio (connectionState wsc) ++ map snd frames /\
    trace (audioRun frames wsc) = trace wsc /\
    ASRServerReceive (connectionState (audioRun frames wsc)) = true /\
    ClientAudioBuffer (connectionState (audioRun frames wsc))
    = ClientAudioBuffer (connectionState wsc).
Proof.
  induction frames as [| [w data] frames IH];
    intros wsc Hon Hmode Hvoice Hstop.
  - cbn [audioRun map]. rewrite app_nil_r. repeat split. exact Hon.
  - cbn [audioRun map snd].
    assert (Hdet : detectVoice w data (connectionState wsc)
                   = (true, connectionState wsc, [])).
    { unfold detectVoice. now rewrite Hmode, Hvoice. }
    rewrite (handleAudioMessage_keep w data wsc true (connectionState wsc) []
               Hon Hdet eq_refl Hstop).
    cbn [snd].
    match goal with
    | |- context [audioRun frames ?s] =>
        destruct (IH s) as (I1 & I2 & I3 & I4);
        [ fields; assumption .. |]
    end.
    rewrite I1, I2, I3, I4. fields.
    rewrite <- app_assoc, app_nil_r. cbn [app].
    repeat split.
Qed.

Lemma X14_witness :
  let wsc :=
    snd (handleTextMessage (Some (Scenario.listen "manual" "start"))
           Scenario.fresh) in
  let frames :=
    [(Scenario.world 0 (Scenario.silent 0) asr.SendFailed, Scenario.frame1);
     (Scenario.world 0 (Scenario.silent 0) asr.SendFailed, Scenario.frame2)] in
  ASRAudio (connectionState (audioRun frames wsc))
  = ASRAudio (connectionState wsc) ++ map snd frames /\
  trace (audioRun frames wsc) = trace wsc /\
  ASRServerReceive (connectionState (audioRun frames wsc)) = true /\
  ClientAudioBuffer (connectionState (audioRun frames wsc))
  = ClientAudioBuffer (connectionState wsc).
Proof.
  intros wsc frames.
  apply (X14_manual_mode_buffers_in_order frames wsc); reflexivity.
Defined.

(** X15.  A frame with no voice while has-voice is down is discarded
    and the utterance queue emptied.  The first such frame only records
    the time (in ms, from the clock in seconds).  A later one closes
    audio acceptance exactly when the time since then reaches
    [CloseConnectionTimeout] seconds; it does not refresh the recorded
    time and does not cancel the context: the connection stays open. *)
Theorem X15_idle_close :
  forall (w : AudioWorld) (data : list byte) (wsc : WebSocketConnection)
         (conn : ConnectionState) (ev : list Event),
    ASRServerReceive (connectionState wsc) = true ->
    detectVoice w data (connectionState wsc) = (false, conn, ev) ->
    ClientHaveVoice conn = false ->
    let r := handleAudioMessage w data wsc in
    let idle := nowUnix w * 1000 - ClientNoVoiceLastTime conn in
    fst r = None /\
    ASRAudio (connectionState (snd r)) = [] /\
    ctxDone (snd r) = ctxDone wsc /\
    (ClientNoVoiceLastTime conn = 0 ->
     ClientNoVoiceLastTime (connectionState (snd r)) = nowUnix w * 1000 /\
     ASRServerReceive (connectionState (snd r)) = true) /\
    (ClientNoVoiceLastTime conn <> 0 ->
     ClientNoVoiceLastTime (connectionState (snd r))
     = ClientNoVoiceLastTime conn /\
     ASRServerReceive (connectionState (snd r))
     = negb (Qle_bool
               (1000 * config.CloseConnectionTimeout
                         (config.WebSocket (websocket.config wsc)))%Q
               (inject_Z idle))).
Proof.
  intros w data wsc conn ev Hon Hdet Hvoice r idle.
  pose proof (detectVoice_spec w data (connectionState wsc)) as Hspec.
  rewrite Hdet in Hspec. destruct Hspec as (Hsame & _).
  assert (Hon' : ASRServerReceive conn = true).
  { unfold sameOutsideVAD in Hsame.
    repeat match goal with H : _ /\ _ |- _ => destruct H end. congruence. }
  subst r idle. unfold handleAudioMessage.
  rewrite Hon, Hdet, Hvoice. cbn [negb andb].
  destruct (ClientNoVoiceLastTime conn =? 0) eqn:Ezero.
  - apply Z.eqb_eq in Ezero. fields.
    repeat split; try congruence.
  - apply Z.eqb_neq in Ezero.
    destruct (Qle_bool _ _); fields; cbn [negb]; repeat split;
      congruence.
Qed.

Lemma X15_witness :
  let w := Scenario.world 640 (Scenario.silent 100) asr.SendFailed in
  let r := handleAudioMessage w Scenario.frame1 Scenario.fresh in
  let conn :=
    snd (fst (detectVoice w Scenario.frame1
                (connectionState Scenario.fresh))) in
  let idle := nowUnix w * 1000 - ClientNoVoiceLastTime conn in
  fst r = None /\
  ASRAudio (connectionState (snd r)) = [] /\
  ctxDone (snd r) = ctxDone Scenario.fresh /\
  (ClientNoVoiceLastTime conn = 0 ->
   ClientNoVoiceLastTime (connectionState (snd r)) = nowUnix w * 1000 /\
   ASRServerReceive (connectionState (snd r)) = true) /\
  (ClientNoVoiceLastTime conn <> 0 ->
   ClientNoVoiceLastTime (connectionState (snd r))
   = ClientNoVoiceLastTime conn /\
   ASRServerReceive (connectionState (snd r))
   = negb (Qle_bool
             (1000 * config.CloseConnectionTimeout
                       (config.WebSocket (websocket.config Scenario.fresh)))%Q
             (inject_Z idle))).
Proof.
  intros w r conn idle.
  apply (X15_idle_close w Scenario.frame1 Scenario.fresh conn
           (snd (detectVoice w Scenario.frame1
                   (connectionState Scenario.fresh)))).
  - reflexivity.
  - vm_compute. reflexivity.
  - vm_compute. reflexivity.
Defined.

(* ------------------------------------------------------------------ *)
(** ** More on the generation stage *)


(** X16.  Fragments are queued in stream order, each at the end of the
    fragment channel, as long as the channel is below its capacity;
    those that arrive at a full channel are dropped and nothing that was
    queued is removed or reordered.  (No abort, and nothing received
    from the channel during the call.) *)
Theorem X16_fragments_kept_up_to_capacity :
  forall (lines : list llm.Line) (ending : llm.StreamEnd)
         (fullResponse : string) (sh : llm.Shared),
    ClientAbort (llm.connectionState sh) = false ->
    let sh' := snd (fst (llm.streamLoop lines ending fullResponse sh)) in
    queue (llm.ttsChan sh')
    = queue (llm.ttsChan sh)
      ++ firstn (Z.to_nat (cap (llm.ttsChan sh) - len (queue (llm.ttsChan sh))))
           (fragments lines) /\
    cap (llm.ttsChan sh') = cap (llm.ttsChan sh).
Proof.
  induction lines as [| line lines IH]; intros ending fullResponse sh Hlive.
  - cbn [llm.streamLoop fragments]. rewrite Hlive.
    rewrite firstn_nil, app_nil_r.
    destruct ending; split; reflexivity.
  - cbn [llm.streamLoop fragments]. rewrite Hlive.
    destruct line as [| | llmResponse].
    + specialize (IH ending fullResponse sh Hlive).
      destruct (llm.streamLoop lines ending fullResponse sh) as [[r s] e].
      exact IH.
    + specialize (IH ending fullResponse sh Hlive).
      destruct (llm.streamLoop lines ending fullResponse sh) as [[r s] e].
      exact IH.
    + destruct (String.eqb (llm.Status llmResponse) "streaming").
      * destruct (String.eqb (llm.Chunk llmResponse) ""); cbn [negb].
        -- specialize (IH ending fullResponse sh Hlive).
           destruct (llm.streamLoop lines ending fullResponse sh)
             as [[r s] e].
           exact IH.
        -- unfold trySend.
           destruct (len (queue (llm.ttsChan sh)) <? cap (llm.ttsChan sh))
             eqn:Hroom.
           ++ apply Z.ltb_lt in Hroom.
              match goal with
              | |- context [llm.streamLoop lines ending ?f ?s] =>
                  specialize (IH ending f s Hlive);
                  destruct (llm.streamLoop lines ending f s) as [[r s'] e]
              end.
              fields. destruct IH as (Hq & Hc).
              split; [| exact Hc].
              rewrite Hq, <- app_assoc. cbn [app]. f_equal.
              rewrite Zlength_correct, length_app in *. cbn [List.length] in *.
              zlen.
              replace (Z.to_nat
                         (cap (llm.ttsChan sh)
                          - Z.of_nat (List.length (queue (llm.ttsChan sh)))))
                with (S (Z.to_nat
                           (cap (llm.ttsChan sh)
                            - Z.of_nat
                                (List.length (queue (llm.ttsChan sh)) + 1))))
                by lia.
              reflexivity.
           ++ apply Z.ltb_ge in Hroom.
              match goal with
              | |- context [llm.streamLoop lines ending ?f ?s] =>
                  specialize (IH ending f s Hlive);
                  destruct (llm.streamLoop lines ending f s) as [[r s'] e]
              end.
              fields. destruct IH as (Hq & Hc).
              split; [| exact Hc].
              rewrite Hq.
              replace (Z.to_nat
                         (cap (llm.ttsChan sh) - len (queue (llm.ttsChan sh))))
                with 0%nat by lia.
              reflexivity.
      * destruct (String.eqb (llm.Status llmResponse) "warning").
        -- specialize (IH ending fullResponse sh Hlive).
           destruct (llm.streamLoop lines ending fullResponse sh)
             as [[r s] e].
           exact IH.
        -- destruct (String.eqb (llm.Status llmResponse) "complete").
           ++ fields. rewrite firstn_nil, app_nil_r. split; reflexivity.
           ++ specialize (IH ending fullResponse sh Hlive).
              destruct (llm.streamLoop lines ending fullResponse sh)
                as [[r s] e].
              exact IH.
Qed.

Lemma X16_witness :
  let sh' :=
    snd (fst (llm.streamLoop
                [llm.Parsed (Scenario.fragment "one");
                 llm.Parsed (Scenario.fragment "two")]
                llm.EOF "" Scenario.congested)) in
  queue (llm.ttsChan sh')
  = queue (llm.ttsChan Scenario.congested)
    ++ firstn (Z.to_nat (cap (llm.ttsChan Scenario.congested)
                         - len (queue (llm.ttsChan Scenario.congested))))
         (fragments [llm.Parsed (Scenario.fragment "one");
                     llm.Parsed (Scenario.fragment "two")]) /\
  cap (llm.ttsChan sh') = cap (llm.ttsChan Scenario.congested).
Proof.
  apply (X16_fragments_kept_up_to_capacity
           [llm.Parsed (Scenario.fragment "one");
            llm.Parsed (Scenario.fragment "two")]
           llm.EOF "" Scenario.congested).
  reflexivity.
Defined.

(** X17.  The stream loop records at most one assistant turn: the
    message of the first "complete" line, not the concatenation of the
    chunks, which has no effect on the result.  Without a "complete"
    line the history is left as it was; the loop then returns an error
    only when reading the stream fails. *)
Theorem X17_assistant_turn_is_the_complete_message :
  forall (lines : list llm.Line) (ending : llm.StreamEnd)
         (fullResponse : string) (sh : llm.Shared),
    ClientAbort (llm.connectionState sh) = false ->
    let r := llm.streamLoop lines ending fullResponse sh in
    llm.dialogues (snd (fst r))
    = llm.dialogues sh
      ++ match completion lines with
         | Some message => [{| Role := "assistant"; Content := message |}]
         | None => []
         end /\
    fst (fst r)
    = match completion lines, ending with
      | None, llm.ReadError => Some ErrLLMRead
      | _, _ => None
      end.
Proof.
  induction lines as [| line lines IH]; intros ending fullResponse sh Hlive.
  - cbn [llm.streamLoop completion]. rewrite Hlive.
    rewrite app_nil_r. destruct ending; split; reflexivity.
  - cbn [llm.streamLoop completion]. rewrite Hlive.
    destruct line as [| | llmResponse].
    + specialize (IH ending fullResponse sh Hlive).
      destruct (llm.streamLoop lines ending fullResponse sh) as [[r s] e].
      exact IH.
    + specialize (IH ending fullResponse sh Hlive).
      destruct (llm.streamLoop lines ending fullResponse sh) as [[r s] e].
      exact IH.
    + assert (Hstep :
        forall f (s : llm.Shared) ev,
          ClientAbort (llm.connectionState s) = false ->
          llm.dialogues s = llm.dialogues sh ->
          llm.dialogues
            (snd (fst (let '(r, s', ev') := llm.streamLoop lines ending f s in
                       (r, s', ev ++ ev'))))
          = llm.dialogues sh
            ++ match completion lines with
               | Some message =>
                   [{| Role := "assistant"; Content := message |}]
               | None => []
               end /\
          fst (fst (let '(r, s', ev') := llm.streamLoop lines ending f s in
                    (r, s', ev ++ ev')))
          = match completion lines, ending with
            | None, llm.ReadError => Some ErrLLMRead
            | _, _ => None
            end).
      { intros f s ev Hs Hd.
        pose proof (IH ending f s Hs) as H. rewrite Hd in H.
        destruct (llm.streamLoop lines ending f s) as [[? ?] ?].
        exact H. }
      destruct (String.eqb (llm.Status llmResponse) "streaming").
      * destruct (String.eqb (llm.Chunk llmResponse) ""); cbn [negb].
        -- now apply Hstep.
        -- destruct (trySend (llm.Chunk llmResponse) (llm.ttsChan sh));
             now apply Hstep.
      * destruct (String.eqb (llm.Status llmResponse) "warning");
          [now apply Hstep |].
        destruct (String.eqb (llm.Status llmResponse) "complete");
          [| now apply Hstep].
        fields. split; reflexivity.
Qed.

Lemma X17_witness :
  let r :=
    llm.streamLoop
      [llm.Parsed (Scenario.fragment "he"); llm.Parsed (Scenario.fragment "y");
       llm.Parsed (Scenario.complete "hey there")]
      llm.EOF "" (sharedOf Scenario.replying) in
  llm.dialogues (snd (fst r))
  = llm.dialogues (sharedOf Scenario.replying)
    ++ match completion
               [llm.Parsed (Scenario.fragment "he");
                llm.Parsed (Scenario.fragment "y");
                llm.Parsed (Scenario.complete "hey there")] with
       | Some message => [{| Role := "assistant"; Content := message |}]
       | None => []
       end /\
  fst (fst r)
  = match completion
            [llm.Parsed (Scenario.fragment "he");
             llm.Parsed (Scenario.fragment "y");
             llm.Parsed (Scenario.complete "hey there")], llm.EOF with
    | None, llm.ReadError => Some ErrLLMRead
    | _, _ => None
    end.
Proof.
  apply (X17_assistant_turn_is_the_complete_message
           [llm.Parsed (Scenario.fragment "he");
            llm.Parsed (Scenario.fragment "y");
            llm.Parsed (Scenario.complete "hey there")]
           llm.EOF "" (sharedOf Scenario.replying)).
  reflexivity.
Defined.



(* ------------------------------------------------------------------ *)
(** ** More on the chat and synthesis stages *)

(** X19.  A turn of the chat stage whose request to the model fails (no
    answer, or a status other than 200) has already recorded the user
    turn and queued the "tts start" frame: the history keeps a user
    turn without an answer, the device is told that speech starts, and
    nothing is queued for synthesis. *)
Theorem X19_failed_generation_leaves_user_turn :
  forall (reply : llm.LLMReply) (wsc : WebSocketConnection)
         (text : string) (rest : list string),
    ctxDone wsc = false ->
    queue (llmChan wsc) = text :: rest ->
    match reply with
    | llm.SendFailed => True
    | llm.Http code _ _ => code <> 200
    end ->
    exists wsc',
      handleChat_turn reply wsc = Next wsc' /\
      dialogueStore wsc'
      = dialogueStore wsc ++ [{| Role := "user"; Content := text |}] /\
      queue (responseChan wsc')
      = queue (responseChan wsc)
        ++ [{| MessageType := TextMessage;
               Data := JSON (command "tts" "" "start" "" "" 0) |}] /\
      queue (llmChan wsc') = rest /\
      ttsChan wsc' = ttsChan wsc /\
      connectionState wsc' = connectionState wsc /\
      filter isCallLLM (trace wsc')
      = filter isCallLLM (trace wsc)
        ++ [CallLLM
              (dialogueStore wsc ++ [{| Role := "user"; Content := text |}])].
Proof.
  intros reply wsc text rest Hctx Hq Hfail.
  unfold handleChat_turn, startSpeak, sendResponse.
  rewrite Hctx, Hq. fields. rewrite Hctx.
  unfold llm.ProcessLLM.
  destruct reply as [| code lines ending].
  - eexists. split; [reflexivity |]. fields.
    rewrite !filter_app. cbn [filter isCallLLM app].
    rewrite !app_nil_r. repeat split.
  - apply Z.eqb_neq in Hfail. rewrite Hfail. cbn [negb].
    eexists. split; [reflexivity |]. fields.
    rewrite !filter_app. cbn [filter isCallLLM app].
    rewrite !app_nil_r. repeat split.
Qed.

Lemma X19_witness :
  exists wsc',
    handleChat_turn (llm.Http 503 [] llm.EOF)
      (send2LLM "hi" Scenario.fresh) = Next wsc' /\
    dialogueStore wsc'
    = dialogueStore (send2LLM "hi" Scenario.fresh)
      ++ [{| Role := "user"; Content := "hi" |}] /\
    queue (responseChan wsc')
    = queue (responseChan (send2LLM "hi" Scenario.fresh))
      ++ [{| MessageType := TextMessage;
             Data := JSON (command "tts" "" "start" "" "" 0) |}] /\
    queue (llmChan wsc') = [] /\
    ttsChan wsc' = ttsChan (send2LLM "hi" Scenario.fresh) /\
    connectionState wsc' = connectionState (send2LLM "hi" Scenario.fresh) /\
    filter isCallLLM (trace wsc')
    = filter isCallLLM (trace (send2LLM "hi" Scenario.fresh))
      ++ [CallLLM
            (dialogueStore (send2LLM "hi" Scenario.fresh)
             ++ [{| Role := "user"; Content := "hi" |}])].
Proof.
  apply (X19_failed_generation_leaves_user_turn (llm.Http 503 [] llm.EOF)
           (send2LLM "hi" Scenario.fresh) "hi" []).
  - reflexivity.
  - reflexivity.
  - discriminate.
Defined.






Lemma callTTSService_request :
  forall text sessionId reply,
    snd (tts.callTTSService text sessionId reply) = [CallTTS text].
Proof.
  intros text sessionId reply. unfold tts.callTTSService.
  destruct reply as [| | code [ttsResponse |]]; try reflexivity.
  - destruct (code =? 200); cbn [negb]; [| reflexivity].
    destruct (String.eqb (tts.Status ttsResponse) "success"); cbn [negb];
      [| reflexivity].
    destruct (tts.decodeFrames (tts.AudioData ttsResponse)); reflexivity.
  - destruct (code =? 200); reflexivity.
Qed.

(** X22.  A turn of the synthesis stage whose synthesis fails consumes
    the fragment and queues nothing for the device: no audio and, even
    when the fragment was the last of the reply, no "tts stop" frame.
    The duration is not raised; the start-of-speech time stays set. *)
Theorem X22_failed_synthesis_turn :
  forall (w : TTSWorld) (wsc : WebSocketConnection) (text : string)
         (rest : list string) (e : error),
    ctxDone wsc = false ->
    ClientAbort (connectionState wsc) = false ->
    queue (ttsChan wsc) = text :: rest ->
    fst (tts.callTTSService text (SessionId (connectionState wsc))
           (ttsReply w)) = Err e ->
    exists wsc',
      handleTTS_turn w wsc = Next wsc' /\
      queue (ttsChan wsc') = rest /\
      responseChan wsc' = responseChan wsc /\
      filter isCallTTS (trace wsc')
      = filter isCallTTS (trace wsc) ++ [CallTTS text] /\
      TTSDuration (connectionState wsc')
      = TTSDuration (connectionState wsc) /\
      StartSpeakTime (connectionState wsc')
      = (if StartSpeakTime (connectionState wsc) =? 0
         then nowStart w else StartSpeakTime (connectionState wsc)).
Proof.
  intros w wsc text rest e Hctx Hlive Hq Hfail.
  unfold handleTTS_turn. rewrite Hctx, Hq. fields.
  set (wsc1 :=
         if StartSpeakTime (connectionState wsc) =? 0
         then onConn (set_StartSpeakTime (nowStart w))
                (emit [Log LDebug "ws.handleTTS.received"]
                   (set_ttsChan (withQueue rest (ttsChan wsc)) wsc))
         else emit [Log LDebug "ws.handleTTS.received"]
                (set_ttsChan (withQueue rest (ttsChan wsc)) wsc)).
  assert (H1 :
    queue (ttsChan wsc1) = rest /\
    responseChan wsc1 = responseChan wsc /\
    trace wsc1 = trace wsc ++ [Log LDebug "ws.handleTTS.received"] /\
    StartSpeakTime (connectionState wsc1)
    = (if StartSpeakTime (connectionState wsc) =? 0
       then nowStart w else StartSpeakTime (connectionState wsc)) /\
    TTSDuration (connectionState wsc1) = TTSDuration (connectionState wsc) /\
    SessionId (connectionState wsc1) = SessionId (connectionState wsc) /\
    ClientAbort (connectionState wsc1) = false).
  { subst wsc1.
    destruct (StartSpeakTime (connectionState wsc) =? 0); fields;
      repeat split; assumption. }
  clearbody wsc1.
  destruct H1 as (A1 & A2 & A3 & A4 & A5 & A6 & A7).
  rewrite A7. unfold TTS, tts.ProcessTTS. rewrite A6.
  pose proof (callTTSService_request text (SessionId (connectionState wsc))
                (ttsReply w)) as Hreq.
  destruct (tts.callTTSService text (SessionId (connectionState wsc))
              (ttsReply w)) as [r ev].
  cbn [fst snd] in *. subst r ev.
  eexists. split; [reflexivity |]. fields.
  rewrite A1, A2, A3, A4, A5.
  rewrite !filter_app. cbn [filter isCallTTS app].
  rewrite !app_nil_r. repeat split.
Qed.

Lemma X22_witness :
  let w := {| nowStart := 5000; ttsReply := tts.Http 500 None;
              nowEnd := 5100 |} in
  let wsc := set_ttsChan (push "hello" (ttsChan Scenario.fresh))
               Scenario.fresh in
  exists wsc',
    handleTTS_turn w wsc = Next wsc' /\
    queue (ttsChan wsc') = [] /\
    responseChan wsc' = responseChan wsc /\
    filter isCallTTS (trace wsc')
    = filter isCallTTS (trace wsc) ++ [CallTTS "hello"] /\
    TTSDuration (connectionState wsc')
    = TTSDuration (connectionState wsc) /\
    StartSpeakTime (connectionState wsc')
    = (if StartSpeakTime (connectionState wsc) =? 0
       then nowStart w else StartSpeakTime (connectionState wsc)).
Proof.
  intros w wsc.
  exact (X22_failed_synthesis_turn w wsc "hello" [] (ErrTTSStatusCode 500)
           eq_refl eq_refl eq_refl eq_refl).
Defined.

(* ------------------------------------------------------------------ *)
(** ** The writer *)

(** X23.  While its writes succeed the writer takes the queued frames in
    the order they were queued and writes them in that order, after what
    it wrote before; it neither cancels the context nor logs. *)
Theorem X23_writer_is_fifo :
  forall (n : nat) (wsc : WebSocketConnection),
    ctxDone wsc = false ->
    let wsc' := handleResponses (repeat true n) wsc in
    written wsc' = written wsc ++ firstn n (queue (responseChan wsc)) /\
    queue (responseChan wsc') = skipn n (queue (responseChan wsc)) /\
    ctxDone wsc' = false /\
    trace wsc' = trace wsc.
Proof.
  induction n as [| n IH]; intros wsc Hctx.
  - cbn [repeat handleResponses firstn skipn]. rewrite app_nil_r.
    repeat split. exact Hctx.
  - cbn [repeat handleResponses]. unfold handleResponses_turn.
    rewrite Hctx.
    destruct (queue (responseChan wsc)) as [| response rest] eqn:Hq.
    + cbn [firstn skipn]. rewrite app_nil_r, Hq. repeat split. exact Hctx.
    + match goal with
      | |- context [handleResponses (repeat true n) ?s] =>
          destruct (IH s) as (I1 & I2 & I3 & I4); [fields; exact Hctx |]
      end.
      cbv zeta. rewrite I1, I2, I3, I4. fields.
      cbn [firstn skipn]. rewrite <- app_assoc. repeat split.
Qed.

Lemma X23_witness :
  let wsc :=
    sendResponse BinaryMessage (Bytes [x0b])
      (sendResponse BinaryMessage (Bytes [x0a]) Scenario.fresh) in
  let wsc' := handleResponses (repeat true 2) wsc in
  written wsc' = written wsc ++ firstn 2 (queue (responseChan wsc)) /\
  queue (responseChan wsc') = skipn 2 (queue (responseChan wsc)) /\
  ctxDone wsc' = false /\
  trace wsc' = trace wsc.
Proof.
  intro wsc.
  exact (X23_writer_is_fifo 2 wsc eq_refl).
Defined.

(** X24.  The first write that fails cancels the context and ends the
    writer: the frame of that write is lost (it has left the channel and
    was not written), the frames queued behind it stay in the channel
    and are never written, whatever the later writes would do. *)
Theorem X24_write_failure_cancels :
  forall (n : nat) (later : list bool) (wsc : WebSocketConnection),
    ctxDone wsc = false ->
    (n < List.length (queue (responseChan wsc)))%nat ->
    let wsc' := handleResponses (repeat true n ++ false :: later) wsc in
    written wsc' = written wsc ++ firstn n (queue (responseChan wsc)) /\
    queue (responseChan wsc') = skipn (S n) (queue (responseChan wsc)) /\
    ctxDone wsc' = true /\
    wsc' = handleResponses (repeat true n ++ [false]) wsc.
Proof.
  induction n as [| n IH]; intros later wsc Hctx Hn.
  - cbn [repeat app handleResponses]. unfold handleResponses_turn.
    rewrite Hctx.
    destruct (queue (responseChan wsc)) as [| response rest] eqn:Hq;
      [cbn [List.length] in Hn; lia |].
    cbv zeta. fields. cbn [firstn skipn]. rewrite app_nil_r.
    repeat split.
  - cbn [repeat app handleResponses]. unfold handleResponses_turn.
    rewrite Hctx.
    destruct (queue (responseChan wsc)) as [| response rest] eqn:Hq;
      [cbn [List.length] in Hn; lia |].
    cbn [List.length] in Hn.
    match goal with
    | |- context [handleResponses (repeat true n ++ false :: later) ?s] =>
        destruct (IH later s) as (I1 & I2 & I3 & I4);
        [fields; exact Hctx | fields; lia |]
    end.
    cbv zeta. rewrite <- I4, I1, I2, I3. fields.
    cbn [firstn]. rewrite <- app_assoc. repeat split.
Qed.

Lemma X24_witness :
  let wsc :=
    sendResponse BinaryMessage (Bytes [x0b])
      (sendResponse BinaryMessage (Bytes [x0a]) Scenario.fresh) in
  let wsc' := handleResponses (repeat true 0 ++ false :: [true]) wsc in
  written wsc' = written wsc ++ firstn 0 (queue (responseChan wsc)) /\
  queue (responseChan wsc') = skipn 1 (queue (responseChan wsc)) /\
  ctxDone wsc' = true /\
  wsc' = handleResponses (repeat true 0 ++ [false]) wsc.
Proof.
  intro wsc.
  apply (X24_write_failure_cancels 0 [true] wsc).
  - reflexivity.
  - vm_compute. lia.
Defined.

(* ------------------------------------------------------------------ *)
(** ** Samples and bytes *)

Lemma byteVal_byteOf : forall x, vad.byteVal (vad.byteOf x) = x mod 256.
Proof.
  intro x. unfold vad.byteVal, vad.byteOf.
  assert (Hx : 0 <= x mod 256 < 256) by (apply Z.mod_pos_bound; lia).
  destruct (Byte.of_N (Z.to_N (x mod 256))) as [b |] eqn:E.
  - apply Byte.to_of_N in E. rewrite E. lia.
  - apply Byte.of_N_None_iff in E. lia.
Qed.

Lemma byteVal_bound : forall b, 0 <= vad.byteVal b < 256.
Proof.
  intro b. unfold vad.byteVal.
  pose proof (Byte.to_N_bounded b). lia.
Qed.

Lemma byteOf_byteVal : forall b, vad.byteOf (vad.byteVal b) = b.
Proof.
  intro b. unfold vad.byteOf.
  rewrite Z.mod_small by apply byteVal_bound.
  unfold vad.byteVal. rewrite N2Z.id, Byte.of_to_N. reflexivity.
Qed.

Lemma int16_small :
  forall x, -32768 <= x < 32768 -> vad.int16 x = x.
Proof.
  intros x Hx. unfold vad.int16.
  rewrite Z.mod_small by lia. lia.
Qed.

(** The sample made of a low byte [lo] and a high byte [hi]. *)
Lemma sample_of_bytes :
  forall lo hi,
    0 <= lo < 256 -> 0 <= hi < 256 ->
    let sample := Z.lor (vad.int16 lo) (vad.int16 (Z.shiftl (vad.int16 hi) 8)) in
    -32768 <= sample < 32768 /\
    sample mod 256 = lo /\
    (sample / 256) mod 256 = hi.
Proof.
  intros lo hi Hlo Hhi.
  rewrite (int16_small lo), (int16_small hi) by lia.
  rewrite Z.shiftl_mul_pow2 by lia. change (2 ^ 8) with 256.
  set (q := if hi <? 128 then hi else hi - 256).
  assert (Hq : -128 <= q < 128) by (subst q; destruct (Z.ltb_spec hi 128); lia).
  assert (Hwrap : vad.int16 (hi * 256) = q * 256).
  { unfold vad.int16. subst q.
    destruct (Z.ltb_spec hi 128).
    - rewrite Z.mod_small by lia. lia.
    - replace (hi * 256 + 32768) with ((hi * 256 - 32768) + 1 * 65536) by lia.
      rewrite Z.mod_add by lia. rewrite Z.mod_small by lia. lia. }
  rewrite Hwrap.
  assert (Hor : Z.lor lo (q * 256) = lo + q * 256).
  { rewrite <- Z.lxor_lor.
    - symmetry. apply Z.add_nocarry_lxor.
      apply Z.bits_inj'. intros n Hn.
      rewrite Z.land_spec, Z.bits_0.
      destruct (Z.ltb_spec n 8).
      + replace (q * 256) with (q * 2 ^ 8) by lia.
        rewrite (Z.mul_pow2_bits_low q 8 n) by lia.
        apply andb_false_r.
      + replace lo with (lo mod 2 ^ 8) by (apply Z.mod_small; lia).
        rewrite Z.mod_pow2_bits_high by lia. reflexivity.
    - apply Z.bits_inj'. intros n Hn.
      rewrite Z.land_spec, Z.bits_0.
      destruct (Z.ltb_spec n 8).
      + replace (q * 256) with (q * 2 ^ 8) by lia.
        rewrite (Z.mul_pow2_bits_low q 8 n) by lia.
        apply andb_false_r.
      + replace lo with (lo mod 2 ^ 8) by (apply Z.mod_small; lia).
        rewrite Z.mod_pow2_bits_high by lia. reflexivity. }
  cbv zeta. rewrite Hor.
  split; [lia |]. split.
  - rewrite Z.mod_add by lia. apply Z.mod_small; lia.
  - rewrite Z.div_add by lia. rewrite (Z.div_small lo) by lia.
    subst q. destruct (Z.ltb_spec hi 128).
    + apply Z.mod_small; lia.
    + replace (0 + (hi - 256)) with (hi + (-1) * 256) by lia.
      rewrite Z.mod_add by lia. apply Z.mod_small; lia.
Qed.

(** The bytes of a sample. *)
Lemma bytes_of_sample :
  forall sample,
    -32768 <= sample < 32768 ->
    Z.lor (vad.int16 (Z.land sample 255 mod 256))
      (vad.int16 (Z.shiftl (vad.int16 (Z.land (Z.shiftr sample 8) 255 mod 256)) 8))
    = sample.
Proof.
  intros sample Hs.
  change 255 with (Z.ones 8).
  rewrite !Z.land_ones by lia. change (2 ^ 8) with 256.
  rewrite Z.shiftr_div_pow2 by lia. change (2 ^ 8) with 256.
  rewrite !Z.mod_mod by lia.
  set (lo := sample mod 256). set (hi := (sample / 256) mod 256).
  assert (Hlo : 0 <= lo < 256) by (apply Z.mod_pos_bound; lia).
  assert (Hhi : 0 <= hi < 256) by (apply Z.mod_pos_bound; lia).
  destruct (sample_of_bytes lo hi Hlo Hhi) as (Hrange & Hlow & Hhigh).
  cbv zeta in *.
  set (r := Z.lor (vad.int16 lo) (vad.int16 (Z.shiftl (vad.int16 hi) 8))) in *.
  subst lo hi.
  rewrite (Z.div_mod sample 256), (Z.div_mod r 256) by lia.
  assert (Hdiv : r / 256 = sample / 256).
  { assert (-128 <= r / 256 < 128)
      by (split; [apply Z.div_le_lower_bound | apply Z.div_lt_upper_bound];
          lia).
    assert (-128 <= sample / 256 < 128)
      by (split; [apply Z.div_le_lower_bound | apply Z.div_lt_upper_bound];
          lia).
    assert (Hmod : (r / 256 - sample / 256) mod 256 = 0).
    { rewrite Zminus_mod, Hhigh, Z.sub_diag. reflexivity. }
    apply Z.mod_divide in Hmod; [| lia].
    destruct Hmod as [k Hk]. lia. }
  rewrite Hdiv, Hlow. reflexivity.
Qed.

(** X25.  [bytesToInt16] inverts the byte packing of [decodeOpus]: the
    samples read back from the bytes written for a list of [int16]
    samples are those samples; the packing writes two bytes for each
    sample. *)
Theorem X25_samples_round_trip :
  forall (pcmBuffer : list Z),
    Forall (fun sample => -32768 <= sample < 32768) pcmBuffer ->
    vad.bytesToInt16 (vad.pcmBytes pcmBuffer) = pcmBuffer /\
    len (vad.pcmBytes pcmBuffer) = 2 * len pcmBuffer.
Proof.
  intros pcmBuffer Hrange. split.
  - induction Hrange as [| sample pcmBuffer Hs _ IH]; [reflexivity |].
    unfold vad.pcmBytes in *. cbn [flat_map app vad.bytesToInt16].
    rewrite IH, !byteVal_byteOf.
    f_equal. now apply bytes_of_sample.
  - clear Hrange. unfold vad.pcmBytes.
    induction pcmBuffer as [| sample pcmBuffer IH]; [reflexivity |].
    cbn [flat_map app]. rewrite !Zlength_cons, IH. lia.
Qed.

Lemma X25_witness :
  vad.bytesToInt16 (vad.pcmBytes [0; 1; -1; 255; 256; -256; 32767; -32768])
  = [0; 1; -1; 255; 256; -256; 32767; -32768] /\
  len (vad.pcmBytes [0; 1; -1; 255; 256; -256; 32767; -32768])
  = 2 * len [0; 1; -1; 255; 256; -256; 32767; -32768].
Proof.
  apply (X25_samples_round_trip [0; 1; -1; 255; 256; -256; 32767; -32768]).
  repeat (constructor; [lia |]). constructor.
Defined.

(** X26.  [bytesToInt16] reads one [int16] sample for every two bytes
    and leaves out a last byte without a pair; writing the samples back
    gives the bytes read. *)
Theorem X26_bytes_round_trip :
  forall (bytes : list byte),
    Forall (fun sample => -32768 <= sample < 32768)
      (vad.bytesToInt16 bytes) /\
    List.length (vad.bytesToInt16 bytes) = Nat.div2 (List.length bytes) /\
    vad.pcmBytes (vad.bytesToInt16 bytes)
    = firstn (2 * Nat.div2 (List.length bytes)) bytes.
Proof.
  assert (Hpairs :
    forall n (bytes : list byte), (List.length bytes <= n)%nat ->
      Forall (fun sample => -32768 <= sample < 32768)
        (vad.bytesToInt16 bytes) /\
      List.length (vad.bytesToInt16 bytes) = Nat.div2 (List.length bytes) /\
      vad.pcmBytes (vad.bytesToInt16 bytes)
      = firstn (2 * Nat.div2 (List.length bytes)) bytes).
  { induction n as [| n IH]; intros bytes Hn.
    - destruct bytes; [| cbn [List.length] in Hn; lia].
      repeat split. constructor.
    - destruct bytes as [| lo [| hi bytes]].
      + repeat split. constructor.
      + repeat split. constructor.
      + cbn [List.length] in Hn.
        destruct (IH bytes) as (I1 & I2 & I3); [lia |].
        pose proof (sample_of_bytes (vad.byteVal lo) (vad.byteVal hi)
                      (byteVal_bound lo) (byteVal_bound hi)) as Hsample.
        cbv zeta in Hsample. destruct Hsample as (Hrange & Hlow & Hhigh).
        cbn [vad.bytesToInt16 List.length Nat.div2].
        split; [constructor; assumption |].
        split; [now rewrite I2 |].
        unfold vad.pcmBytes in *. cbn [flat_map app].
        rewrite I3.
        change 255 with (Z.ones 8).
        rewrite !Z.land_ones by lia. change (2 ^ 8) with 256.
        rewrite Z.shiftr_div_pow2 by lia. change (2 ^ 8) with 256.
        rewrite Hlow, Hhigh, !byteOf_byteVal.
        replace (2 * S (Nat.div2 (List.length bytes)))%nat
          with (S (S (2 * Nat.div2 (List.length bytes)))) by lia.
        reflexivity. }
  intro bytes. exact (Hpairs (List.length bytes) bytes (Nat.le_refl _)).
Qed.

(* ------------------------------------------------------------------ *)
(** ** Start-up: logging, configuration, the service probe *)





Lemma probe_spec :
  forall (health : nat -> bool) (remaining i : nat),
    let '(ready, sent, ev) := server.probe health i remaining in
    if ready
    then exists k,
        (k < remaining)%nat /\ health (i + k)%nat = true /\
        (forall j, (j < k)%nat -> health (i + j)%nat = false) /\
        sent = S k /\ ev = repeat (Sleep 1000) k
    else (forall k, (k < remaining)%nat -> health (i + k)%nat = false) /\
         sent = remaining /\ ev = repeat (Sleep 1000) remaining.
Proof.
  intros health. induction remaining as [| remaining IH]; intro i.
  - cbn [server.probe]. repeat split. intros k Hk. lia.
  - cbn [server.probe].
    destruct (health i) eqn:Hi.
    + exists 0%nat. rewrite Nat.add_0_r.
      repeat split; [lia | exact Hi | intros j Hj; lia].
    + specialize (IH (S i)).
      destruct (server.probe health (S i) remaining) as [[ready sent] ev].
      destruct ready.
      * destruct IH as (k & Hk & Hok & Hbefore & -> & ->).
        exists (S k).
        replace (i + S k)%nat with (S i + k)%nat by lia.
        repeat split; [lia | exact Hok |].
        intros [| j] Hj; [now rewrite Nat.add_0_r |].
        replace (i + S j)%nat with (S i + j)%nat by lia.
        apply Hbefore. lia.
      * destruct IH as (Hnone & -> & ->).
        repeat split.
        intros [| k] Hk; [now rewrite Nat.add_0_r |].
        replace (i + S k)%nat with (S i + k)%nat by lia.
        apply Hnone. lia.
Qed.

(** X29.  [InitializePythonAPI] returns nil exactly when one of the
    first 30 health probes is answered.  It then has sent no probe after
    the first one answered and paused one second for each probe before
    it.  When none of the 30 is answered it returns the error naming the
    address, after 30 probes and 30 pauses: it also pauses after the
    last probe. *)
Theorem X29_InitializePythonAPI_bounded_wait :
  forall (pythonAPI : string) (health : nat -> bool),
    let '(err, sent, ev) := server.InitializePythonAPI pythonAPI health in
    (err = None <-> exists i, (i < 30)%nat /\ health i = true) /\
    (forall i,
        (i < 30)%nat -> health i = true ->
        (forall j, (j < i)%nat -> health j = false) ->
        sent = S i /\
        ev = Log LInfo "server.waiting" :: repeat (Sleep 1000) i
             ++ [Log LInfo "server.ready"; Log LInfo "server.initialized"]) /\
    ((forall i, (i < 30)%nat -> health i = false) ->
     err = Some (server.ErrUnavailable pythonAPI) /\
     sent = 30%nat /\
     ev = Log LInfo "server.waiting" :: repeat (Sleep 1000) 30).
Proof.
  intros pythonAPI health. unfold server.InitializePythonAPI.
  pose proof (probe_spec health 30 0) as Hprobe.
  destruct (server.probe health 0 30) as [[ready sent] ev].
  destruct ready; cbn [negb].
  - destruct Hprobe as (k & Hk & Hok & Hbefore & -> & ->).
    cbn [Nat.add] in *.
    split; [split; [intros _; exists k; auto | reflexivity] |].
    split.
    + intros i Hi Hanswer Hfirst.
      assert (i = k).
      { destruct (Nat.lt_trichotomy i k) as [Hlt | [Heq | Hgt]];
          [| exact Heq |].
        - specialize (Hbefore i Hlt). congruence.
        - specialize (Hfirst k Hgt). congruence. }
      subst i. split; reflexivity.
    + intros Hnone. specialize (Hnone k Hk). congruence.
  - destruct Hprobe as (Hnone & -> & ->).
    cbn [Nat.add] in *.
    split; [split; [discriminate |] |].
    + intros (i & Hi & Hanswer). specialize (Hnone i Hi). congruence.
    + split.
      * intros i Hi Hanswer _. specialize (Hnone i Hi). congruence.
      * intros _. repeat split.
Qed.

Lemma X29_witness :
  server.InitializePythonAPI "http://127.0.0.1:8001" (fun i => Nat.eqb i 2)
  = (None, 3%nat,
     [Log LInfo "server.waiting"; Sleep 1000; Sleep 1000;
      Log LInfo "server.ready"; Log LInfo "server.initialized"]).
Proof.
  pose proof (X29_InitializePythonAPI_bounded_wait "http://127.0.0.1:8001"
                (fun i => Nat.eqb i 2)) as H.
  destruct (server.InitializePythonAPI "http://127.0.0.1:8001"
              (fun i => Nat.eqb i 2)) as [[err sent] ev].
  destruct H as (Hnil & Hfirst & _).
  destruct (Hfirst 2%nat) as [-> ->].
  - lia.
  - reflexivity.
  - intros [| [| j]] Hj; [reflexivity | reflexivity | lia].
  - replace err with (@None server.InitError); [reflexivity |].
    symmetry. apply Hnil. exists 2%nat. split; [lia | reflexivity].
Defined.

(* ------------------------------------------------------------------ *)
(** ** Authentication *)



